(** * cms-worker: a download front-end over an object store and a counter store

    The repository holds two revisions of one Cloudflare worker:
    - [src/index.js]: generate / download / upload / files, no counters;
    - [src/unnamed/part_000]: the same routes plus per-file download
      counters kept in a key-value namespace ([/stats], [/all-stats],
      [/reset-stats], [/debug/kv]).

    Conventions of the embedding.
    - A JavaScript string is a Rocq [string] holding its UTF-8 bytes.  The
      built-ins used by the worker ([startsWith], [split], [lastIndexOf],
      [substring], [toLowerCase], [includes], [decodeURIComponent],
      [encodeURIComponent], [parseInt], [Number.prototype.toString]) are
      written out below on that representation.
    - An [async] function is a computation in the monad [M]: it threads the
      [World] (object store, counter store, the record of backend calls)
      and either returns a value or throws.  [await] is sequencing: requests
      are handled one after the other.
    - The bucket and the counter namespace are finite maps; a call to
      either is recorded in the world and throws when the world's [fault]
      says so.  A listing returns the first 1000 keys in key order, as the
      bindings do when no cursor is followed.
    - A number is an IEEE double; the worker only holds integers, [NaN] and
      the infinities, and arithmetic rounds to the nearest double.
    - [Headers.set] strips the white space around a value and throws on a
      value with a NUL, CR or LF.
    - [debugLog] only writes to the console and is left out, but its
      arguments are evaluated: the one that can throw,
      [Object.fromEntries(object.headers)] in [handleDownload], is kept. *)

From Stdlib Require Import ZArith Ascii String List Bool Lia.
From stdpp Require Import base option list sorting gmap strings.

Local Open Scope string_scope.
Local Open Scope Z_scope.

(** ** JavaScript strings *)

Module JS.

(** [s.startsWith(p)] *)
Definition startsWith (s p : string) : bool := String.prefix p s.

(** [s.lastIndexOf(c)] for a one-character search string: the index of the
    last occurrence, or [-1]. *)
Fixpoint lastIndexOf_from (c : ascii) (s : string) (i found : Z) : Z :=
  match s with
  | EmptyString => found
  | String a s' => lastIndexOf_from c s' (i + 1) (if Ascii.eqb a c then i else found)
  end.

Definition lastIndexOf (s : string) (c : ascii) : Z := lastIndexOf_from c s 0 (-1).

Fixpoint drop_chars (n : nat) (s : string) : string :=
  match n, s with
  | O, _ => s
  | S _, EmptyString => EmptyString
  | S n', String _ s' => drop_chars n' s'
  end.

(** [s.substring(start)]: a negative start is clamped to 0, a start past the
    end to the length. *)
Definition substring (s : string) (start : Z) : string :=
  drop_chars (Z.to_nat (Z.max 0 start)) s.

Definition lower_ascii (a : ascii) : ascii :=
  let n := nat_of_ascii a in
  if (65 <=? n)%nat && (n <=? 90)%nat then ascii_of_nat (n + 32) else a.

(** [s.toLowerCase()].  The letters A-Z change and the bytes of a character
    outside ASCII are kept.  JavaScript also lower-cases two characters
    outside ASCII into ASCII letters (U+212A to [k], U+0130 to [i] followed
    by U+0307); neither result can make a string of the allow-list below, so
    the membership test of [isValidFile] is the one JavaScript makes. *)
Fixpoint toLowerCase (s : string) : string :=
  match s with
  | EmptyString => EmptyString
  | String a s' => String (lower_ascii a) (toLowerCase s')
  end.

(** [arr.includes(x)] on an array of strings *)
Definition includes (arr : list string) (x : string) : bool :=
  existsb (String.eqb x) arr.

Fixpoint rev_onto (acc s : string) : string :=
  match acc with
  | EmptyString => s
  | String a acc' => rev_onto acc' (String a s)
  end.

(** [s.split(sep)] for a non-empty separator.  [skip] counts the characters
    of a separator just matched that are still to be passed over; [acc] is
    the current piece, reversed. *)
Fixpoint split_go (sep : string) (skip : nat) (acc : string) (s : string) : list string :=
  match s with
  | EmptyString => [rev_onto acc EmptyString]
  | String a s' =>
      match skip with
      | S k => split_go sep k acc s'
      | O =>
          if String.prefix sep s
          then rev_onto acc EmptyString :: split_go sep (String.length sep - 1) EmptyString s'
          else split_go sep O (String a acc) s'
      end
  end.

Definition split (s sep : string) : list string := split_go sep O EmptyString s.

(** [String(v)] of an array element that may be missing ([undefined]). *)
Definition toStringU (v : option string) : string :=
  match v with Some s => s | None => "undefined" end.

(** *** Percent decoding *)

Definition hexval (a : ascii) : option nat :=
  let n := nat_of_ascii a in
  if (48 <=? n)%nat && (n <=? 57)%nat then Some (n - 48)%nat
  else if (65 <=? n)%nat && (n <=? 70)%nat then Some (n - 55)%nat
  else if (97 <=? n)%nat && (n <=? 102)%nat then Some (n - 87)%nat
  else None.

Inductive Tok := Raw (a : ascii) | Pct (b : nat).

(** First pass of [Decode]: every [%] must be followed by two hex digits. *)
Fixpoint unescape (s : string) : option (list Tok) :=
  match s with
  | EmptyString => Some []
  | String "%" (String h (String l rest)) =>
      match hexval h, hexval l with
      | Some a, Some b => cons (Pct (16 * a + b)) <$> unescape rest
      | _, _ => None
      end
  | String "%" _ => None
  | String a rest => cons (Raw a) <$> unescape rest
  end.

Definition between (lo hi b : nat) : bool := (lo <=? b)%nat && (b <=? hi)%nat.

(** A decimal digit *)
Definition is_digit (a : ascii) : bool := between 48 57 (nat_of_ascii a).

(** Second pass: an escaped byte of 0x80 and above must start a well-formed
    UTF-8 sequence whose other bytes are escaped as well (Unicode table
    3-7); anything else is a [URIError]. *)
Fixpoint assemble (ts : list Tok) : option string :=
  match ts with
  | [] => Some EmptyString
  | Raw a :: r => String a <$> assemble r
  | Pct b :: r =>
      if (b <? 128)%nat then String (ascii_of_nat b) <$> assemble r
      else if between 194 223 b then
        match r with
        | Pct b1 :: r1 =>
            if between 128 191 b1
            then (fun t => String (ascii_of_nat b) (String (ascii_of_nat b1) t)) <$> assemble r1
            else None
        | _ => None
        end
      else if between 224 239 b then
        match r with
        | Pct b1 :: Pct b2 :: r2 =>
            if between (if (b =? 224)%nat then 160 else 128)
                       (if (b =? 237)%nat then 159 else 191) b1
               && between 128 191 b2
            then (fun t => String (ascii_of_nat b) (String (ascii_of_nat b1)
                             (String (ascii_of_nat b2) t))) <$> assemble r2
            else None
        | _ => None
        end
      else if between 240 244 b then
        match r with
        | Pct b1 :: Pct b2 :: Pct b3 :: r3 =>
            if between (if (b =? 240)%nat then 144 else 128)
                       (if (b =? 244)%nat then 143 else 191) b1
               && between 128 191 b2 && between 128 191 b3
            then (fun t => String (ascii_of_nat b) (String (ascii_of_nat b1)
                             (String (ascii_of_nat b2) (String (ascii_of_nat b3) t)))) <$> assemble r3
            else None
        | _ => None
        end
      else None
  end.

(** [decodeURIComponent(s)]; [None] is a thrown [URIError]. *)
Definition decodeURIComponent (s : string) : option string :=
  unescape s ≫= assemble.

Definition hexdigit (n : nat) : ascii :=
  if (n <? 10)%nat then ascii_of_nat (48 + n) else ascii_of_nat (55 + n).

Definition unreserved (a : ascii) : bool :=
  let n := nat_of_ascii a in
  between 65 90 n || between 97 122 n || between 48 57 n
  || existsb (Ascii.eqb a) ["-"; "_"; "."; "!"; "~"; "*"; "'"; "("; ")"]%char.

(** [encodeURIComponent(s)]: every byte outside the unreserved set becomes
    [%XX]. *)
Fixpoint encodeURIComponent (s : string) : string :=
  match s with
  | EmptyString => EmptyString
  | String a s' =>
      if unreserved a then String a (encodeURIComponent s')
      else let n := nat_of_ascii a in
           String "%" (String (hexdigit (n / 16)) (String (hexdigit (n mod 16))
             (encodeURIComponent s')))
  end.

End JS.

(** ** JavaScript numbers

    A number is an IEEE 754 double.  The worker only ever holds integers in
    its numbers (counters, sizes, clock readings), [NaN] (a counter value
    that does not parse) or an infinity (a counter value of more than 308
    digits).  An integer-valued double is kept as the [Z] it is equal to;
    the two zeros are not told apart, which no expression of the worker
    does either.  Every integer below [2 ^ 53] in magnitude is a double;
    above, [of_Z] rounds to the nearest one. *)

Module Num.

Inductive Number := Num (z : Z) | NaN | Inf (negative : bool).

Definition MAX_SAFE_INTEGER : Z := 2 ^ 53 - 1.

(** The number value for the integer [z]: the nearest double, ties to the
    even significand, an infinity from [2 ^ 1024 - 2 ^ 970] on. *)
Definition of_Z (z : Z) : Number :=
  let a := Z.abs z in
  if a <? 2 ^ 53 then Num z
  else
    let e := Z.log2 a - 52 in
    let q := Z.shiftr a e in
    let r := a - Z.shiftl q e in
    let half := Z.shiftl 1 (e - 1) in
    let q' := if r <? half then q
              else if half <? r then q + 1
              else if Z.even q then q else q + 1 in
    let m := Z.shiftl q' e in
    if 2 ^ 1024 <=? m then Inf (z <? 0)
    else Num (if z <? 0 then - m else m).

(** [x + y]: the exact sum, rounded. *)
Definition add (x y : Number) : Number :=
  match x, y with
  | Num a, Num b => of_Z (a + b)
  | Inf s, Num _ | Num _, Inf s => Inf s
  | Inf s, Inf t => if Bool.eqb s t then Inf s else NaN
  | _, _ => NaN
  end.

Definition digit_char (d : N) : ascii := ascii_of_N (48 + d).

Fixpoint digits_go (fuel : nat) (n : N) (acc : string) : string :=
  match fuel with
  | O => acc
  | S f =>
      let acc' := String (digit_char (n mod 10)) acc in
      if (n / 10 =? 0)%N then acc' else digits_go f (n / 10) acc'
  end.

(** The decimal digits of [n], most significant first. *)
Definition digits (n : N) : string :=
  digits_go (S (N.to_nat (N.log2 n))) n EmptyString.

(** Whether the multiple [v] of a power of ten reads back as the double
    [x]. *)
Definition reads_as (x v : Z) : bool :=
  match of_Z v with Num y => y =? x | _ => false end.

(** The integer with [k] significant digits that reads back as [x], if
    there is one: the multiple of [10 ^ (n - k)] just below or just above
    [x], the nearer one when both do, the even one when they are as near. *)
Definition shortest_at (x : Z) (n k : nat) : option Z :=
  let p := 10 ^ Z.of_nat (n - k) in
  let lo := x / p * p in
  let hi := lo + p in
  match reads_as x lo, reads_as x hi with
  | true, true =>
      Some (if x - lo <? hi - x then lo
            else if hi - x <? x - lo then hi
            else if Z.even (x / p) then lo else hi)
  | true, false => Some lo
  | false, true => Some hi
  | false, false => None
  end.

Fixpoint shortest_from (x : Z) (n k fuel : nat) : Z :=
  match fuel with
  | O => x
  | S f =>
      match shortest_at x n k with
      | Some v => v
      | None => shortest_from x n (S k) f
      end
  end.

(** The integer with the fewest significant digits that reads back as the
    positive double [x] ([Number::toString], step 5 with its note 2). *)
Definition shortest (x : Z) : Z :=
  let n := String.length (digits (Z.to_N x)) in
  shortest_from x n 1 n.

Fixpoint strip_zeros (fuel : nat) (v : N) : N :=
  match fuel with
  | O => v
  | S f => if (v mod 10 =? 0)%N && negb (v =? 0)%N then strip_zeros f (v / 10) else v
  end.

(** The notation of a value from [10 ^ 21] on: [d.ddde+n]. *)
Definition exponential (v : N) : string :=
  let n := String.length (digits v) in
  let e := "e+" +:+ digits (N.of_nat (n - 1)) in
  match digits (strip_zeros n v) with
  | String d EmptyString => String d e
  | String d rest => String d (String "." (rest +:+ e))
  | EmptyString => EmptyString
  end.

Definition decimal (v : N) : string :=
  if (v <? 10 ^ 21)%N then digits v else exponential v.

(** [x.toString()] *)
Definition toString (x : Number) : string :=
  match x with
  | NaN => "NaN"
  | Inf false => "Infinity"
  | Inf true => "-Infinity"
  | Num z =>
      let a := Z.abs z in
      let v := Z.to_N (if a <? 2 ^ 53 then a else shortest a) in
      if z <? 0 then String "-" (decimal v) else decimal v
  end.

(** [StrWhiteSpaceChar], in UTF-8: TAB LF VT FF CR SP, U+00A0, U+1680,
    U+2000..U+200A, U+2028, U+2029, U+202F, U+205F, U+3000, U+FEFF. *)
Definition ws3 (a b c : nat) : bool :=
  ((a =? 225) && (b =? 154) && (c =? 128)
   || (a =? 226) && (b =? 128)
      && (JS.between 128 138 c || (c =? 168) || (c =? 169) || (c =? 175))
   || (a =? 226) && (b =? 129) && (c =? 159)
   || (a =? 227) && (b =? 128) && (c =? 128)
   || (a =? 239) && (b =? 187) && (c =? 191))%nat.

Fixpoint skipWhiteSpace (s : string) : string :=
  match s with
  | String a s1 =>
      let n := nat_of_ascii a in
      if JS.between 9 13 n || (n =? 32)%nat then skipWhiteSpace s1
      else match s1 with
           | String b s2 =>
               if (n =? 194)%nat && (nat_of_ascii b =? 160)%nat then skipWhiteSpace s2
               else match s2 with
                    | String c s3 =>
                        if ws3 n (nat_of_ascii b) (nat_of_ascii c) then skipWhiteSpace s3 else s
                    | EmptyString => s
                    end
           | EmptyString => s
           end
  | EmptyString => s
  end.

(** The longest prefix of radix-[R] digits; [None] when there is none. *)
Fixpoint parseDigits (R : N) (s : string) (acc : option N) : option N :=
  match s with
  | String c s' =>
      match JS.hexval c with
      | Some d =>
          if (N.of_nat d <? R)%N
          then parseDigits R s' (Some (default 0%N acc * R + N.of_nat d)%N)
          else acc
      | None => acc
      end
  | EmptyString => acc
  end.

Definition parseUnsigned (s : string) : option N :=
  match s with
  | String "0" (String x s') =>
      if Ascii.eqb x "x" || Ascii.eqb x "X" then parseDigits 16 s' None
      else parseDigits 10 s None
  | _ => parseDigits 10 s None
  end.

(** [parseInt(s)] with no radix argument: the number value for the integer
    the digits spell, every digit being read. *)
Definition parseInt (s : string) : Number :=
  let t := skipWhiteSpace s in
  let '(neg, u) :=
    match t with
    | String "-" u => (true, u)
    | String "+" u => (false, u)
    | _ => (false, t)
    end in
  match parseUnsigned u with
  | Some n => of_Z (if neg then - Z.of_N n else Z.of_N n)
  | None => NaN
  end.

End Num.

(** ** JSON *)

Module Json.

#[local] Unset Elimination Schemes.
Inductive JSON :=
| JNull
| JBool (b : bool)
| JNumber (x : Num.Number)
| JString (s : string)
| JArray (items : list JSON)
| JObject (fields : list (string * JSON)).
#[local] Set Elimination Schemes.

Definition dquote : ascii := ascii_of_nat 34.
Definition backslash : ascii := ascii_of_nat 92.

(** [QuoteJSONString]: the quote, the backslash and the control characters
    are escaped. *)
Definition escape_char (a : ascii) : string :=
  let n := nat_of_ascii a in
  if (n =? 34)%nat then String backslash (String dquote EmptyString)
  else if (n =? 92)%nat then String backslash (String backslash EmptyString)
  else if (n =? 8)%nat then String backslash "b"
  else if (n =? 9)%nat then String backslash "t"
  else if (n =? 10)%nat then String backslash "n"
  else if (n =? 12)%nat then String backslash "f"
  else if (n =? 13)%nat then String backslash "r"
  else if (n <? 32)%nat
       then String backslash
              (String "u" (String "0" (String "0"
                 (String (JS.lower_ascii (JS.hexdigit (n / 16)))
                    (String (JS.lower_ascii (JS.hexdigit (n mod 16))) EmptyString)))))
  else String a EmptyString.

Fixpoint escape (s : string) : string :=
  match s with
  | EmptyString => EmptyString
  | String a s' => escape_char a +:+ escape s'
  end.

Definition quote (s : string) : string :=
  String dquote (escape s +:+ String dquote EmptyString).

(** [JSON.stringify(v)] *)
Fixpoint stringify (j : JSON) : string :=
  match j with
  | JNull => "null"
  | JBool true => "true"
  | JBool false => "false"
  | JNumber Num.NaN => "null"
  | JNumber (Num.Inf _) => "null"
  | JNumber x => Num.toString x
  | JString s => quote s
  | JArray items =>
      "[" +:+
      (fix elems (l : list JSON) (first : bool) : string :=
         match l with
         | [] => "]"
         | x :: r => (if first then EmptyString else ",") +:+ stringify x +:+ elems r false
         end) items true
  | JObject fields =>
      "{" +:+
      (fix members (l : list (string * JSON)) (first : bool) : string :=
         match l with
         | [] => "}"
         | (k, v) :: r =>
             (if first then EmptyString else ",") +:+ quote k +:+ ":" +:+ stringify v
             +:+ members r false
         end) fields true
  end.

(** [obj[k]] on the field list of an object literal *)
Fixpoint field (k : string) (fields : list (string * JSON)) : option JSON :=
  match fields with
  | [] => None
  | (k', v) :: r => if String.eqb k k' then Some v else field k r
  end.

(** The text is a JSON object with a boolean [success] member. *)
Definition has_success (text : string) : Prop :=
  exists fields b, text = stringify (JObject fields) /\ field "success" fields = Some (JBool b).

End Json.

(** ** The platform: requests, responses, the two stores *)

Module Platform.

Import Json.

(** What a handler can throw; [message] is [error.message]. *)
Inductive Exn :=
| TypeError (msg : string)
| URIError (msg : string)
| BackendError (msg : string).

Definition message (e : Exn) : string :=
  match e with TypeError m | URIError m | BackendError m => m end.

(** [Headers]: header names are case-insensitive and kept in lower case. *)
Definition Headers := list (string * string).

Fixpoint Headers_lookup (name : string) (h : Headers) : option string :=
  match h with
  | [] => None
  | (n, v) :: r => if String.eqb n name then Some v else Headers_lookup name r
  end.

(** [h.get(name)]; [None] is [null]. *)
Definition Headers_get (h : Headers) (name : string) : option string :=
  Headers_lookup (JS.toLowerCase name) h.

Fixpoint Headers_replace (name value : string) (h : Headers) : Headers :=
  match h with
  | [] => [(name, value)]
  | (n, v) :: r =>
      if String.eqb n name then (n, value) :: r else (n, v) :: Headers_replace name value r
  end.

(** HTTP white space: TAB, LF, CR, SP *)
Definition http_whitespace (a : ascii) : bool :=
  let n := nat_of_ascii a in
  ((n =? 9) || (n =? 10) || (n =? 13) || (n =? 32))%nat.

Fixpoint strip_leading (s : string) : string :=
  match s with
  | String a r => if http_whitespace a then strip_leading r else s
  | EmptyString => s
  end.

(** A value without the white space before and after it *)
Definition normalize (value : string) : string :=
  JS.rev_onto (strip_leading (JS.rev_onto (strip_leading value) EmptyString)) EmptyString.

(** A header value has no NUL, LF or CR. *)
Definition valid_value (value : string) : bool :=
  forallb (fun a => let n := nat_of_ascii a in
                    negb ((n =? 0) || (n =? 10) || (n =? 13))%nat)
          (list_ascii_of_string value).

(** What [h.set(name, value)] makes of [h], for a name that is a token (the
    names the worker sets are literals): the value is normalized, and
    [None], a thrown [TypeError], when it is then not valid.  The bytes of a
    character outside ASCII are stored as they are; the statements about
    delivered files are for ASCII names, on which the runtimes agree. *)
Definition Headers_put (h : Headers) (name value : string) : option Headers :=
  let value := normalize value in
  if valid_value value then Some (Headers_replace (JS.toLowerCase name) value h)
  else None.

(** [new Headers(init)] and the [headers] member of a response's options,
    from an object literal.  The literals of the worker have distinct names
    and values that are valid as they are. *)
Definition Headers_new (init : list (string * string)) : Headers :=
  fold_left (fun h '(n, v) => Headers_replace (JS.toLowerCase n) (normalize v) h) init [].

(** [new URL(request.url)].  Only the origin and the path are read.  What
    the URL serialises to after an assignment to its [pathname] is the URL
    parser's business and is carried as [href_with_pathname]. *)
Record URL := {
  origin : string;
  pathname : string;
  href_with_pathname : string -> string
}.

Record File := { file_name : string; file_size : Z; file_bytes : string }.

(** An entry of a [FormData]: a text field or an uploaded file. *)
Inductive FormValue := FormString (s : string) | FormFile (f : File).

Definition FormData := list (string * FormValue).

(** [formData.get(name)]: the first entry of that name, [None] for [null]. *)
Fixpoint FormData_get (fd : FormData) (name : string) : option FormValue :=
  match fd with
  | [] => None
  | (n, v) :: r => if String.eqb n name then Some v else FormData_get r name
  end.

(** A request.  [form] is what [request.formData()] resolves to, [None]
    when the body is not a form (the call then rejects with a
    [TypeError]). *)
Record Request := {
  method : string;
  url : URL;
  req_headers : Headers;
  form : option FormData
}.

Inductive Body :=
| BodyNull
| BodyText (text : string)
| BodyStream (bytes : string).

Record Response := { status : Z; headers : Headers; body : Body }.

(** [new Response(body, { status, headers })]: the status defaults to 200,
    and a string body gets a [text/plain] content type unless the headers
    name one. *)
Definition Response_new (b : Body) (st : option Z) (h : Headers) : Response :=
  {| status := default 200 st;
     headers := match b, Headers_get h "Content-Type" with
                | BodyText _, None => (h ++ [("content-type", "text/plain;charset=UTF-8")])%list
                | _, _ => h
                end;
     body := b |}.

(** An object of the bucket, with the members the worker reads that the
    binding provides. *)
Record R2Object := {
  size : Z;
  uploaded : string;
  obj_body : string
}.

(** [object.headers]: the objects of the bucket have no member of that
    name, so it is [undefined] ([None]). *)
Definition obj_headers (object : R2Object) : option (list (string * string)) := None.

(** The calls the worker makes to its two backends. *)
Inductive Call :=
| R2Get (key : string)
| R2Put (key : string)
| R2List
| KVGet (key : string)
| KVPut (key value : string)
| KVDelete (key : string)
| KVList.

(** The world a request runs in: [env.media] (the bucket [R2_BUCKET]),
    [env.ZED_DOWNLOADS] (the counter namespace), the clock, the calls made
    to the backends so far, and [fault]: given the calls made so far, whether
    the next call throws and with which message. *)
Record World := {
  media : gmap string R2Object;
  ZED_DOWNLOADS : gmap string string;
  now : Z;
  nowISO : string;
  calls : list Call;
  fault : list Call -> Call -> option string
}.

Definition set_media (f : gmap string R2Object -> gmap string R2Object) (w : World) : World :=
  {| media := f (media w); ZED_DOWNLOADS := ZED_DOWNLOADS w; now := now w;
     nowISO := nowISO w; calls := calls w; fault := fault w |}.

Definition set_counters (f : gmap string string -> gmap string string) (w : World) : World :=
  {| media := media w; ZED_DOWNLOADS := f (ZED_DOWNLOADS w); now := now w;
     nowISO := nowISO w; calls := calls w; fault := fault w |}.

Definition record_call (c : Call) (w : World) : World :=
  {| media := media w; ZED_DOWNLOADS := ZED_DOWNLOADS w; now := now w;
     nowISO := nowISO w; calls := (calls w ++ [c])%list; fault := fault w |}.

(** *** Computations *)

Inductive Outcome (A : Type) := Ok (a : A) | Throw (e : Exn).
Arguments Ok {A} a.
Arguments Throw {A} e.

Definition M (A : Type) : Type := World -> Outcome A * World.

Definition ret {A} (a : A) : M A := fun w => (Ok a, w).

Definition throw {A} (e : Exn) : M A := fun w => (Throw e, w).

Definition bind {A B} (m : M A) (k : A -> M B) : M B :=
  fun w => match m w with
           | (Ok a, w') => k a w'
           | (Throw e, w') => (Throw e, w')
           end.

(** [try { m } catch (error) { h(error) }] *)
Definition try_catch {A} (m : M A) (h : Exn -> M A) : M A :=
  fun w => match m w with
           | (Ok a, w') => (Ok a, w')
           | (Throw e, w') => h e w'
           end.

(** Calling an [async] function without [await]: its effects take place,
    and the caller holds the settled promise. *)
Definition promise {A} (m : M A) : M (Outcome A) :=
  fun w => let '(o, w') := m w in (Ok o, w').

(** [p.then(f).catch(g)] where both handlers only log: the chain settles
    without a value whatever [p] settled to. *)
Definition then_catch {A} (p : Outcome A) : Outcome unit :=
  match p with Ok _ => Ok tt | Throw _ => Ok tt end.

(** A built-in that may throw *)
Definition lift_uri (o : option string) : M string :=
  match o with
  | Some s => ret s
  | None => throw (URIError "URI malformed")
  end.

(** [h.set(name, value)]; the new state of [h] is returned. *)
Definition Headers_set (h : Headers) (name value : string) : M Headers :=
  match Headers_put h name value with
  | Some h' => ret h'
  | None => throw (TypeError "Invalid header value.")
  end.

(** [Object.fromEntries(x)], which iterates over [x] *)
Definition Object_fromEntries (x : option (list (string * string)))
    : M (list (string * string)) :=
  match x with
  | Some entries => ret entries
  | None => throw (TypeError "undefined is not iterable")
  end.

(** One call to a backend: it is recorded, then it throws if [fault] says
    so, and acts on the world otherwise. *)
Definition backend {A} (c : Call) (act : World -> A * World) : M A :=
  fun w =>
    let w1 := record_call c w in
    match fault w (calls w) c with
    | Some msg => (Throw (BackendError msg), w1)
    | None => let '(a, w2) := act w1 in (Ok a, w2)
    end.

Definition now_ms : M Z := fun w => (Ok (now w), w).
Definition now_iso : M string := fun w => (Ok (nowISO w), w).

(** [env.ZED_DOWNLOADS.get(key)] *)
Definition kv_get (key : string) : M (option string) :=
  backend (KVGet key) (fun w => (ZED_DOWNLOADS w !! key, w)).

(** [env.ZED_DOWNLOADS.put(key, value)] *)
Definition kv_put (key value : string) : M unit :=
  backend (KVPut key value) (fun w => (tt, set_counters (insert key value) w)).

(** [env.ZED_DOWNLOADS.delete(key)] *)
Definition kv_delete (key : string) : M unit :=
  backend (KVDelete key) (fun w => (tt, set_counters (delete key) w)).

(** What one [list()] call returns of a store: its entries in the order of
    their keys (byte by byte), the first [LIST_LIMIT] of them.  The rest
    would come with a cursor, which the worker never asks for. *)
Definition LIST_LIMIT : nat := 1000.

Definition key_le {A} (x y : string * A) : Prop := String.leb x.1 y.1 = true.

#[global] Instance key_le_dec {A} (x y : string * A) : Decision (key_le x y) :=
  bool_eq_dec _ _.

Definition listed {A} (m : gmap string A) : list (string * A) :=
  take LIST_LIMIT (merge_sort key_le (map_to_list m)).

(** [env.ZED_DOWNLOADS.list()]: the names of the keys *)
Definition kv_list : M (list string) :=
  backend KVList (fun w => (map fst (listed (ZED_DOWNLOADS w)), w)).

(** [env[R2_BUCKET].get(key)] *)
Definition r2_get (key : string) : M (option R2Object) :=
  backend (R2Get key) (fun w => (media w !! key, w)).

(** [env[R2_BUCKET].put(key, value)] *)
Definition r2_put (key : string) (bytes : string) : M unit :=
  backend (R2Put key)
    (fun w => (tt, set_media (insert key {| size := Z.of_nat (String.length bytes);
                                             uploaded := nowISO w;
                                             obj_body := bytes |}) w)).

(** [env[R2_BUCKET].list()]: the keys with their objects *)
Definition r2_list : M (list (string * R2Object)) :=
  backend R2List (fun w => (listed (media w), w)).

End Platform.

Notation "x <- c1 ;; c2" := (Platform.bind c1 (fun x => c2))
  (at level 100, c1 at next level, right associativity).

(** ** Values, truthiness, object literals *)

Module Lang.

Import Platform Json.

(** The values [formData.get] and [file.name] can produce. *)
Inductive Value :=
| VUndefined
| VNull
| VString (s : string)
| VFile (f : File).

Definition of_form (o : option FormValue) : Value :=
  match o with
  | None => VNull
  | Some (FormString s) => VString s
  | Some (FormFile f) => VFile f
  end.

(** [!!s] for a string: only the empty string is falsy. *)
Definition truthy (s : string) : bool := negb (String.eqb s EmptyString).

(** [!!v] for a string that may be [null] or [undefined] *)
Definition truthy_opt (o : option string) : bool :=
  match o with Some s => truthy s | None => false end.

Definition truthy_value (v : Value) : bool :=
  match v with
  | VUndefined | VNull => false
  | VString s => truthy s
  | VFile _ => true
  end.

(** A template literal with one hole *)
Definition bearer (token : string) : string := "Bearer " +:+ token.

(** [authHeader !== expected] *)
Definition differs (authHeader : option string) (expected : string) : bool :=
  match authHeader with
  | Some s => negb (String.eqb s expected)
  | None => true
  end.

(** An object literal whose members may be [undefined]: [JSON.stringify]
    leaves those out. *)
Definition object (members : list (string * option JSON)) : JSON :=
  JObject (omap (fun '(k, v) => pair k <$> v) members).

Definition all_digits (s : string) : bool :=
  forallb JS.is_digit (list_ascii_of_string s).

(** A property name that is an array index: it is listed before the other
    names, in numeric order. *)
Definition is_index (k : string) : option N :=
  match k with
  | EmptyString => None
  | String "0" EmptyString => Some 0%N
  | String "0" _ => None
  | _ =>
      if all_digits k then
        match Num.parseDigits 10 k None with
        | Some n => if (n <? 2 ^ 32 - 1)%N then Some n else None
        | None => None
        end
      else None
  end.

Fixpoint insert_index {A} (n : N) (k : string) (v : A) (o : list (string * A)) : list (string * A) :=
  match o with
  | [] => [(k, v)]
  | (k', v') :: r =>
      match is_index k' with
      | Some n' => if (n' <? n)%N then (k', v') :: insert_index n k v r else (k, v) :: o
      | None => (k, v) :: o
      end
  end.

Fixpoint replace_member {A} (k : string) (v : A) (o : list (string * A)) : option (list (string * A)) :=
  match o with
  | [] => None
  | (k', v') :: r =>
      if String.eqb k k' then Some ((k', v) :: r)
      else cons (k', v') <$> replace_member k v r
  end.

(** [o[k] = v] on an object that started as [{}]: a present member keeps its
    place, a new one goes to the end (an array index to its numeric place),
    and an assignment to [__proto__] of a number adds nothing. *)
Definition assign {A} (o : list (string * A)) (k : string) (v : A) : list (string * A) :=
  if String.eqb k "__proto__" then o
  else match replace_member k v o with
       | Some o' => o'
       | None =>
           match is_index k with
           | Some n => insert_index n k v o
           | None => (o ++ [(k, v)])%list
           end
       end.

(** Start every call of [l], in order, then wait for all of them:
    [Promise.all(l.map(f))].  The first rejection in order rejects it. *)
Fixpoint start_all {A B} (f : A -> M B) (l : list A) : M (list (Outcome B)) :=
  match l with
  | [] => ret []
  | x :: r =>
      p <- promise (f x) ;;
      ps <- start_all f r ;;
      ret (p :: ps)
  end.

Fixpoint settle_all {B} (ps : list (Outcome B)) : M (list B) :=
  match ps with
  | [] => ret []
  | Ok b :: r => bs <- settle_all r ;; ret (b :: bs)
  | Throw e :: _ => throw e
  end.

Definition Promise_all {A B} (f : A -> M B) (l : list A) : M (list B) :=
  ps <- start_all f l ;; settle_all ps.

(** [arr[1]] *)
Definition item1 (arr : list string) : option string := nth_error arr 1.

(** The template literal of the [Content-Disposition] header *)
Definition contentDisposition (filename : string) : string :=
  "attachment; filename=" +:+ String dquote (filename +:+ String dquote EmptyString).

(** [file.name] *)
Definition name_of (file : Value) : M Value :=
  match file with
  | VNull => throw (TypeError "Cannot read properties of null (reading 'name')")
  | VUndefined => throw (TypeError "Cannot read properties of undefined (reading 'name')")
  | VString _ => ret VUndefined
  | VFile f => ret (VString (file_name f))
  end.

(** [isValidFile] evaluates [filename.substring(filename.lastIndexOf('.'))]:
    the receiver has to be a string.  On a file, [filename.substring] is
    only looked up (it is [undefined]) and the call of
    [filename.lastIndexOf], the argument, is the first to throw. *)
Definition receiver (filename : Value) : M string :=
  match filename with
  | VString s => ret s
  | VFile _ => throw (TypeError "filename.lastIndexOf is not a function")
  | VNull => throw (TypeError "Cannot read properties of null (reading 'substring')")
  | VUndefined => throw (TypeError "Cannot read properties of undefined (reading 'substring')")
  end.

(** What [put] stores for a form value, and its [size] member *)
Definition bytes_of (file : Value) : string :=
  match file with
  | VFile f => file_bytes f
  | VString s => s
  | _ => EmptyString
  end.

Definition size_of (file : Value) : option JSON :=
  match file with
  | VFile f => Some (JNumber (Num.Num (file_size f)))
  | _ => None
  end.

End Lang.

(** ** [src/unnamed/part_000]: the worker with download counters *)

Module Part000.

Import Platform Json Lang.

Definition R2_BUCKET : string := "media".
Definition DOWNLOAD_EXPIRY : Z := 31536000.
Definition ALLOWED_EXTENSIONS : list string :=
  [".jpg"; ".png"; ".pdf"; ".zip"; ".mp4"; ".mp3"].
Definition AUTH_TOKEN : string := "your-secret-token".
Definition DEBUG : bool := true.

Definition isValidFile (filename : string) : bool :=
  let ext := JS.toLowerCase (JS.substring filename (JS.lastIndexOf filename ".")) in
  JS.includes ALLOWED_EXTENSIONS ext.

Definition setDownloadHeaders (filename : string) (originalResponse : R2Object) : M Headers :=
  let headers := Headers_new (default [] (obj_headers originalResponse)) in
  headers <- Headers_set headers "Content-Disposition" (contentDisposition filename) ;;
  headers <- Headers_set headers "Cache-Control"
               ("public, max-age=" +:+ Num.toString (Num.Num DOWNLOAD_EXPIRY) +:+ ", immutable") ;;
  headers <- Headers_set headers "Access-Control-Allow-Origin" "*" ;;
  headers <- Headers_set headers "Access-Control-Allow-Methods" "GET, HEAD, OPTIONS" ;;
  headers <- Headers_set headers "Access-Control-Allow-Headers"
               "Content-Type, Authorization, X-Debug" ;;
  ret headers.

(** The counter key of a file *)
Definition countKey (filename : string) : string := "download:" +:+ filename.

(** Resolves to the new count; in debug mode a failure is thrown again,
    otherwise it is dropped and the function resolves to [undefined]. *)
Definition incrementDownloadCount (filename : string) : M (option Num.Number) :=
  try_catch
    (let key := countKey filename in
     currentCount <- kv_get key ;;
     let newCount :=
       if truthy_opt currentCount
       then Num.add (Num.parseInt (JS.toStringU currentCount)) (Num.Num 1)
       else Num.Num 1 in
     _ <- kv_put key (Num.toString newCount) ;;
     ret (Some newCount))
    (fun error => if DEBUG then throw error else ret None).

Definition generateDownloadUrl (request : Request) (filename : string) : M Response :=
  if negb (truthy filename) || negb (isValidFile filename)
  then ret (Response_new (BodyText "Invalid file type") (Some 400) [])
  else
    let authHeader := Headers_get (req_headers request) "Authorization" in
    if truthy AUTH_TOKEN && (negb (truthy_opt authHeader) || differs authHeader (bearer AUTH_TOKEN))
    then ret (Response_new (BodyText "Unauthorized") (Some 401) [])
    else
      let downloadUrl := href_with_pathname (url request) ("/download/" +:+ filename) in
      t <- now_ms ;;
      let responseData := object
        [("success", Some (JBool true));
         ("url", Some (JString downloadUrl));
         ("filename", Some (JString filename));
         ("expires", Some (JNumber (Num.Num (t + DOWNLOAD_EXPIRY * 1000))));
         ("direct", Some (JBool true))] in
      ret (Response_new (BodyText (stringify responseData)) None
             (Headers_new [("Content-Type", "application/json");
                           ("Access-Control-Allow-Origin", "*");
                           ("Cache-Control", "no-cache")])).

(** After the lookup, the arguments of [debugLog('R2 object found, ...')]
    are evaluated, [Object.fromEntries(object.headers)] among them. *)
Definition handleDownload (request : Request) (filename : string) : M Response :=
  try_catch
    (if negb (truthy filename) || negb (isValidFile filename)
     then ret (Response_new (BodyText "Invalid file type") (Some 400) [])
     else
       object <- r2_get filename ;;
       match object with
       | None => ret (Response_new (BodyText "File not found") (Some 404) [])
       | Some object =>
           _ <- Object_fromEntries (obj_headers object) ;;
           decoded <- lift_uri (JS.decodeURIComponent filename) ;;
           countPromise <- promise (incrementDownloadCount decoded) ;;
           let _ := then_catch countPromise in
           headers <- setDownloadHeaders filename object ;;
           headers <-
             (if bool_decide (Headers_get (req_headers request) "X-Debug" = Some "true")
              then
                headers <- Headers_set headers "X-Debug-Filename" filename ;;
                decoded <- lift_uri (JS.decodeURIComponent filename) ;;
                Headers_set headers "X-Debug-Count-Key" (countKey decoded)
              else ret headers) ;;
           ret (Response_new (BodyStream (obj_body object)) (Some 200) headers)
       end)
    (fun error => ret (Response_new (BodyText "Error retrieving file") (Some 500) [])).

Definition handleUpload (request : Request) : M Response :=
  let authHeader := Headers_get (req_headers request) "Authorization" in
  if negb (truthy_opt authHeader) || differs authHeader (bearer AUTH_TOKEN)
  then ret (Response_new (BodyText "Unauthorized") (Some 401) [])
  else
    formData <- match form request with
                | Some fd => ret fd
                | None => throw (TypeError "Unrecognized Content-Type header value")
                end ;;
    let file := of_form (FormData_get formData "file") in
    let named := of_form (FormData_get formData "filename") in
    filename <- (if truthy_value named then ret named else name_of file) ;;
    if negb (truthy_value file) || negb (truthy_value filename)
    then ret (Response_new (BodyText "No file provided") (Some 400) [])
    else
      filename <- receiver filename ;;
      if negb (isValidFile filename)
      then ret (Response_new (BodyText "Invalid file extension") (Some 400) [])
      else
        try_catch
          (_ <- r2_put filename (bytes_of file) ;;
           ret (Response_new
                  (BodyText (stringify (object
                     [("success", Some (JBool true));
                      ("filename", Some (JString filename));
                      ("url", Some (JString (origin (url request) +:+ "/download/" +:+ filename)));
                      ("size", size_of file);
                      ("stats_url", Some (JString (origin (url request) +:+ "/stats/" +:+ filename)))])))
                  None
                  (Headers_new [("Content-Type", "application/json");
                                ("Cache-Control", "no-cache")])))
          (fun error => ret (Response_new (BodyText "Upload failed") (Some 500) [])).

Definition downloads_of (count : option string) : Num.Number :=
  if truthy_opt count then Num.parseInt (JS.toStringU count) else Num.Num 0.

Definition listFiles : M Response :=
  try_catch
    (objects <- r2_list ;;
     filesWithCounts <-
       Promise_all
         (fun '(key, obj) =>
            let countKey := countKey key in
            count <- kv_get countKey ;;
            ret (downloads_of count,
                 object
                   [("key", Some (JString key));
                    ("size", Some (JNumber (Num.Num (size obj))));
                    ("uploaded", Some (JString (uploaded obj)));
                    ("downloads", Some (JNumber (downloads_of count)));
                    ("stats_url", Some (JString ("/stats/" +:+ JS.encodeURIComponent key)));
                    ("download_url", Some (JString ("/download/" +:+ JS.encodeURIComponent key)))]))
         objects ;;
     ret (Response_new
            (BodyText (stringify (object
               [("success", Some (JBool true));
                ("files", Some (JArray (map snd filesWithCounts)));
                ("total_files", Some (JNumber (Num.Num (Z.of_nat (length filesWithCounts)))));
                ("total_downloads",
                 Some (JNumber (fold_left (fun sum file => Num.add sum (fst file))
                                          filesWithCounts (Num.Num 0))))])))
            None
            (Headers_new [("Content-Type", "application/json");
                          ("Access-Control-Allow-Origin", "*");
                          ("Cache-Control", "no-cache")])))
    (fun error => ret (Response_new (BodyText "Error listing files") (Some 500) [])).

(** The loop of [getAllStats] over the key names: the [stats] object and the
    running total. *)
Fixpoint collectStats (keys : list string) (stats : list (string * JSON))
    (totalDownloads : Num.Number) : M (list (string * JSON) * Num.Number) :=
  match keys with
  | [] => ret (stats, totalDownloads)
  | name :: rest =>
      if JS.startsWith name "download:"
      then
        count <- kv_get name ;;
        let filename := JS.drop_chars (String.length "download:") name in
        let downloadCount :=
          Num.parseInt (if truthy_opt count then JS.toStringU count else "0") in
        collectStats rest (assign stats filename (JNumber downloadCount))
                     (Num.add totalDownloads downloadCount)
      else collectStats rest stats totalDownloads
  end.

Definition getAllStats : M Response :=
  try_catch
    (keys <- kv_list ;;
     r <- collectStats keys [] (Num.Num 0) ;;
     let stats := fst r in
     let totalDownloads := snd r in
     ret (Response_new
            (BodyText (stringify (object
               [("success", Some (JBool true));
                ("stats", Some (JObject stats));
                ("total_files", Some (JNumber (Num.Num (Z.of_nat (length stats)))));
                ("total_downloads", Some (JNumber totalDownloads));
                ("debug_info",
                 Some (object
                   [("kv_entries", Some (JNumber (Num.Num (Z.of_nat (length keys)))));
                    ("counted_entries", Some (JNumber (Num.Num (Z.of_nat (length stats)))))]))])))
            None
            (Headers_new [("Content-Type", "application/json");
                          ("Access-Control-Allow-Origin", "*");
                          ("Cache-Control", "no-cache")])))
    (fun error =>
       ret (Response_new
              (BodyText (stringify (object
                 [("success", Some (JBool false));
                  ("error", Some (JString (message error)));
                  ("message", Some (JString "Could not retrieve stats"))])))
              (Some 500)
              (Headers_new [("Content-Type", "application/json")]))).

Definition json_of_opt (o : option string) : JSON :=
  match o with Some s => JString s | None => JNull end.

Definition testKV : M Response :=
  try_catch
    (let testKey := "test_kv_functionality" in
     t <- now_ms ;;
     let testValue := "kv_is_working_" +:+ Num.toString (Num.Num t) in
     _ <- kv_put testKey testValue ;;
     retrievedValue <- kv_get testKey ;;
     _ <- kv_delete testKey ;;
     let success := bool_decide (retrievedValue = Some testValue) in
     ret (Response_new
            (BodyText (stringify (object
               [("success", Some (JBool success));
                ("kv_test", Some (JString (if success then "PASSED" else "FAILED")));
                ("written", Some (JString testValue));
                ("read", Some (json_of_opt retrievedValue));
                ("message", Some (JString (if success then "KV is working correctly"
                                           else "KV read/write mismatch")))])))
            None
            (Headers_new [("Content-Type", "application/json");
                          ("Cache-Control", "no-cache")])))
    (fun error =>
       ret (Response_new
              (BodyText (stringify (object
                 [("success", Some (JBool false));
                  ("kv_test", Some (JString "FAILED"));
                  ("error", Some (JString (message error)));
                  ("message", Some (JString "KV is NOT working"))])))
              (Some 500)
              (Headers_new [("Content-Type", "application/json")]))).

Definition resetDownloadCount (filename : option string) (authHeader : option string) : M Response :=
  if negb (truthy_opt authHeader) || differs authHeader (bearer AUTH_TOKEN)
  then ret (Response_new (BodyText "Unauthorized") (Some 401) [])
  else
    try_catch
      (decoded <- lift_uri (JS.decodeURIComponent (JS.toStringU filename)) ;;
       let key := countKey decoded in
       _ <- kv_delete key ;;
       ret (Response_new
              (BodyText (stringify (object
                 [("success", Some (JBool true));
                  ("message", Some (JString ("Download count reset for " +:+ JS.toStringU filename)));
                  ("filename", JString <$> filename)])))
              None
              (Headers_new [("Content-Type", "application/json")])))
      (fun error => ret (Response_new (BodyText "Error resetting count") (Some 500) [])).

(** The body of the [/stats/] branch of [fetch], after the filename has been
    found non-empty. *)
Definition stats (filename : option string) : M Response :=
  try_catch
    (decoded <- lift_uri (JS.decodeURIComponent (JS.toStringU filename)) ;;
     let key := countKey decoded in
     count <- kv_get key ;;
     decoded <- lift_uri (JS.decodeURIComponent (JS.toStringU filename)) ;;
     timestamp <- now_iso ;;
     let responseData := object
       [("success", Some (JBool true));
        ("filename", Some (JString decoded));
        ("downloads", Some (JNumber (downloads_of count)));
        ("key", Some (JString key));
        ("timestamp", Some (JString timestamp))] in
     ret (Response_new (BodyText (stringify responseData)) None
            (Headers_new [("Content-Type", "application/json");
                          ("Access-Control-Allow-Origin", "*");
                          ("Cache-Control", "no-cache")])))
    (fun error =>
       decoded <- lift_uri (JS.decodeURIComponent (JS.toStringU filename)) ;;
       ret (Response_new
              (BodyText (stringify (object
                 [("success", Some (JBool false));
                  ("filename", Some (JString decoded));
                  ("downloads", Some (JNumber (Num.Num 0)));
                  ("error", Some (JString (message error)));
                  ("message", Some (JString "Could not retrieve stats"))])))
              (Some 200)
              (Headers_new [("Content-Type", "application/json");
                            ("Access-Control-Allow-Origin", "*")]))).

(** The documentation page served at [/]; the markup after the title is not
    reproduced. *)
Definition documentation : string :=
  "<!DOCTYPE html><html><head><title>R2 Direct Download Service</title>".

(** Modelled from the spec: the source file stops inside the documentation
    page, so the headers given to the page are missing.  The spec has [/]
    return a static documentation page; the header is that of
    [src/index.js]. *)
Definition documentationResponse : Response :=
  Response_new (BodyText documentation) None (Headers_new [("Content-Type", "text/html")]).

(** Modelled from the spec: the statement after the last [else if] of
    [fetch] is past the end of the source file; the spec has any other path
    or method answered 404, and the text is that of [src/index.js]. *)
Definition notFound : Response :=
  Response_new (BodyText "Not Found") (Some 404) [].

Definition fetch (request : Request) : M Response :=
  let path := pathname (url request) in
  let method := method request in
  if String.eqb method "OPTIONS"
  then ret (Response_new BodyNull None
              (Headers_new [("Access-Control-Allow-Origin", "*");
                            ("Access-Control-Allow-Methods", "GET, POST, PUT, DELETE, OPTIONS");
                            ("Access-Control-Allow-Headers", "Content-Type, Authorization, X-Debug");
                            ("Access-Control-Max-Age", "86400")]))
  else if JS.startsWith path "/generate/"
  then
    let filename := item1 (JS.split path "/generate/") in
    decoded <- lift_uri (JS.decodeURIComponent (JS.toStringU filename)) ;;
    generateDownloadUrl request decoded
  else if JS.startsWith path "/download/"
  then
    let filename := item1 (JS.split path "/download/") in
    decoded <- lift_uri (JS.decodeURIComponent (JS.toStringU filename)) ;;
    handleDownload request decoded
  else if JS.startsWith path "/stats/"
  then
    let filename := item1 (JS.split path "/stats/") in
    if negb (truthy_opt filename)
    then ret (Response_new (BodyText "Filename required") (Some 400) [])
    else stats filename
  else if String.eqb path "/all-stats" && String.eqb method "GET"
  then getAllStats
  else if String.eqb path "/debug/kv" && String.eqb method "GET"
  then testKV
  else if JS.startsWith path "/reset-stats/" && String.eqb method "POST"
  then
    let filename := item1 (JS.split path "/reset-stats/") in
    let authHeader := Headers_get (req_headers request) "Authorization" in
    resetDownloadCount filename authHeader
  else if String.eqb path "/upload" && String.eqb method "POST"
  then handleUpload request
  else if String.eqb path "/files" && String.eqb method "GET"
  then listFiles
  else if String.eqb path "/" && String.eqb method "GET"
  then ret documentationResponse
  else ret notFound.

End Part000.

(** ** [src/index.js]: the worker without counters *)

Module IndexJs.

Import Platform Json Lang.

Definition R2_BUCKET : string := "media".
Definition DOWNLOAD_EXPIRY : Z := 31536000.
Definition ALLOWED_EXTENSIONS : list string :=
  [".jpg"; ".png"; ".pdf"; ".zip"; ".mp4"; ".mp3"].
Definition AUTH_TOKEN : string := "your-secret-token".

Definition isValidFile (filename : string) : bool :=
  let ext := JS.toLowerCase (JS.substring filename (JS.lastIndexOf filename ".")) in
  JS.includes ALLOWED_EXTENSIONS ext.

Definition setDownloadHeaders (filename : string) (originalResponse : R2Object) : M Headers :=
  let headers := Headers_new (default [] (obj_headers originalResponse)) in
  headers <- Headers_set headers "Content-Disposition" (contentDisposition filename) ;;
  headers <- Headers_set headers "Cache-Control"
               ("public, max-age=" +:+ Num.toString (Num.Num DOWNLOAD_EXPIRY) +:+ ", immutable") ;;
  headers <- Headers_set headers "Access-Control-Allow-Origin" "*" ;;
  headers <- Headers_set headers "Access-Control-Allow-Methods" "GET, HEAD, OPTIONS" ;;
  ret headers.

Definition generateDownloadUrl (request : Request) (filename : string) : M Response :=
  if negb (truthy filename) || negb (isValidFile filename)
  then ret (Response_new (BodyText "Invalid file type") (Some 400) [])
  else
    let authHeader := Headers_get (req_headers request) "Authorization" in
    if truthy AUTH_TOKEN && (negb (truthy_opt authHeader) || differs authHeader (bearer AUTH_TOKEN))
    then ret (Response_new (BodyText "Unauthorized") (Some 401) [])
    else
      let downloadUrl := href_with_pathname (url request) ("/download/" +:+ filename) in
      t <- now_ms ;;
      ret (Response_new
             (BodyText (stringify (object
                [("success", Some (JBool true));
                 ("url", Some (JString downloadUrl));
                 ("filename", Some (JString filename));
                 ("expires", Some (JNumber (Num.Num (t + DOWNLOAD_EXPIRY * 1000))));
                 ("direct", Some (JBool true))])))
             None
             (Headers_new [("Content-Type", "application/json");
                           ("Access-Control-Allow-Origin", "*")])).

Definition handleDownload (request : Request) (filename : string) : M Response :=
  try_catch
    (if negb (truthy filename) || negb (isValidFile filename)
     then ret (Response_new (BodyText "Invalid file type") (Some 400) [])
     else
       object <- r2_get filename ;;
       match object with
       | None => ret (Response_new (BodyText "File not found") (Some 404) [])
       | Some object =>
           headers <- setDownloadHeaders filename object ;;
           ret (Response_new (BodyStream (obj_body object)) (Some 200) headers)
       end)
    (fun error => ret (Response_new (BodyText "Error retrieving file") (Some 500) [])).

Definition handleUpload (request : Request) : M Response :=
  let authHeader := Headers_get (req_headers request) "Authorization" in
  if negb (truthy_opt authHeader) || differs authHeader (bearer AUTH_TOKEN)
  then ret (Response_new (BodyText "Unauthorized") (Some 401) [])
  else
    formData <- match form request with
                | Some fd => ret fd
                | None => throw (TypeError "Unrecognized Content-Type header value")
                end ;;
    let file := of_form (FormData_get formData "file") in
    let named := of_form (FormData_get formData "filename") in
    filename <- (if truthy_value named then ret named else name_of file) ;;
    if negb (truthy_value file) || negb (truthy_value filename)
    then ret (Response_new (BodyText "No file provided") (Some 400) [])
    else
      filename <- receiver filename ;;
      if negb (isValidFile filename)
      then ret (Response_new (BodyText "Invalid file extension") (Some 400) [])
      else
        try_catch
          (_ <- r2_put filename (bytes_of file) ;;
           ret (Response_new
                  (BodyText (stringify (object
                     [("success", Some (JBool true));
                      ("filename", Some (JString filename));
                      ("url", Some (JString (origin (url request) +:+ "/download/" +:+ filename)));
                      ("size", size_of file)])))
                  None
                  (Headers_new [("Content-Type", "application/json")])))
          (fun error => ret (Response_new (BodyText "Upload failed") (Some 500) [])).

Definition listFiles : M Response :=
  objects <- r2_list ;;
  ret (Response_new
         (BodyText (stringify (object
            [("files",
              Some (JArray (map (fun '(key, obj) =>
                                   object [("key", Some (JString key));
                                           ("size", Some (JNumber (Num.Num (size obj))));
                                           ("uploaded", Some (JString (uploaded obj)))])
                                objects)))])))
         None
         (Headers_new [("Content-Type", "application/json");
                       ("Access-Control-Allow-Origin", "*")])).

Definition documentation : string :=
  "<!DOCTYPE html><html><head><title>R2 Direct Download</title>".

Definition fetch (request : Request) : M Response :=
  let path := pathname (url request) in
  let method := method request in
  if String.eqb method "OPTIONS"
  then ret (Response_new BodyNull None
              (Headers_new [("Access-Control-Allow-Origin", "*");
                            ("Access-Control-Allow-Methods", "GET, POST, PUT, DELETE, OPTIONS");
                            ("Access-Control-Allow-Headers", "Content-Type, Authorization")]))
  else if JS.startsWith path "/generate/"
  then
    let filename := item1 (JS.split path "/generate/") in
    decoded <- lift_uri (JS.decodeURIComponent (JS.toStringU filename)) ;;
    generateDownloadUrl request decoded
  else if JS.startsWith path "/download/"
  then
    let filename := item1 (JS.split path "/download/") in
    decoded <- lift_uri (JS.decodeURIComponent (JS.toStringU filename)) ;;
    handleDownload request decoded
  else if String.eqb path "/upload" && String.eqb method "POST"
  then handleUpload request
  else if String.eqb path "/files" && String.eqb method "GET"
  then listFiles
  else if String.eqb path "/"
  then ret (Response_new (BodyText documentation) None
              (Headers_new [("Content-Type", "text/html")]))
  else ret (Response_new (BodyText "Not Found") (Some 404) []).

End IndexJs.

(** ** Sample requests and worlds

    Concrete inputs on which the statements below are instantiated. *)

Module Samples.

Import Platform Lang.

Definition site : string := "https://cms.example".

Definition at_path (path : string) : URL :=
  {| origin := site; pathname := path; href_with_pathname := fun p => site +:+ p |}.

Definition request (m path : string) (hs : list (string * string)) : Request :=
  {| method := m; url := at_path path; req_headers := Headers_new hs; form := None |}.

Definition upload (fd : FormData) : Request :=
  {| method := "POST"; url := at_path "/upload";
     req_headers := Headers_new [("Authorization", "Bearer your-secret-token")];
     form := Some fd |}.

(** Backends that never fail, and a counter store that always does. *)
Definition healthy : list Call -> Call -> option string := fun _ _ => None.

Definition kv_down : list Call -> Call -> option string :=
  fun _ c =>
    match c with
    | KVGet _ | KVPut _ _ | KVDelete _ | KVList => Some "KV unavailable"
    | _ => None
    end.

Definition report : R2Object :=
  {| size := 3; uploaded := "2024-05-01T10:00:00.000Z"; obj_body := "PDF" |}.

Definition world (objects : list (string * R2Object)) (counters : list (string * string))
    (f : list Call -> Call -> option string) : World :=
  {| media := list_to_map objects;
     ZED_DOWNLOADS := list_to_map counters;
     now := 1714557600000;
     nowISO := "2024-05-01T10:00:00.000Z";
     calls := [];
     fault := f |}.

End Samples.

(** ** Sequences of requests *)

Module Scenario.

Import Platform.

(** The world after a request *)
Definition after (m : M Response) (w : World) : World := snd (m w).

(** The world after the same request made [n] times in a row *)
Fixpoint after_n (n : nat) (m : M Response) (w : World) : World :=
  match n with
  | O => w
  | S k => after m (after_n k m w)
  end.

(** The world after [bytes] were put in the bucket under [name] *)
Definition stored (name bytes : string) (w : World) : World :=
  set_media (insert name {| size := Z.of_nat (String.length bytes);
                            uploaded := nowISO w;
                            obj_body := bytes |})
    (record_call (R2Put name) w).

End Scenario.

(** ** Shapes of responses *)

Module Shape.

Import Platform Json.

(** A response that announces JSON and carries text carries an object with
    a boolean [success] member. *)
Definition json_has_success (r : Response) : Prop :=
  forall t, body r = BodyText t ->
            Headers_get (headers r) "Content-Type" = Some "application/json" ->
            has_success t.

(** The same, or the listing of [src/index.js]: an object with the single
    member [files]. *)
Definition json_has_success_or_lists (r : Response) : Prop :=
  forall t, body r = BodyText t ->
            Headers_get (headers r) "Content-Type" = Some "application/json" ->
            has_success t \/ exists items, t = stringify (JObject [("files", JArray items)]).

(** A response with one of the statuses 400, 401, 404 is plain text and
    not such an object. *)
Definition client_error_is_text (r : Response) : Prop :=
  In (status r) [400; 401; 404] ->
  Headers_get (headers r) "Content-Type" = Some "text/plain;charset=UTF-8"
  /\ exists t, body r = BodyText t /\ ~ has_success t.

End Shape.

(** ** Worlds with the same stores *)

Module Frame.

Import Platform.

(** [w'] has the bucket, the counters and the fault behaviour of [w]; the
    record of calls and nothing else may differ. *)
Definition same_stores (w w' : World) : Prop :=
  media w' = media w /\ ZED_DOWNLOADS w' = ZED_DOWNLOADS w /\ fault w' = fault w.

End Frame.

(** * Properties *)

Import Platform Json Lang.

(** ** Strings *)

Section StringFacts.

Lemma app_cons (x : ascii) (a b : string) : String x a +:+ b = String x (a +:+ b).
Proof. reflexivity. Qed.

Lemma app_nil (b : string) : EmptyString +:+ b = b.
Proof. reflexivity. Qed.

Lemma append_assoc (a b c : string) : (a +:+ b) +:+ c = a +:+ (b +:+ c).
Proof.
  induction a as [|x a IH]; [reflexivity|].
  rewrite !app_cons. now rewrite IH.
Qed.

(** A string that starts with [p] is [p] followed by something. *)
Lemma append_nil_r (s : string) : s +:+ EmptyString = s.
Proof. induction s as [|a s IH]; [apply app_nil | rewrite app_cons; now rewrite IH]. Qed.

Lemma rev_onto_app (acc x y : string) :
  JS.rev_onto acc x +:+ y = JS.rev_onto acc (x +:+ y).
Proof.
  revert x. induction acc as [|a acc IH]; intros x; cbn [JS.rev_onto]; [reflexivity|].
  rewrite IH. now rewrite app_cons.
Qed.

Lemma startsWith_inv (p s : string) :
  JS.startsWith s p = true -> exists r, s = p +:+ r.
Proof.
  unfold JS.startsWith. revert s.
  induction p as [|a p IH]; intros s H; simpl in *.
  - now exists s.
  - destruct s as [|b s]; simpl in H; [discriminate|].
    destruct (ascii_dec a b) as [->|]; [|discriminate].
    destruct (IH _ H) as [r ->]. exists r. now rewrite app_cons.
Qed.

Lemma lastIndexOf_from_absent (c : ascii) (s : string) (i found : Z) :
  ~ In c (list_ascii_of_string s) -> JS.lastIndexOf_from c s i found = found.
Proof.
  revert i found. induction s as [|a s IH]; intros i found H; simpl in *.
  - reflexivity.
  - destruct (Ascii.eqb_spec a c) as [->|Hne].
    + exfalso. apply H. now left.
    + apply IH. intros Hin. apply H. now right.
Qed.

(** With no occurrence the search answers [-1], and [substring(-1)] is the
    whole string. *)
Lemma substring_lastIndexOf_absent (c : ascii) (s : string) :
  ~ In c (list_ascii_of_string s) ->
  JS.lastIndexOf s c = -1 /\ JS.substring s (JS.lastIndexOf s c) = s.
Proof.
  intros H. unfold JS.lastIndexOf. rewrite (lastIndexOf_from_absent _ _ _ _ H).
  split; reflexivity.
Qed.

Lemma lower_ascii_dot (a : ascii) : JS.lower_ascii a = "."%char -> a = "."%char.
Proof.
  destruct a as [[] [] [] [] [] [] [] []]; vm_compute; intros H;
    first [reflexivity | discriminate H].
Qed.

Lemma toLowerCase_head (s : string) (t : string) :
  JS.toLowerCase s = String "." t -> exists s', s = String "." s'.
Proof.
  destruct s as [|a s]; simpl; intros H; [discriminate|].
  injection H as Ha _. apply lower_ascii_dot in Ha. subst. now exists s.
Qed.

End StringFacts.

(** ** The validator *)

Section Validator.

Lemma isValidFile_dotless (filename : string) :
  ~ In "."%char (list_ascii_of_string filename) ->
  Part000.isValidFile filename = false.
Proof.
  intros H. unfold Part000.isValidFile.
  destruct (substring_lastIndexOf_absent _ _ H) as [_ ->].
  assert (Hne : forall t, String.eqb (JS.toLowerCase filename) (String "." t) = false).
  { intros t. apply String.eqb_neq. intros E.
    apply toLowerCase_head in E as [s' ->]. apply H. simpl. now left. }
  unfold JS.includes, Part000.ALLOWED_EXTENSIONS. simpl existsb.
  rewrite !Hne. reflexivity.
Qed.

(** Both revisions have the same validator. *)
Lemma isValidFile_same (filename : string) :
  IndexJs.isValidFile filename = Part000.isValidFile filename.
Proof. reflexivity. Qed.

End Validator.

(** ** Decimal strings *)

Section Decimal.

Lemma digit_char_cases (d : N) :
  (d < 10)%N ->
  JS.is_digit (Num.digit_char d) = true /\ JS.hexval (Num.digit_char d) = Some (N.to_nat d).
Proof.
  intros H.
  assert (E : In d [0; 1; 2; 3; 4; 5; 6; 7; 8; 9]%N).
  { simpl. lia. }
  simpl in E.
  repeat (destruct E as [<-|E]; [split; reflexivity|]). destruct E.
Qed.
Lemma digits_go_acc (fuel : nat) (n : N) (acc : string) :
  Num.digits_go fuel n acc = Num.digits_go fuel n EmptyString +:+ acc.
Proof.
  revert n acc. induction fuel as [|f IH]; intros n acc; simpl.
  - reflexivity.
  - destruct (n / 10 =? 0)%N.
    + reflexivity.
    + rewrite (IH _ (String _ acc)), (IH _ (String _ EmptyString)).
      now rewrite append_assoc.
Qed.

(** One digit is read and the accumulator moves on. *)
Lemma parseDigits_step (d : N) (rest : string) (acc : option N) :
  (d < 10)%N ->
  Num.parseDigits 10 (String (Num.digit_char d) rest) acc
  = Num.parseDigits 10 rest (Some (default 0 acc * 10 + d)%N).
Proof.
  intros Hd. simpl. destruct (digit_char_cases d Hd) as [_ ->].
  rewrite N2Nat.id. apply N.ltb_lt in Hd. now rewrite Hd.
Qed.

Lemma parseDigits_digits_go (f : nat) (n : N) (rest : string) (acc : option N) :
  (n < 2 ^ N.of_nat (S f))%N ->
  default 0%N acc = 0%N ->
  Num.parseDigits 10 (Num.digits_go (S f) n EmptyString +:+ rest) acc
  = Num.parseDigits 10 rest (Some n).
Proof.
  revert n rest acc. induction f as [|f IH]; intros n rest acc Hn Hacc.
  - assert (n < 2)%N as Hn' by exact Hn.
    assert (n / 10 = 0)%N as E by (apply N.div_small; lia).
    cbn [Num.digits_go]. rewrite E. cbn [N.eqb]. rewrite app_cons, app_nil.
    rewrite parseDigits_step by (apply N.mod_lt; lia).
    rewrite Hacc, N.mod_small by lia. reflexivity.
  - change (Num.digits_go (S (S f)) n EmptyString)
      with (let acc' := String (Num.digit_char (n mod 10)) EmptyString in
            if (n / 10 =? 0)%N then acc' else Num.digits_go (S f) (n / 10) acc').
    cbv zeta.
    assert (Hd : (n mod 10 < 10)%N) by (apply N.mod_lt; lia).
    pose proof (N.div_mod n 10) as Hdm.
    destruct (N.eqb_spec (n / 10) 0) as [E|E].
    + rewrite app_cons, app_nil, parseDigits_step, Hacc by exact Hd.
      f_equal. f_equal. lia.
    + rewrite digits_go_acc, append_assoc, app_cons, app_nil.
      rewrite IH; [| |exact Hacc].
      * rewrite parseDigits_step by exact Hd. f_equal. f_equal. simpl. lia.
      * replace (2 ^ N.of_nat (S (S f)))%N with (2 * 2 ^ N.of_nat (S f))%N in Hn.
        -- apply N.Div0.div_lt_upper_bound. lia.
        -- rewrite (Nat2N.inj_succ (S f)), N.pow_succ_r'. reflexivity.
Qed.

Lemma is_digit_cases (a : ascii) :
  JS.is_digit a = true ->
  In a ["0"; "1"; "2"; "3"; "4"; "5"; "6"; "7"; "8"; "9"]%char.
Proof.
  destruct a as [[] [] [] [] [] [] [] []]; vm_compute; intros H;
    first [discriminate H | tauto].
Qed.

Lemma digits_go_all (fuel : nat) (n : N) (acc : string) :
  forallb JS.is_digit (list_ascii_of_string acc) = true ->
  forallb JS.is_digit (list_ascii_of_string (Num.digits_go fuel n acc)) = true.
Proof.
  revert n acc. induction fuel as [|f IH]; intros n acc H.
  - exact H.
  - assert (Hd : (n mod 10 < 10)%N) by (apply N.mod_lt; lia).
    destruct (digit_char_cases _ Hd) as [Hdig _].
    cbn [Num.digits_go]. cbv zeta.
    destruct (n / 10 =? 0)%N; [|apply IH]; cbn [list_ascii_of_string forallb];
      now rewrite Hdig.
Qed.

Lemma digits_go_nonempty (f : nat) (n : N) (acc : string) :
  exists c s, Num.digits_go (S f) n acc = String c s.
Proof.
  revert n acc. induction f as [|f IH]; intros n acc.
  - simpl. destruct (n / 10 =? 0)%N; eauto.
  - change (Num.digits_go (S (S f)) n acc)
      with (let acc' := String (Num.digit_char (n mod 10)) acc in
            if (n / 10 =? 0)%N then acc' else Num.digits_go (S f) (n / 10) acc').
    cbv zeta. destruct (n / 10 =? 0)%N; eauto.
Qed.

Lemma log2_fuel (n : N) : (n < 2 ^ N.of_nat (S (N.to_nat (N.log2 n))))%N.
Proof.
  rewrite Nat2N.inj_succ, N2Nat.id.
  destruct n as [|p]; [reflexivity|].
  apply N.log2_spec. reflexivity.
Qed.

(** The digits of a number: not empty, digits only, and read back as the
    number, also when something that is not a digit follows. *)
Lemma digits_shape (n : N) :
  exists c s, Num.digits n = String c s
    /\ JS.is_digit c = true
    /\ forallb JS.is_digit (list_ascii_of_string s) = true.
Proof.
  destruct (digits_go_nonempty (N.to_nat (N.log2 n)) n EmptyString) as (c & s & E).
  exists c, s. split; [exact E|].
  pose proof (digits_go_all (S (N.to_nat (N.log2 n))) n EmptyString eq_refl) as H.
  rewrite E in H. cbn [list_ascii_of_string forallb] in H.
  now apply andb_true_iff in H.
Qed.

Lemma parseDigits_digits (n : N) : Num.parseDigits 10 (Num.digits n) None = Some n.
Proof.
  unfold Num.digits.
  pose proof (parseDigits_digits_go (N.to_nat (N.log2 n)) n EmptyString None
                (log2_fuel n) eq_refl) as H.
  assert (forall s, s +:+ EmptyString = s) as Hnil.
  { induction s as [|a s IH]; [reflexivity|]. now rewrite app_cons, IH. }
  now rewrite Hnil in H.
Qed.

Lemma skipWhiteSpace_digit (c : ascii) (s : string) :
  JS.is_digit c = true -> Num.skipWhiteSpace (String c s) = String c s.
Proof.
  intros H. apply is_digit_cases in H. simpl in H.
  repeat (destruct H as [<-|H];
          [destruct s as [|b [|b' s]]; reflexivity|]).
  destruct H.
Qed.

Lemma parseInt_digits (n : N) : Num.parseInt (Num.digits n) = Num.of_Z (Z.of_N n).
Proof.
  pose proof (parseDigits_digits n) as Hp.
  destruct (digits_shape n) as (c & s & E & Hc & Hs).
  unfold Num.parseInt. rewrite E in *. rewrite skipWhiteSpace_digit by exact Hc.
  assert (Hu : Num.parseUnsigned (String c s) = Some n).
  { unfold Num.parseUnsigned.
    destruct s as [|x s'].
    - apply is_digit_cases in Hc. simpl in Hc.
      repeat (destruct Hc as [<-|Hc]; [exact Hp|]). destruct Hc.
    - cbn [list_ascii_of_string forallb] in Hs. apply andb_true_iff in Hs as [Hx _].
      assert (Ascii.eqb x "x" || Ascii.eqb x "X" = false) as Hxx.
      { apply is_digit_cases in Hx. simpl in Hx.
        repeat (destruct Hx as [<-|Hx]; [reflexivity|]). destruct Hx. }
      apply is_digit_cases in Hc. simpl in Hc.
      repeat (destruct Hc as [<-|Hc]; [first [rewrite Hxx; exact Hp | exact Hp]|]).
      destruct Hc. }
  apply is_digit_cases in Hc. simpl in Hc.
  repeat (destruct Hc as [<-|Hc]; [now rewrite Hu|]). destruct Hc.
Qed.

(** An integer below [2 ^ 53] in magnitude is a double. *)
Lemma of_Z_safe (z : Z) : Z.abs z < 2 ^ 53 -> Num.of_Z z = Num.Num z.
Proof.
  intros H. unfold Num.of_Z. cbv zeta.
  destruct (Z.ltb_spec (Z.abs z) (2 ^ 53)) as [_|]; [reflexivity | lia].
Qed.

(** Such a number is printed digit by digit. *)
Lemma toString_safe (z : Z) :
  0 <= z < 2 ^ 53 -> Num.toString (Num.Num z) = Num.digits (Z.to_N z).
Proof.
  intros H. unfold Num.toString. cbv zeta.
  destruct (Z.ltb_spec z 0) as [|_]; [lia|].
  rewrite Z.abs_eq by lia.
  destruct (Z.ltb_spec z (2 ^ 53)) as [_|]; [|lia].
  unfold Num.decimal.
  destruct (N.ltb_spec (Z.to_N z) (10 ^ 21)) as [_|Hbig]; [reflexivity|].
  exfalso. apply N2Z.inj_le in Hbig. rewrite Z2N.id in Hbig by lia.
  change (Z.of_N (10 ^ 21)) with 1000000000000000000000 in Hbig.
  change (2 ^ 53) with 9007199254740992 in H. lia.
Qed.

(** Above [2 ^ 53] a value is rounded when it is read and printed with the
    fewest digits that read back as it. *)
Lemma rounding_samples :
  Num.parseInt "9007199254740993" = Num.Num 9007199254740992
  /\ Num.add (Num.Num (2 ^ 53)) (Num.Num 1) = Num.Num (2 ^ 53)
  /\ Num.toString (Num.of_Z (2 ^ 60)) = "1152921504606847000"
  /\ Num.toString (Num.of_Z (10 ^ 21)) = "1e+21"
  /\ Num.toString (Num.of_Z (2 ^ 70)) = "1.1805916207174113e+21".
Proof. repeat split; vm_compute; reflexivity. Qed.

(** [parseInt(n.toString())] is [n] for a counter value. *)
Lemma parseInt_toString (z : Z) :
  0 <= z < 2 ^ 53 -> Num.parseInt (Num.toString (Num.Num z)) = Num.Num z.
Proof.
  intros H. rewrite toString_safe by exact H.
  rewrite parseInt_digits, Z2N.id by lia.
  apply of_Z_safe. rewrite Z.abs_eq; lia.
Qed.

Lemma toString_truthy (z : Z) :
  0 <= z < 2 ^ 53 -> Lang.truthy (Num.toString (Num.Num z)) = true.
Proof.
  intros H. rewrite toString_safe by exact H.
  destruct (digits_shape (Z.to_N z)) as (c & s & -> & _). reflexivity.
Qed.

End Decimal.

(** ** Running a computation backwards

    What the pieces of a run were, given its result. *)

Section Inversion.

Context {A B : Type}.

Lemma bind_inv (m : M A) (k : A -> M B) (w w' : World) (o : Outcome B) :
  bind m k w = (o, w') ->
  (exists a w1, m w = (Ok a, w1) /\ k a w1 = (o, w'))
  \/ (exists e, m w = (Throw e, w') /\ o = Throw e).
Proof.
  unfold bind. destruct (m w) as [[a|e] w1]; intros H.
  - left. eauto.
  - right. injection H as <- <-. eauto.
Qed.

Lemma try_catch_inv (m : M A) (h : Exn -> M A) (w w' : World) (o : Outcome A) :
  try_catch m h w = (o, w') ->
  (exists a, m w = (Ok a, w') /\ o = Ok a)
  \/ (exists e w1, m w = (Throw e, w1) /\ h e w1 = (o, w')).
Proof.
  unfold try_catch. destruct (m w) as [[a|e] w1]; intros H.
  - left. injection H as <- <-. eauto.
  - right. eauto.
Qed.

Lemma ret_inv (a : A) (w w' : World) (o : Outcome A) :
  ret a w = (o, w') -> o = Ok a /\ w' = w.
Proof. unfold ret. intros H. injection H as <- <-. auto. Qed.

Lemma throw_inv (e : Exn) (w w' : World) (o : Outcome A) :
  throw e w = (o, w') -> o = Throw e /\ w' = w.
Proof. unfold throw. intros H. injection H as <- <-. auto. Qed.

Lemma promise_inv (m : M A) (w w' : World) (o : Outcome (Outcome A)) :
  promise m w = (o, w') -> exists p, m w = (p, w') /\ o = Ok p.
Proof.
  unfold promise. destruct (m w) as [p w1]. intros H. injection H as <- <-. eauto.
Qed.

(** A backend call only adds itself to the record of calls; what it does
    to the stores is the business of [act]. *)
Lemma backend_inv (c : Call) (act : World -> A * World) (w w' : World) (o : Outcome A) :
  backend c act w = (o, w') ->
  (exists msg, fault w (calls w) c = Some msg /\ o = Throw (BackendError msg)
               /\ w' = record_call c w)
  \/ (fault w (calls w) c = None
      /\ o = Ok (fst (act (record_call c w))) /\ w' = snd (act (record_call c w))).
Proof.
  unfold backend. destruct (fault w (calls w) c) as [msg|].
  - intros H. injection H as <- <-. left. eauto.
  - destruct (act (record_call c w)) as [a w2]. intros H. injection H as <- <-.
    right. auto.
Qed.

Lemma Ok_inj (a b : A) : @Ok A a = Ok b -> a = b.
Proof. intros H. now injection H. Qed.

Lemma Throw_inj (e e' : Exn) : @Throw A e = Throw e' -> e = e'.
Proof. intros H. now injection H. Qed.

End Inversion.

(** Two outcomes that are equal: a contradiction, or equal contents. *)
Ltac same_outcome E :=
  first [discriminate E | apply Ok_inj in E; subst | apply Throw_inj in E; subst | subst].

(** One step backwards in the hypothesis [H]. *)
Ltac run_inv H :=
  lazymatch type of H with
  | bind _ _ _ = _ =>
      let a := fresh "a" in let w1 := fresh "w" in let e := fresh "e" in
      let H1 := fresh "Hrun" in let E := fresh "E" in
      apply bind_inv in H as [(a & w1 & H1 & H)|(e & H & E)]; [|same_outcome E]
  | try_catch _ _ _ = _ =>
      let a := fresh "a" in let w1 := fresh "w" in let e := fresh "e" in
      let H1 := fresh "Hrun" in let E := fresh "E" in
      apply try_catch_inv in H as [(a & H & E)|(e & w1 & H1 & H)]; [same_outcome E|]
  | promise _ _ = _ =>
      let p := fresh "p" in let E := fresh "E" in
      apply promise_inv in H as (p & H & E); same_outcome E
  | ret _ _ = _ =>
      let E := fresh "E" in
      apply ret_inv in H as [E ?]; same_outcome E
  | throw _ _ = _ =>
      let E := fresh "E" in
      apply throw_inv in H as [E ?]; same_outcome E
  | lift_uri ?o _ = _ => destruct o eqn:?; cbn [lift_uri] in H
  | (if ?c then _ else _) _ = _ => destruct c eqn:?
  | (match ?x with _ => _ end) _ = _ => destruct x eqn:?
  end.

(** ** What the small steps do to the world *)

Section Steps.

Lemma r2_put_calls (k bytes : string) (w w' : World) (o : Outcome unit) (key : string) :
  r2_put k bytes w = (o, w') ->
  In (R2Put key) (calls w') -> In (R2Put key) (calls w) \/ k = key.
Proof.
  intros H. apply backend_inv in H as [(msg & _ & _ & ->)|(_ & _ & ->)]; cbn;
    rewrite in_app_iff; cbn; intros [?|[E|[]]]; auto; right; congruence.
Qed.

Lemma name_of_world (file : Value) (w w' : World) (o : Outcome Value) :
  name_of file w = (o, w') -> w' = w.
Proof. destruct file; cbn; intros H; injection H as _ <-; reflexivity. Qed.

Lemma receiver_world (v : Value) (w w' : World) (o : Outcome string) :
  receiver v w = (o, w') -> w' = w.
Proof. destruct v; cbn; intros H; injection H as _ <-; reflexivity. Qed.

(** [set] either stores the value or throws; the world is not involved. *)
Lemma Headers_set_inv (h : Headers) (name value : string) (w w' : World)
    (o : Outcome Headers) :
  Headers_set h name value w = (o, w') ->
  w' = w
  /\ ((exists h', Headers_put h name value = Some h' /\ o = Ok h')
      \/ (Headers_put h name value = None
          /\ o = Throw (TypeError "Invalid header value."))).
Proof.
  unfold Headers_set. destruct (Headers_put h name value) as [h'|]; cbn;
    intros H; injection H as <- <-; eauto.
Qed.

(** The argument of the [debugLog] call of [handleDownload] always throws. *)
Lemma Object_fromEntries_headers (object : R2Object) (w w' : World)
    (o : Outcome (list (string * string))) :
  Object_fromEntries (obj_headers object) w = (o, w') ->
  o = Throw (TypeError "undefined is not iterable") /\ w' = w.
Proof. cbn. intros H. injection H as <- <-. auto. Qed.

End Steps.

(** All the steps backwards, in every hypothesis about a run. *)
Ltac run_all :=
  repeat match goal with
    | H : name_of _ _ = _ |- _ => apply name_of_world in H; subst
    | H : receiver _ _ = _ |- _ => apply receiver_world in H; subst
    | H : Headers_set _ _ _ _ = _ |- _ =>
        let E := fresh "E" in let K := fresh "Hput" in
        apply Headers_set_inv in H as [? [(? & K & E)|[K E]]]; subst; same_outcome E
    | H : Object_fromEntries (obj_headers _) _ = _ |- _ =>
        let E := fresh "E" in
        apply Object_fromEntries_headers in H as [E ?]; subst; same_outcome E
    | H : _ = (_, _) |- _ => run_inv H
    end.

(** ** The counter store *)

Section Counter.

Lemma kv_get_ok (key : string) (w : World) :
  fault w (calls w) (KVGet key) = None ->
  kv_get key w = (Ok (ZED_DOWNLOADS w !! key), record_call (KVGet key) w).
Proof. intros H. unfold kv_get, backend. now rewrite H. Qed.

Lemma kv_get_fails (key msg : string) (w : World) :
  fault w (calls w) (KVGet key) = Some msg ->
  kv_get key w = (Throw (BackendError msg), record_call (KVGet key) w).
Proof. intros H. unfold kv_get, backend. now rewrite H. Qed.

Lemma kv_put_ok (key value : string) (w : World) :
  fault w (calls w) (KVPut key value) = None ->
  kv_put key value w
  = (Ok tt, set_counters (insert key value) (record_call (KVPut key value) w)).
Proof. intros H. unfold kv_put, backend. now rewrite H. Qed.

(** What one increment does to a healthy counter store. *)
Lemma incrementDownloadCount_run (filename : string) (w : World) :
  let key := Part000.countKey filename in
  let current := ZED_DOWNLOADS w !! key in
  let newCount :=
    if truthy_opt current
    then Num.add (Num.parseInt (JS.toStringU current)) (Num.Num 1)
    else Num.Num 1 in
  fault w (calls w) (KVGet key) = None ->
  fault w (calls w ++ [KVGet key])%list (KVPut key (Num.toString newCount)) = None ->
  Part000.incrementDownloadCount filename w
  = (Ok (Some newCount),
     set_counters (insert key (Num.toString newCount))
       (record_call (KVPut key (Num.toString newCount)) (record_call (KVGet key) w))).
Proof.
  intros key current newCount Hget Hput. subst key current newCount.
  unfold Part000.incrementDownloadCount, try_catch, bind. cbv zeta.
  rewrite (kv_get_ok _ _ Hget).
  rewrite kv_put_ok by exact Hput. reflexivity.
Qed.

End Counter.

(** C7, as amended.  The increment reads the stored value, adds one and
    writes the result back as a decimal string: from no value it stores the
    string 1 and from the string of n it stores the string of n+1, for n up
    to [MAX_SAFE_INTEGER], with one read and one write of the key
    [download:] + name. *)
Theorem incrementDownloadCount_adds_one (filename : string) (w : World) :
  fault w (calls w) (KVGet (Part000.countKey filename)) = None ->
  (forall v, fault w (calls w ++ [KVGet (Part000.countKey filename)])%list
                   (KVPut (Part000.countKey filename) v) = None) ->
  (ZED_DOWNLOADS w !! Part000.countKey filename = None ->
   exists w',
     Part000.incrementDownloadCount filename w = (Ok (Some (Num.Num 1)), w')
     /\ ZED_DOWNLOADS w' = <[Part000.countKey filename := "1"]> (ZED_DOWNLOADS w)
     /\ calls w' = (calls w ++ [KVGet (Part000.countKey filename);
                               KVPut (Part000.countKey filename) "1"])%list
     /\ media w' = media w)
  /\ (forall n : Z,
        0 <= n <= Num.MAX_SAFE_INTEGER ->
        ZED_DOWNLOADS w !! Part000.countKey filename = Some (Num.digits (Z.to_N n)) ->
        exists w',
          Part000.incrementDownloadCount filename w = (Ok (Some (Num.Num (n + 1))), w')
          /\ ZED_DOWNLOADS w'
             = <[Part000.countKey filename := Num.digits (Z.to_N (n + 1))]> (ZED_DOWNLOADS w)
          /\ calls w' = (calls w ++ [KVGet (Part000.countKey filename);
                                    KVPut (Part000.countKey filename)
                                          (Num.digits (Z.to_N (n + 1)))])%list
          /\ media w' = media w).
Proof.
  intros Hget Hput. split.
  - intros Habs. eexists. split.
    + rewrite incrementDownloadCount_run; [|exact Hget|apply Hput].
      rewrite Habs. reflexivity.
    + cbn. rewrite <- app_assoc. auto.
  - intros n Hn Hcur. unfold Num.MAX_SAFE_INTEGER in Hn.
    assert (Hsum : Num.add (Num.parseInt (Num.digits (Z.to_N n))) (Num.Num 1)
                   = Num.Num (n + 1)).
    { rewrite <- toString_safe, parseInt_toString by lia. cbn [Num.add].
      destruct (Z.eq_dec n (2 ^ 53 - 1)) as [->|Hlt]; [reflexivity|].
      apply of_Z_safe. rewrite Z.abs_eq; lia. }
    assert (Hstr : Num.toString (Num.Num (n + 1)) = Num.digits (Z.to_N (n + 1))).
    { destruct (Z.eq_dec n (2 ^ 53 - 1)) as [->|Hlt]; [vm_compute; reflexivity|].
      apply toString_safe. lia. }
    assert (Htruthy : truthy (Num.digits (Z.to_N n)) = true).
    { rewrite <- toString_safe by lia. apply toString_truthy. lia. }
    eexists. split.
    + rewrite incrementDownloadCount_run; [|exact Hget|apply Hput].
      rewrite Hcur. cbn [truthy_opt JS.toStringU].
      rewrite Htruthy, Hsum, Hstr. reflexivity.
    + cbn. rewrite <- app_assoc. auto.
Qed.

Lemma incrementDownloadCount_adds_one_witness :
  let w := Samples.world [] [("download:report.pdf", "9007199254740991")] Samples.healthy in
  0 <= 9007199254740991 <= Num.MAX_SAFE_INTEGER
  /\ ZED_DOWNLOADS w !! Part000.countKey "report.pdf"
     = Some (Num.digits (Z.to_N 9007199254740991))
  /\ exists w',
       Part000.incrementDownloadCount "report.pdf" w
       = (Ok (Some (Num.Num 9007199254740992)), w')
       /\ ZED_DOWNLOADS w' !! "download:report.pdf" = Some "9007199254740992".
Proof.
  assert (Hn : 0 <= 9007199254740991 <= Num.MAX_SAFE_INTEGER)
    by (unfold Num.MAX_SAFE_INTEGER; lia).
  assert (Hc : ZED_DOWNLOADS
                 (Samples.world [] [("download:report.pdf", "9007199254740991")]
                    Samples.healthy)
               !! Part000.countKey "report.pdf"
               = Some (Num.digits (Z.to_N 9007199254740991)))
    by (vm_compute; reflexivity).
  split; [exact Hn|]. split; [exact Hc|].
  destruct (proj2 (incrementDownloadCount_adds_one "report.pdf"
                     (Samples.world [] [("download:report.pdf", "9007199254740991")]
                        Samples.healthy)
                     eq_refl (fun _ => eq_refl)) 9007199254740991 Hn Hc)
    as (w' & Hrun & Hkv & _).
  exists w'. split; [exact Hrun|]. rewrite Hkv. vm_compute. reflexivity.
Defined.

(** C7, where the claim fails.  From the stored string of [2 ^ 53] the
    increment stores the same string again, not the string of
    [2 ^ 53 + 1]: the sum is not a double and is rounded back. *)
Lemma increment_stalls_above_safe_integers :
  let w := Samples.world [] [("download:report.pdf", "9007199254740992")] Samples.healthy in
  Num.digits (Z.to_N (2 ^ 53)) = "9007199254740992"
  /\ Num.digits (Z.to_N (2 ^ 53 + 1)) = "9007199254740993"
  /\ exists w',
       Part000.incrementDownloadCount "report.pdf" w
       = (Ok (Some (Num.Num 9007199254740992)), w')
       /\ ZED_DOWNLOADS w' !! "download:report.pdf" = Some "9007199254740992"
       /\ ZED_DOWNLOADS w' !! "download:report.pdf" <> Some "9007199254740993".
Proof.
  cbv zeta. split; [vm_compute; reflexivity|]. split; [vm_compute; reflexivity|].
  eexists. split; [vm_compute; reflexivity|].
  split; [vm_compute; reflexivity | vm_compute; discriminate].
Qed.

(** ** Headers *)

Section HeaderFacts.

Lemma Headers_lookup_replace (name value : string) (h : Headers) :
  Headers_lookup name (Headers_replace name value h) = Some value.
Proof.
  induction h as [|[n v] h IH]; cbn.
  - now rewrite String.eqb_refl.
  - destruct (String.eqb_spec n name) as [->|Hne]; cbn.
    + now rewrite String.eqb_refl.
    + apply String.eqb_neq in Hne. now rewrite Hne.
Qed.

Lemma Headers_lookup_replace_other (name other value : string) (h : Headers) :
  other <> name ->
  Headers_lookup other (Headers_replace name value h) = Headers_lookup other h.
Proof.
  intros Hne. induction h as [|[n v] h IH]; cbn.
  - apply not_eq_sym in Hne. apply String.eqb_neq in Hne. now rewrite Hne.
  - destruct (String.eqb_spec n name) as [->|Hn]; cbn.
    + apply not_eq_sym in Hne. apply String.eqb_neq in Hne. now rewrite Hne.
    + now rewrite IH.
Qed.

(** [h.set(n, v)] then [h.get(n)]: the normalized value *)
Lemma Headers_get_put (h h' : Headers) (name value : string) :
  Headers_put h name value = Some h' ->
  Headers_get h' name = Some (normalize value) /\ valid_value (normalize value) = true.
Proof.
  unfold Headers_put. cbv zeta.
  destruct (valid_value (normalize value)); [|discriminate].
  intros [= <-]. split; [apply Headers_lookup_replace | reflexivity].
Qed.

(** A [set] under another name (case apart) leaves [get] as it was. *)
Lemma Headers_get_put_other (h h' : Headers) (name other value : string) :
  JS.toLowerCase other <> JS.toLowerCase name ->
  Headers_put h name value = Some h' ->
  Headers_get h' other = Headers_get h other.
Proof.
  unfold Headers_put. cbv zeta. intros Hne.
  destruct (valid_value (normalize value)); [|discriminate].
  intros [= <-]. now apply Headers_lookup_replace_other.
Qed.

Lemma rev_onto_last (a : string) (c : ascii) (acc : string) :
  JS.rev_onto (a +:+ String c EmptyString) acc = String c (JS.rev_onto a acc).
Proof.
  revert acc. induction a as [|x a IH]; intros acc.
  - now rewrite app_nil.
  - rewrite app_cons. cbn [JS.rev_onto]. apply IH.
Qed.

Lemma rev_onto_rev_onto (s acc t : string) :
  JS.rev_onto (JS.rev_onto s acc) t = JS.rev_onto acc (s +:+ t).
Proof.
  revert acc. induction s as [|x s IH]; intros acc; cbn [JS.rev_onto].
  - now rewrite app_nil.
  - rewrite IH. cbn [JS.rev_onto]. now rewrite app_cons.
Qed.

(** A value that neither starts nor ends with white space is stored as it
    is. *)
Lemma normalize_framed (first last : ascii) (s : string) :
  http_whitespace first = false -> http_whitespace last = false ->
  normalize (String first (s +:+ String last EmptyString))
  = String first (s +:+ String last EmptyString).
Proof.
  intros Hf Hl. unfold normalize. cbn [strip_leading]. rewrite Hf.
  cbn [JS.rev_onto]. rewrite rev_onto_last. cbn [strip_leading]. rewrite Hl.
  rewrite <- rev_onto_last.
  change (JS.rev_onto (s +:+ String last EmptyString) (String first EmptyString))
    with (JS.rev_onto (String first (s +:+ String last EmptyString)) EmptyString).
  rewrite rev_onto_rev_onto. cbn [JS.rev_onto]. apply append_nil_r.
Qed.

Lemma valid_value_app (a b : string) :
  valid_value (a +:+ b) = valid_value a && valid_value b.
Proof.
  unfold valid_value. induction a as [|x a IH].
  - now rewrite app_nil.
  - rewrite app_cons. cbn [list_ascii_of_string forallb]. rewrite IH.
    now rewrite andb_assoc.
Qed.

(** The [Content-Disposition] value is stored as it is, and is valid
    exactly when the name is. *)
Lemma contentDisposition_put (h : Headers) (filename : string) :
  Headers_put h "Content-Disposition" (contentDisposition filename)
  = if valid_value filename
    then Some (Headers_replace "content-disposition" (contentDisposition filename) h)
    else None.
Proof.
  unfold Headers_put. cbv zeta.
  assert (normalize (contentDisposition filename) = contentDisposition filename) as ->.
  { unfold contentDisposition.
    assert ("attachment; filename=" +:+ String dquote (filename +:+ String dquote EmptyString)
            = String "a" (("ttachment; filename=" +:+ String dquote filename)
                          +:+ String dquote EmptyString)) as ->
      by (repeat first [rewrite app_cons | rewrite app_nil]; reflexivity).
    apply normalize_framed; reflexivity. }
  assert (valid_value (contentDisposition filename) = valid_value filename) as ->.
  { unfold contentDisposition. rewrite valid_value_app.
    change (String dquote (filename +:+ String dquote EmptyString))
      with (String dquote EmptyString +:+ (filename +:+ String dquote EmptyString)).
    rewrite !valid_value_app.
    change (valid_value "attachment; filename=") with true.
    change (valid_value (String dquote EmptyString)) with true.
    cbn [andb]. apply andb_true_r. }
  reflexivity.
Qed.

(** The headers of a download in [src/index.js]. *)
Lemma setDownloadHeaders_index (filename : string) (object : R2Object) (w : World) :
  IndexJs.setDownloadHeaders filename object w
  = if valid_value filename
    then (Ok [("content-disposition", contentDisposition filename);
              ("cache-control", "public, max-age=31536000, immutable");
              ("access-control-allow-origin", "*");
              ("access-control-allow-methods", "GET, HEAD, OPTIONS")], w)
    else (Throw (TypeError "Invalid header value."), w).
Proof.
  unfold IndexJs.setDownloadHeaders. cbv zeta. unfold bind at 1.
  unfold Headers_set at 1. rewrite contentDisposition_put.
  destruct (valid_value filename); reflexivity.
Qed.

End HeaderFacts.

(** ** The dispatcher *)

Section Routes.

(** The route prefixes exclude each other. *)
Lemma download_not_generate (path : string) :
  JS.startsWith path "/download/" = true -> JS.startsWith path "/generate/" = false.
Proof. intros H. apply startsWith_inv in H as [r ->]. reflexivity. Qed.

Lemma stats_not_others (path : string) :
  JS.startsWith path "/stats/" = true ->
  JS.startsWith path "/generate/" = false /\ JS.startsWith path "/download/" = false.
Proof. intros H. apply startsWith_inv in H as [r ->]. split; reflexivity. Qed.

Lemma reset_not_others (path : string) :
  JS.startsWith path "/reset-stats/" = true ->
  JS.startsWith path "/generate/" = false
  /\ JS.startsWith path "/download/" = false
  /\ JS.startsWith path "/stats/" = false
  /\ String.eqb path "/all-stats" = false
  /\ String.eqb path "/debug/kv" = false.
Proof. intros H. apply startsWith_inv in H as [r ->]. repeat split; reflexivity. Qed.

End Routes.

(** ** Counting never changes the download *)

Lemma r2_get_run (key : string) (w : World) :
  r2_get key w
  = match fault w (calls w) (R2Get key) with
    | Some msg => (Throw (BackendError msg), record_call (R2Get key) w)
    | None => (Ok (media w !! key), record_call (R2Get key) w)
    end.
Proof. unfold r2_get, backend. now destruct (fault w (calls w) (R2Get key)). Qed.

(** The whole of [handleDownload]: it asks the bucket once, and for an
    object that is there the argument of its [debugLog] call throws inside
    the [try], before the counter and the headers are reached. *)
Lemma handleDownload_run (request : Request) (filename : string) (w : World) :
  Part000.handleDownload request filename w
  = if negb (truthy filename) || negb (Part000.isValidFile filename)
    then (Ok (Response_new (BodyText "Invalid file type") (Some 400) []), w)
    else match fault w (calls w) (R2Get filename), media w !! filename with
         | None, None =>
             (Ok (Response_new (BodyText "File not found") (Some 404) []),
              record_call (R2Get filename) w)
         | _, _ =>
             (Ok (Response_new (BodyText "Error retrieving file") (Some 500) []),
              record_call (R2Get filename) w)
         end.
Proof.
  unfold Part000.handleDownload, try_catch.
  destruct (negb (truthy filename) || negb (Part000.isValidFile filename)); [reflexivity|].
  unfold bind at 1. rewrite r2_get_run.
  destruct (fault w (calls w) (R2Get filename)) as [msg|];
    [now destruct (media w !! filename)|].
  destruct (media w !! filename) as [object|]; reflexivity.
Qed.

(** The whole of [handleDownload] in [src/index.js] *)
Lemma handleDownload_index_run (request : Request) (filename : string) (w : World) :
  IndexJs.handleDownload request filename w
  = if negb (truthy filename) || negb (Part000.isValidFile filename)
    then (Ok (Response_new (BodyText "Invalid file type") (Some 400) []), w)
    else (Ok match fault w (calls w) (R2Get filename), media w !! filename with
             | None, None => Response_new (BodyText "File not found") (Some 404) []
             | None, Some object =>
                 if valid_value filename
                 then Response_new (BodyStream (obj_body object)) (Some 200)
                        [("content-disposition", contentDisposition filename);
                         ("cache-control", "public, max-age=31536000, immutable");
                         ("access-control-allow-origin", "*");
                         ("access-control-allow-methods", "GET, HEAD, OPTIONS")]
                 else Response_new (BodyText "Error retrieving file") (Some 500) []
             | Some _, _ => Response_new (BodyText "Error retrieving file") (Some 500) []
             end,
          record_call (R2Get filename) w).
Proof.
  unfold IndexJs.handleDownload, try_catch.
  change IndexJs.isValidFile with Part000.isValidFile.
  destruct (negb (truthy filename) || negb (Part000.isValidFile filename)); [reflexivity|].
  unfold bind at 1. rewrite r2_get_run.
  destruct (fault w (calls w) (R2Get filename)) as [msg|]; [reflexivity|].
  destruct (media w !! filename) as [object|]; [|reflexivity].
  unfold bind. rewrite setDownloadHeaders_index.
  destruct (valid_value filename); reflexivity.
Qed.




(** ** Downloads of stored objects *)

Section Found.

Variables (request : Request) (filename : string) (w : World).
Hypothesis nonempty : filename <> EmptyString.
Hypothesis valid : Part000.isValidFile filename = true.
Hypothesis reachable : fault w (calls w) (R2Get filename) = None.

Lemma checked : negb (truthy filename) || negb (Part000.isValidFile filename) = false.
Proof.
  unfold truthy. apply String.eqb_neq in nonempty. now rewrite nonempty, valid.
Qed.

Lemma handleDownload_present (object : R2Object) :
  media w !! filename = Some object ->
  Part000.handleDownload request filename w
  = (Ok (Response_new (BodyText "Error retrieving file") (Some 500) []),
     record_call (R2Get filename) w).
Proof. intros Hfound. now rewrite handleDownload_run, checked, reachable, Hfound. Qed.

Lemma handleDownload_missing :
  media w !! filename = None ->
  Part000.handleDownload request filename w
  = (Ok (Response_new (BodyText "File not found") (Some 404) []),
     record_call (R2Get filename) w).
Proof. intros Hmissing. now rewrite handleDownload_run, checked, reachable, Hmissing. Qed.

Lemma handleDownload_index (found : option R2Object) :
  media w !! filename = found ->
  IndexJs.handleDownload request filename w
  = (Ok match found with
        | None => Response_new (BodyText "File not found") (Some 404) []
        | Some object =>
            if valid_value filename
            then Response_new (BodyStream (obj_body object)) (Some 200)
                   [("content-disposition", contentDisposition filename);
                    ("cache-control", "public, max-age=31536000, immutable");
                    ("access-control-allow-origin", "*");
                    ("access-control-allow-methods", "GET, HEAD, OPTIONS")]
            else Response_new (BodyText "Error retrieving file") (Some 500) []
        end,
     record_call (R2Get filename) w).
Proof.
  intros Hfound. rewrite handleDownload_index_run, checked, reachable, Hfound.
  now destruct found.
Qed.

End Found.

(** X1. A download of a name with an allowed extension, the bucket
    answering.  When no object is stored under the name, both revisions
    answer 404.  When one is, the revision with counters answers 500 after
    the one call to the bucket, whatever the name: the [debugLog] call that
    follows the lookup reads the [headers] of the object, which it does not
    have, and throws inside the [try].  The revision without counters
    answers 200 with the stored bytes and the forced-download header naming
    the file, for an ASCII name without NUL, CR or LF; a name with one of
    these, which no header value may have, is answered 500 as well. *)
Theorem download_of_stored_object (request : Request) (filename : string) (w : World) :
  filename <> EmptyString ->
  Part000.isValidFile filename = true ->
  fault w (calls w) (R2Get filename) = None ->
  (media w !! filename = None ->
   exists r,
     Part000.handleDownload request filename w = (Ok r, record_call (R2Get filename) w)
     /\ IndexJs.handleDownload request filename w = (Ok r, record_call (R2Get filename) w)
     /\ status r = 404)
  /\ (forall object,
        media w !! filename = Some object ->
        (exists r,
           Part000.handleDownload request filename w
           = (Ok r, record_call (R2Get filename) w)
           /\ status r = 500 /\ body r = BodyText "Error retrieving file")
        /\ (valid_value filename = true ->
            Forall (fun a => (nat_of_ascii a < 128)%nat) (list_ascii_of_string filename) ->
            exists r,
              IndexJs.handleDownload request filename w
              = (Ok r, record_call (R2Get filename) w)
              /\ status r = 200
              /\ body r = BodyStream (obj_body object)
              /\ Headers_get (headers r) "Content-Disposition"
                 = Some (contentDisposition filename))
        /\ (valid_value filename = false ->
            exists r,
              IndexJs.handleDownload request filename w
              = (Ok r, record_call (R2Get filename) w)
              /\ status r = 500 /\ body r = BodyText "Error retrieving file")).
Proof.
  intros Hne Hvalid Hfault. split.
  - intros Hmissing. eexists. split.
    + exact (handleDownload_missing request filename w Hne Hvalid Hfault Hmissing).
    + split; [|reflexivity].
      exact (handleDownload_index request filename w Hne Hvalid Hfault None Hmissing).
  - intros object Hfound. split; [|split].
    + eexists. split.
      * exact (handleDownload_present request filename w Hne Hvalid Hfault object Hfound).
      * split; reflexivity.
    + intros Hsafe _. eexists. split.
      * rewrite (handleDownload_index request filename w Hne Hvalid Hfault _ Hfound).
        rewrite Hsafe. reflexivity.
      * repeat split.
    + intros Hunsafe. eexists. split.
      * rewrite (handleDownload_index request filename w Hne Hvalid Hfault _ Hfound).
        rewrite Hunsafe. reflexivity.
      * repeat split.
Qed.

Lemma download_of_stored_object_witness :
  let request := Samples.request "GET" "/download/report.pdf" [] in
  let w := Samples.world [("report.pdf", Samples.report)] [] Samples.healthy in
  (exists r w',
     Part000.handleDownload request "report.pdf" w = (Ok r, w') /\ status r = 500)
  /\ (exists r w',
        IndexJs.handleDownload request "report.pdf" w = (Ok r, w')
        /\ status r = 200
        /\ body r = BodyStream "PDF"
        /\ Headers_get (headers r) "Content-Disposition"
           = Some (contentDisposition "report.pdf")).
Proof.
  cbv zeta.
  assert (Hne : "report.pdf" <> EmptyString) by discriminate.
  destruct (proj2 (download_of_stored_object
                     (Samples.request "GET" "/download/report.pdf" [])
                     "report.pdf"
                     (Samples.world [("report.pdf", Samples.report)] [] Samples.healthy)
                     Hne eq_refl eq_refl)
              Samples.report eq_refl)
    as [(r & Hrun & Hst & _) [Hsafe _]].
  split; [eauto|].
  assert (Hascii : Forall (fun a => (nat_of_ascii a < 128)%nat)
                     (list_ascii_of_string "report.pdf"))
    by (repeat constructor; vm_compute; lia).
  destruct (Hsafe eq_refl Hascii) as (r' & Hrun' & Hst' & Hbody & Hcd). eauto 10.
Defined.

(** C3. Where the claim fails: the object [100%.pdf] is in the bucket and
    its extension is allowed, yet [/download/100%25.pdf], the link
    [listFiles] gives for it, answers 500 after the object was fetched.
    Inside the [try] of [handleDownload] the [debugLog] call after the
    lookup reads the [headers] of the object and throws; the second
    [decodeURIComponent] of the already decoded name, which comes next,
    would throw on this name as well.  The revision without counters
    answers 200 with the payload. *)
Theorem download_of_present_object_fails :
  let w0 := Samples.world [("100%.pdf", Samples.report)] [] Samples.healthy in
  let download := Samples.request "GET" "/download/100%25.pdf" [] in
  Part000.isValidFile "100%.pdf" = true
  /\ "/download/" +:+ JS.encodeURIComponent "100%.pdf" = pathname (url download)
  /\ media w0 !! "100%.pdf" = Some Samples.report
  /\ Part000.fetch download w0
     = (Ok (Response_new (BodyText "Error retrieving file") (Some 500) []),
        record_call (R2Get "100%.pdf") w0)
  /\ fst (IndexJs.fetch download w0)
     = Ok (Response_new (BodyStream "PDF") (Some 200)
             [("content-disposition", contentDisposition "100%.pdf");
              ("cache-control", "public, max-age=31536000, immutable");
              ("access-control-allow-origin", "*");
              ("access-control-allow-methods", "GET, HEAD, OPTIONS")]).
Proof.
  cbv zeta. repeat split; vm_compute; reflexivity.
Qed.

(** ** Sequential downloads, then the statistics *)

Section Sequential.

Variables (download statsRequest : Request) (raw raw' filename : string).
Variables (object : R2Object) (w0 : World).

Hypothesis download_method : method download <> "OPTIONS".
Hypothesis download_path : JS.startsWith (pathname (url download)) "/download/" = true.
Hypothesis download_name : item1 (JS.split (pathname (url download)) "/download/") = Some raw.
Hypothesis download_decodes : JS.decodeURIComponent raw = Some filename.
Hypothesis stats_method : method statsRequest <> "OPTIONS".
Hypothesis stats_path : JS.startsWith (pathname (url statsRequest)) "/stats/" = true.
Hypothesis stats_name : item1 (JS.split (pathname (url statsRequest)) "/stats/") = Some raw'.
Hypothesis stats_decodes : JS.decodeURIComponent raw' = Some filename.
Hypothesis nonempty : filename <> EmptyString.
Hypothesis valid : Part000.isValidFile filename = true.
Hypothesis healthy : forall h c, fault w0 h c = None.
Hypothesis stored : media w0 !! filename = Some object.

Lemma fetch_download (v : World) :
  Part000.fetch download v = Part000.handleDownload download filename v.
Proof.
  unfold Part000.fetch. apply String.eqb_neq in download_method.
  rewrite download_method, (download_not_generate _ download_path), download_path,
    download_name.
  cbn [JS.toStringU]. now rewrite download_decodes.
Qed.

Lemma download_step (v : World) :
  Frame.same_stores w0 v ->
  fst (Part000.fetch download v)
  = Ok (Response_new (BodyText "Error retrieving file") (Some 500) [])
  /\ Frame.same_stores w0 (Scenario.after (Part000.fetch download) v).
Proof.
  intros (Hm & Hz & Hf).
  assert (Hh : forall h c, fault v h c = None) by (intros; now rewrite Hf).
  assert (Hstored : media v !! filename = Some object) by now rewrite Hm.
  unfold Scenario.after. rewrite fetch_download.
  rewrite (handleDownload_present download filename v nonempty valid (Hh _ _) object Hstored).
  split; [reflexivity|]. repeat split; assumption.
Qed.

Lemma downloads_quiet (n : nat) :
  Frame.same_stores w0 (Scenario.after_n n (Part000.fetch download) w0).
Proof.
  induction n as [|k IH]; cbn [Scenario.after_n].
  - repeat split.
  - apply (download_step _ IH).
Qed.

Lemma stats_reports (v : World) :
  Frame.same_stores w0 v ->
  exists r fields,
    fst (Part000.fetch statsRequest v) = Ok r
    /\ status r = 200
    /\ body r = BodyText (stringify (JObject fields))
    /\ field "downloads" fields
       = Some (JNumber (Part000.downloads_of (ZED_DOWNLOADS w0 !! Part000.countKey filename))).
Proof.
  intros (Hm & Hz & Hf).
  assert (Hh : forall h c, fault v h c = None) by (intros; now rewrite Hf).
  destruct (stats_not_others _ stats_path) as (Hg & Hd).
  assert (Hraw : truthy_opt (Some raw') = true).
  { destruct raw'; [|reflexivity]. cbn in stats_decodes. congruence. }
  eexists. eexists. split.
  - unfold Part000.fetch. apply String.eqb_neq in stats_method.
    rewrite stats_method, Hg, Hd, stats_path, stats_name, Hraw. cbn [negb].
    unfold Part000.stats, try_catch. cbn [JS.toStringU].
    rewrite stats_decodes. cbn [lift_uri]. unfold bind at 1. unfold ret at 1.
    unfold bind at 1. rewrite (kv_get_ok _ _ (Hh _ _)), Hz.
    unfold bind, ret, now_iso. cbn [fst]. reflexivity.
  - repeat split; reflexivity.
Qed.

(** X2. Downloads are never counted.  However often a stored file with an
    allowed extension is requested, every request is answered 500, no
    counter is written, and the statistics of the file report afterwards
    what they reported before: 0 when the file had no counter. *)
Theorem downloads_are_never_counted (n : nat) :
  (forall k, (k < n)%nat ->
     fst (Part000.fetch download (Scenario.after_n k (Part000.fetch download) w0))
     = Ok (Response_new (BodyText "Error retrieving file") (Some 500) []))
  /\ ZED_DOWNLOADS (Scenario.after_n n (Part000.fetch download) w0) = ZED_DOWNLOADS w0
  /\ exists r fields,
       fst (Part000.fetch statsRequest (Scenario.after_n n (Part000.fetch download) w0)) = Ok r
       /\ status r = 200
       /\ body r = BodyText (stringify (JObject fields))
       /\ field "downloads" fields
          = Some (JNumber (Part000.downloads_of
                             (ZED_DOWNLOADS w0 !! Part000.countKey filename))).
Proof.
  split; [|split].
  - intros k _. apply (download_step _ (downloads_quiet k)).
  - apply (downloads_quiet n).
  - apply stats_reports, downloads_quiet.
Qed.

End Sequential.

Lemma downloads_are_never_counted_witness :
  let download := Samples.request "GET" "/download/songs%2Fone.mp3" [] in
  let statsRequest := Samples.request "GET" "/stats/songs%2Fone.mp3" [] in
  let w0 := Samples.world [("songs/one.mp3", Samples.report)] [] Samples.healthy in
  ZED_DOWNLOADS (Scenario.after_n 3 (Part000.fetch download) w0) = ZED_DOWNLOADS w0
  /\ exists r fields,
       fst (Part000.fetch statsRequest (Scenario.after_n 3 (Part000.fetch download) w0)) = Ok r
       /\ status r = 200
       /\ body r = BodyText (stringify (JObject fields))
       /\ field "downloads" fields = Some (JNumber (Num.Num 0)).
Proof.
  cbv zeta.
  assert (Hne : "songs/one.mp3" <> EmptyString) by discriminate.
  assert (Hm : "GET" <> "OPTIONS") by discriminate.
  exact (proj2 (downloads_are_never_counted
                  (Samples.request "GET" "/download/songs%2Fone.mp3" [])
                  (Samples.request "GET" "/stats/songs%2Fone.mp3" [])
                  "songs%2Fone.mp3" "songs%2Fone.mp3" "songs/one.mp3" Samples.report
                  (Samples.world [("songs/one.mp3", Samples.report)] [] Samples.healthy)
                  Hm eq_refl eq_refl eq_refl Hm eq_refl eq_refl eq_refl
                  Hne eq_refl (fun _ _ => eq_refl) eq_refl 3%nat)).
Defined.

(** ** Uploads *)

Lemma handleUpload_without_file (request : Request) (fd : FormData) (w : World) :
  Headers_get (req_headers request) "Authorization" = Some (bearer Part000.AUTH_TOKEN) ->
  form request = Some fd ->
  FormData_get fd "file" = None ->
  truthy_value (of_form (FormData_get fd "filename")) = false ->
  Part000.handleUpload request w
  = (Throw (TypeError "Cannot read properties of null (reading 'name')"), w)
  /\ IndexJs.handleUpload request w
     = (Throw (TypeError "Cannot read properties of null (reading 'name')"), w).
Proof.
  intros Hauth Hform Hfile Hname.
  unfold Part000.handleUpload, IndexJs.handleUpload.
  rewrite Hauth, Hform.
  change IndexJs.AUTH_TOKEN with Part000.AUTH_TOKEN.
  unfold differs. rewrite String.eqb_refl.
  replace (truthy_opt (Some (bearer Part000.AUTH_TOKEN))) with true by reflexivity.
  cbn [negb orb]. unfold bind, ret. rewrite Hfile, Hname.
  split; reflexivity.
Qed.

(** C2. An authorised [POST /upload] whose form has no [file] entry and no
    usable [filename] does not reach the check that answers 400: evaluating
    [file.name] on [null] throws, outside of any [try], and the request ends
    in a [TypeError] in both revisions. *)
Theorem upload_without_file_throws (request : Request) (fd : FormData) (w : World) :
  method request = "POST" ->
  pathname (url request) = "/upload" ->
  Headers_get (req_headers request) "Authorization" = Some (bearer Part000.AUTH_TOKEN) ->
  form request = Some fd ->
  FormData_get fd "file" = None ->
  truthy_value (of_form (FormData_get fd "filename")) = false ->
  Part000.fetch request w
  = (Throw (TypeError "Cannot read properties of null (reading 'name')"), w)
  /\ IndexJs.fetch request w
     = (Throw (TypeError "Cannot read properties of null (reading 'name')"), w).
Proof.
  intros Hm Hp Hauth Hform Hfile Hname.
  destruct (handleUpload_without_file request fd w Hauth Hform Hfile Hname) as [H1 H2].
  unfold Part000.fetch, IndexJs.fetch. rewrite Hm, Hp.
  split; [exact H1 | exact H2].
Qed.

Lemma upload_without_file_throws_witness :
  Headers_get (req_headers (Samples.upload [])) "Authorization"
  = Some (bearer Part000.AUTH_TOKEN)
  /\ Part000.fetch (Samples.upload []) (Samples.world [] [] Samples.healthy)
     = (Throw (TypeError "Cannot read properties of null (reading 'name')"),
        Samples.world [] [] Samples.healthy).
Proof.
  split; [reflexivity|].
  exact (proj1 (upload_without_file_throws (Samples.upload []) []
                  (Samples.world [] [] Samples.healthy)
                  eq_refl eq_refl eq_refl eq_refl eq_refl eq_refl)).
Defined.

(** X3. An authorised upload answers 400 [No file provided], storing
    nothing, when a usable [filename] comes without a [file], and when a
    [file] comes without a usable name (a text field, or a file whose own
    name is empty, and no [filename] field). *)
Theorem upload_missing_part_is_400 (request : Request) (fd : FormData) (w : World) :
  Headers_get (req_headers request) "Authorization" = Some (bearer Part000.AUTH_TOKEN) ->
  form request = Some fd ->
  (truthy_value (of_form (FormData_get fd "filename")) = true
   /\ truthy_value (of_form (FormData_get fd "file")) = false)
  \/ (truthy_value (of_form (FormData_get fd "filename")) = false
      /\ ((exists s, FormData_get fd "file" = Some (FormString s))
          \/ (exists f, FormData_get fd "file" = Some (FormFile f)
                        /\ file_name f = EmptyString))) ->
  Part000.handleUpload request w
  = (Ok (Response_new (BodyText "No file provided") (Some 400) []), w)
  /\ IndexJs.handleUpload request w
     = (Ok (Response_new (BodyText "No file provided") (Some 400) []), w).
Proof.
  intros Hauth Hform Hcase.
  unfold Part000.handleUpload, IndexJs.handleUpload.
  rewrite Hauth, Hform.
  change IndexJs.AUTH_TOKEN with Part000.AUTH_TOKEN.
  unfold differs. rewrite String.eqb_refl.
  replace (truthy_opt (Some (bearer Part000.AUTH_TOKEN))) with true by reflexivity.
  cbn [negb orb]. unfold bind, ret.
  destruct Hcase as [[Hname Hfile]|[Hname [[s Hfile]|(f & Hfile & Hempty)]]].
  - rewrite Hname, Hfile, Hname. split; reflexivity.
  - rewrite Hname, Hfile. cbn [of_form name_of ret truthy_value].
    rewrite orb_true_r. split; reflexivity.
  - rewrite Hname, Hfile. cbn [of_form name_of ret truthy_value]. rewrite Hempty.
    split; reflexivity.
Qed.

Lemma upload_missing_part_is_400_witness :
  let request := Samples.upload [("filename", FormString "report.pdf")] in
  let w := Samples.world [] [] Samples.healthy in
  exists r, Part000.fetch request w = (Ok r, w) /\ status r = 400.
Proof.
  cbv zeta. exists (Response_new (BodyText "No file provided") (Some 400) []).
  split; [|reflexivity].
  exact (proj1 (upload_missing_part_is_400
                  (Samples.upload [("filename", FormString "report.pdf")])
                  [("filename", FormString "report.pdf")]
                  (Samples.world [] [] Samples.healthy)
                  eq_refl eq_refl (or_introl (conj eq_refl eq_refl)))).
Defined.

(** ** Endpoints that validate the extension *)

Section Rejection.

Variable filename : string.
Hypothesis invalid : Part000.isValidFile filename = false.

Lemma generateDownloadUrl_invalid (request : Request) (w : World) :
  Part000.generateDownloadUrl request filename w
  = (Ok (Response_new (BodyText "Invalid file type") (Some 400) []), w)
  /\ IndexJs.generateDownloadUrl request filename w
     = (Ok (Response_new (BodyText "Invalid file type") (Some 400) []), w).
Proof.
  unfold Part000.generateDownloadUrl, IndexJs.generateDownloadUrl.
  change IndexJs.isValidFile with Part000.isValidFile.
  rewrite invalid, orb_true_r. split; reflexivity.
Qed.

Lemma handleDownload_invalid (request : Request) (w : World) :
  Part000.handleDownload request filename w
  = (Ok (Response_new (BodyText "Invalid file type") (Some 400) []), w)
  /\ IndexJs.handleDownload request filename w
     = (Ok (Response_new (BodyText "Invalid file type") (Some 400) []), w).
Proof.
  unfold Part000.handleDownload, IndexJs.handleDownload, try_catch.
  change IndexJs.isValidFile with Part000.isValidFile.
  rewrite invalid, orb_true_r. split; reflexivity.
Qed.

End Rejection.

(** An upload only ever writes under a name that passed the validator. *)
Lemma handleUpload_puts_valid (request : Request) (w w' : World) (o : Outcome Response)
    (key : string) :
  Part000.handleUpload request w = (o, w') \/ IndexJs.handleUpload request w = (o, w') ->
  In (R2Put key) (calls w') ->
  In (R2Put key) (calls w) \/ Part000.isValidFile key = true.
Proof.
  intros Hrun Hin.
  unfold Part000.handleUpload, IndexJs.handleUpload in Hrun.
  change IndexJs.isValidFile with Part000.isValidFile in Hrun.
  destruct Hrun as [Hrun|Hrun].
  all: run_all.
  all: try (now left).
  all: try match goal with
         | H : r2_put _ _ _ = _ |- _ =>
             destruct (r2_put_calls _ _ _ _ _ key H Hin) as [?|<-]; [now left|right]
         end.
  all: try match goal with
         | H : negb (Part000.isValidFile _) = false |- _ =>
             now apply negb_false_iff in H
         end.
Qed.

(** C4. A name with no [.] is rejected by the validator, which returns
    [false] for it (the search answers [-1] and the whole name is taken as
    the extension); [/generate] and [/download] answer 400 for it without
    touching a store, and an upload never writes an object under it. *)
Theorem dotless_name_is_rejected (filename : string) :
  ~ In "."%char (list_ascii_of_string filename) ->
  Part000.isValidFile filename = false
  /\ IndexJs.isValidFile filename = false
  /\ (forall request w,
        exists r,
          status r = 400
          /\ Part000.generateDownloadUrl request filename w = (Ok r, w)
          /\ Part000.handleDownload request filename w = (Ok r, w)
          /\ IndexJs.generateDownloadUrl request filename w = (Ok r, w)
          /\ IndexJs.handleDownload request filename w = (Ok r, w))
  /\ (forall request w o w',
        Part000.handleUpload request w = (o, w') \/ IndexJs.handleUpload request w = (o, w') ->
        In (R2Put filename) (calls w') -> In (R2Put filename) (calls w)).
Proof.
  intros Hdot. pose proof (isValidFile_dotless _ Hdot) as Hinv.
  split; [exact Hinv|]. split; [exact Hinv|]. split.
  - intros request w.
    destruct (generateDownloadUrl_invalid _ Hinv request w) as [G1 G2].
    destruct (handleDownload_invalid _ Hinv request w) as [D1 D2].
    eexists. split; [|split; [exact G1|split; [exact D1|split; [exact G2|exact D2]]]].
    reflexivity.
  - intros request w o w' Hrun Hin.
    destruct (handleUpload_puts_valid _ _ _ _ _ Hrun Hin) as [?|Hv]; [assumption|].
    congruence.
Qed.

Lemma dotless_name_is_rejected_witness :
  ~ In "."%char (list_ascii_of_string "README")
  /\ Part000.isValidFile "README" = false
  /\ IndexJs.isValidFile "README" = false.
Proof.
  assert (H : ~ In "."%char (list_ascii_of_string "README")).
  { cbn. intros [E|[E|[E|[E|[E|[E|[]]]]]]]; discriminate E. }
  split; [exact H|].
  destruct (dotless_name_is_rejected "README" H) as (H1 & H2 & _).
  split; [exact H1 | exact H2].
Defined.

(** ** Statistics and their reset *)

(** C6. A [POST /reset-stats/...] whose [Authorization] header is absent or
    is not [Bearer] followed by the configured token is answered 401, and
    the world after it is the world before it: no call to either store, no
    counter changed. *)
Theorem reset_without_token_is_401 (request : Request) (w : World) :
  method request = "POST" ->
  JS.startsWith (pathname (url request)) "/reset-stats/" = true ->
  Headers_get (req_headers request) "Authorization" <> Some (bearer Part000.AUTH_TOKEN) ->
  exists r, Part000.fetch request w = (Ok r, w) /\ status r = 401.
Proof.
  intros Hm Hp Hauth.
  exists (Response_new (BodyText "Unauthorized") (Some 401) []). split; [|reflexivity].
  destruct (reset_not_others _ Hp) as (Hg & Hd & Hs & Ha & Hk).
  unfold Part000.fetch. rewrite Hm, Hg, Hd, Hs, Ha, Hk, Hp.
  change ("POST" =? "OPTIONS")%string with false.
  change ("POST" =? "POST")%string with true. cbv iota. cbn [andb].
  unfold Part000.resetDownloadCount.
  destruct (Headers_get (req_headers request) "Authorization") as [h|]; [|reflexivity].
  unfold differs. destruct (String.eqb_spec h (bearer Part000.AUTH_TOKEN)) as [->|Hne].
  - now contradiction Hauth.
  - cbn [negb]. now rewrite orb_true_r.
Qed.

Lemma reset_without_token_is_401_witness :
  let request := Samples.request "POST" "/reset-stats/report.pdf"
                   [("Authorization", "Bearer guess")] in
  let w := Samples.world [] [("download:report.pdf", "7")] Samples.healthy in
  Headers_get (req_headers request) "Authorization" <> Some (bearer Part000.AUTH_TOKEN)
  /\ exists r, Part000.fetch request w = (Ok r, w) /\ status r = 401.
Proof.
  cbv zeta.
  assert (H : Headers_get
                (req_headers (Samples.request "POST" "/reset-stats/report.pdf"
                                [("Authorization", "Bearer guess")])) "Authorization"
              <> Some (bearer Part000.AUTH_TOKEN)) by (vm_compute; discriminate).
  split; [exact H|].
  exact (reset_without_token_is_401
           (Samples.request "POST" "/reset-stats/report.pdf" [("Authorization", "Bearer guess")])
           (Samples.world [] [("download:report.pdf", "7")] Samples.healthy)
           eq_refl eq_refl H).
Defined.

(** C5. When the read of the counter throws, [GET /stats/...] still answers
    200 with a JSON object whose [downloads] member is 0 and whose [error]
    member is the message of the failure; the counters are untouched. *)
Theorem stats_read_failure_is_200 (request : Request) (w : World)
    (filename decoded msg : string) :
  method request <> "OPTIONS" ->
  JS.startsWith (pathname (url request)) "/stats/" = true ->
  item1 (JS.split (pathname (url request)) "/stats/") = Some filename ->
  filename <> EmptyString ->
  JS.decodeURIComponent filename = Some decoded ->
  fault w (calls w) (KVGet (Part000.countKey decoded)) = Some msg ->
  exists r fields,
    Part000.fetch request w = (Ok r, record_call (KVGet (Part000.countKey decoded)) w)
    /\ status r = 200
    /\ body r = BodyText (stringify (JObject fields))
    /\ Headers_get (headers r) "Content-Type" = Some "application/json"
    /\ field "success" fields = Some (JBool false)
    /\ field "downloads" fields = Some (JNumber (Num.Num 0))
    /\ field "error" fields = Some (JString msg).
Proof.
  intros Hm Hp Hseg Hne Hdec Hfault.
  destruct (stats_not_others _ Hp) as (Hg & Hd).
  eexists. eexists. split.
  - unfold Part000.fetch. rewrite Hg, Hd, Hp, Hseg.
    apply String.eqb_neq in Hm. rewrite Hm.
    assert (truthy_opt (Some filename) = true) as ->.
    { unfold truthy_opt, truthy. apply String.eqb_neq in Hne. now rewrite Hne. }
    cbn [negb]. unfold Part000.stats, try_catch. cbn [JS.toStringU].
    rewrite Hdec. cbn [lift_uri]. unfold bind at 1. unfold ret at 1.
    unfold bind at 1. rewrite (kv_get_fails _ _ _ Hfault).
    unfold bind, ret. reflexivity.
  - repeat split; reflexivity.
Qed.

Lemma stats_read_failure_is_200_witness :
  let request := Samples.request "GET" "/stats/songs%2Fone.mp3" [] in
  let w := Samples.world [] [("download:songs/one.mp3", "3")] Samples.kv_down in
  JS.decodeURIComponent "songs%2Fone.mp3" = Some "songs/one.mp3"
  /\ exists r fields,
       fst (Part000.fetch request w) = Ok r
       /\ status r = 200
       /\ body r = BodyText (stringify (JObject fields))
       /\ field "downloads" fields = Some (JNumber (Num.Num 0))
       /\ field "error" fields = Some (JString "KV unavailable").
Proof.
  cbv zeta. split; [reflexivity|].
  destruct (stats_read_failure_is_200
              (Samples.request "GET" "/stats/songs%2Fone.mp3" [])
              (Samples.world [] [("download:songs/one.mp3", "3")] Samples.kv_down)
              "songs%2Fone.mp3" "songs/one.mp3" "KV unavailable")
    as (r & fields & Hrun & Hst & Hbody & _ & _ & Hdl & Herr);
    [discriminate | reflexivity | reflexivity | discriminate | reflexivity | reflexivity |].
  exists r, fields. rewrite Hrun. repeat split; assumption.
Defined.

(** ** Bare prefixes *)

(** C10, as amended.  A request other than [OPTIONS] whose path is exactly
    [/download/], [/generate/] or [/stats/] is answered 400 and leaves the
    world as it was: no call to the bucket or to the counter store. *)
Theorem bare_prefix_is_400 (request : Request) (w : World) :
  method request <> "OPTIONS" ->
  In (pathname (url request)) ["/download/"; "/generate/"; "/stats/"] ->
  exists r, Part000.fetch request w = (Ok r, w) /\ status r = 400.
Proof.
  intros Hm Hp. apply String.eqb_neq in Hm.
  unfold Part000.fetch. rewrite Hm.
  cbn [In] in Hp. destruct Hp as [<-|[<-|[<-|[]]]]; eexists; split; reflexivity.
Qed.

Lemma bare_prefix_is_400_witness :
  let request := Samples.request "GET" "/stats/" [] in
  let w := Samples.world [("report.pdf", Samples.report)] [("download:report.pdf", "7")]
             Samples.healthy in
  method request <> "OPTIONS"
  /\ exists r, Part000.fetch request w = (Ok r, w) /\ status r = 400.
Proof.
  cbv zeta.
  assert (H : method (Samples.request "GET" "/stats/" []) <> "OPTIONS") by discriminate.
  split; [exact H|].
  apply (bare_prefix_is_400 (Samples.request "GET" "/stats/" [])
           (Samples.world [("report.pdf", Samples.report)] [("download:report.pdf", "7")]
              Samples.healthy) H).
  cbn. auto.
Defined.

(** C10, where the claim fails: the preflight branch comes first, so an
    [OPTIONS] request to a bare prefix gets the empty 200 response. *)
Lemma options_on_bare_prefix_is_200 :
  let w := Samples.world [] [] Samples.healthy in
  exists r,
    Part000.fetch (Samples.request "OPTIONS" "/download/" []) w = (Ok r, w)
    /\ status r = 200 /\ body r = BodyNull.
Proof. cbv zeta. eexists. split; [reflexivity|]. split; reflexivity. Qed.

(** ** The shape of the responses *)

Section Shapes.

Lemma BodyText_inj (s t : string) : BodyText s = BodyText t -> s = t.
Proof. intros H. now injection H. Qed.

Lemma has_success_brace (t : string) :
  has_success t -> exists rest, t = String "{" rest.
Proof. intros (fields & b & -> & _). cbn [stringify]. rewrite app_cons. eauto. Qed.

End Shapes.


Ltac shape_leaf :=
  split;
  [ let t := fresh "t" in let Hb := fresh "Hb" in let Hct := fresh "Hct" in
    intros t Hb Hct;
    first
      [ discriminate Hb
      | lazy in Hct; discriminate Hct
      | cbn [body Response_new] in Hb; apply BodyText_inj in Hb as <-;
        eexists _, _; split; reflexivity ]
  | let Hst := fresh "Hst" in
    intros Hst; cbn [status Response_new default] in Hst;
    first
      [ cbn [In] in Hst; exfalso; intuition discriminate
      | split;
        [ reflexivity
        | eexists; split;
          [ reflexivity
          | let X := fresh in intros X; apply has_success_brace in X as [? X];
            discriminate X ] ] ] ].

Lemma fetch_shapes (request : Request) (w w' : World) (r : Response) :
  Part000.fetch request w = (Ok r, w') ->
  Shape.json_has_success r /\ Shape.client_error_is_text r.
Proof.
  intros Hrun.
  unfold Part000.fetch, Part000.generateDownloadUrl, Part000.handleDownload,
    Part000.stats, Part000.getAllStats, Part000.testKV, Part000.resetDownloadCount,
    Part000.handleUpload, Part000.listFiles, Part000.documentationResponse,
    Part000.notFound in Hrun.
  run_all.
  all: try (unfold Shape.json_has_success, Shape.client_error_is_text; shape_leaf).
Qed.

Ltac listing_leaf :=
  split;
  [ let t := fresh "t" in let Hb := fresh "Hb" in let Hct := fresh "Hct" in
    intros t Hb Hct;
    first
      [ discriminate Hb
      | lazy in Hct; discriminate Hct
      | cbn [body Response_new] in Hb; apply BodyText_inj in Hb as <-;
        first [ left; eexists _, _; split; reflexivity
              | right; eexists; reflexivity ] ]
  | let Hst := fresh "Hst" in
    intros Hst; cbn [status Response_new default] in Hst;
    first
      [ cbn [In] in Hst; exfalso; intuition discriminate
      | split;
        [ reflexivity
        | eexists; split;
          [ reflexivity
          | let X := fresh in intros X; apply has_success_brace in X as [? X];
            discriminate X ] ] ] ].

Lemma fetch_shapes_index (request : Request) (w w' : World) (r : Response) :
  IndexJs.fetch request w = (Ok r, w') ->
  Shape.json_has_success_or_lists r /\ Shape.client_error_is_text r.
Proof.
  intros Hrun.
  unfold IndexJs.fetch, IndexJs.generateDownloadUrl, IndexJs.handleDownload,
    IndexJs.handleUpload, IndexJs.listFiles in Hrun.
  run_all.
  all: unfold Shape.json_has_success_or_lists, Shape.client_error_is_text; listing_leaf.
Qed.

(** C9, as amended.  In the worker with counters, every response that
    carries text and announces [application/json] is a JSON object with a
    boolean [success] member; in [src/index.js] the same holds except for
    the [/files] listing, an object with the single member [files].  In both,
    the responses with status 400, 401 and 404 are [text/plain] and their
    text is not such an object. *)
Theorem json_responses_have_success (request : Request) (w w' : World) (r : Response) :
  (Part000.fetch request w = (Ok r, w') ->
   Shape.json_has_success r /\ Shape.client_error_is_text r)
  /\ (IndexJs.fetch request w = (Ok r, w') ->
      Shape.json_has_success_or_lists r /\ Shape.client_error_is_text r).
Proof. split; [apply fetch_shapes | apply fetch_shapes_index]. Qed.

(** C9, where the claim fails: the 400 answer to a name with a disallowed
    extension is the text [Invalid file type], which is not JSON. *)
Lemma invalid_type_response_is_not_json :
  let w := Samples.world [] [] Samples.healthy in
  exists r,
    Part000.fetch (Samples.request "GET" "/download/notes.txt" []) w = (Ok r, w)
    /\ status r = 400
    /\ body r = BodyText "Invalid file type"
    /\ Headers_get (headers r) "Content-Type" = Some "text/plain;charset=UTF-8"
    /\ ~ has_success "Invalid file type".
Proof.
  cbv zeta. eexists. split; [reflexivity|]. repeat split.
  intros H. apply has_success_brace in H as [rest H]. discriminate H.
Qed.

(** * Further properties of the handlers *)

(** ** What a backend call leaves alone *)

(** ** Which request can change which store *)

Section Frames.

(** The reading calls leave both stores and the fault behaviour alone. *)
Lemma kv_get_frame (key : string) (w w' : World) (o : Outcome (option string)) :
  kv_get key w = (o, w') ->
  media w' = media w /\ ZED_DOWNLOADS w' = ZED_DOWNLOADS w /\ fault w' = fault w
  /\ calls w' = (calls w ++ [KVGet key])%list.
Proof.
  intros H. apply backend_inv in H as [(msg & _ & _ & ->)|(_ & _ & ->)]; auto.
Qed.

Lemma kv_list_frame (w w' : World) (o : Outcome (list string)) :
  kv_list w = (o, w') ->
  media w' = media w /\ ZED_DOWNLOADS w' = ZED_DOWNLOADS w /\ fault w' = fault w
  /\ calls w' = (calls w ++ [KVList])%list.
Proof.
  intros H. apply backend_inv in H as [(msg & _ & _ & ->)|(_ & _ & ->)]; auto.
Qed.

Lemma r2_get_frame (key : string) (w w' : World) (o : Outcome (option R2Object)) :
  r2_get key w = (o, w') ->
  media w' = media w /\ ZED_DOWNLOADS w' = ZED_DOWNLOADS w /\ fault w' = fault w
  /\ calls w' = (calls w ++ [R2Get key])%list.
Proof.
  intros H. apply backend_inv in H as [(msg & _ & _ & ->)|(_ & _ & ->)]; auto.
Qed.

Lemma r2_list_frame (w w' : World) (o : Outcome (list (string * R2Object))) :
  r2_list w = (o, w') ->
  media w' = media w /\ ZED_DOWNLOADS w' = ZED_DOWNLOADS w /\ fault w' = fault w
  /\ calls w' = (calls w ++ [R2List])%list.
Proof.
  intros H. apply backend_inv in H as [(msg & _ & _ & ->)|(_ & _ & ->)]; auto.
Qed.

Lemma clock_frame (w w' : World) (o : Outcome Z) :
  now_ms w = (o, w') -> w' = w.
Proof. unfold now_ms. intros H. now injection H. Qed.

Lemma iso_frame (w w' : World) (o : Outcome string) :
  now_iso w = (o, w') -> w' = w.
Proof. unfold now_iso. intros H. now injection H. Qed.

(** The writing calls touch one store each. *)
Lemma kv_put_frame (key value : string) (w w' : World) (o : Outcome unit) :
  kv_put key value w = (o, w') ->
  media w' = media w /\ fault w' = fault w
  /\ calls w' = (calls w ++ [KVPut key value])%list
  /\ ((o = Ok tt /\ ZED_DOWNLOADS w' = <[key := value]> (ZED_DOWNLOADS w))
      \/ ((exists msg, o = Throw (BackendError msg)) /\ ZED_DOWNLOADS w' = ZED_DOWNLOADS w)).
Proof.
  intros H. apply backend_inv in H as [(msg & _ & -> & ->)|(_ & -> & ->)];
    cbn; repeat split; eauto.
Qed.

Lemma kv_delete_frame (key : string) (w w' : World) (o : Outcome unit) :
  kv_delete key w = (o, w') ->
  media w' = media w /\ fault w' = fault w
  /\ calls w' = (calls w ++ [KVDelete key])%list
  /\ ((o = Ok tt /\ ZED_DOWNLOADS w' = delete key (ZED_DOWNLOADS w))
      \/ ((exists msg, o = Throw (BackendError msg)) /\ ZED_DOWNLOADS w' = ZED_DOWNLOADS w)).
Proof.
  intros H. apply backend_inv in H as [(msg & _ & -> & ->)|(_ & -> & ->)];
    cbn; repeat split; eauto.
Qed.

Lemma r2_put_frame (key bytes : string) (w w' : World) (o : Outcome unit) :
  r2_put key bytes w = (o, w') ->
  ZED_DOWNLOADS w' = ZED_DOWNLOADS w /\ fault w' = fault w
  /\ calls w' = (calls w ++ [R2Put key])%list
  /\ ((o = Ok tt
       /\ media w' = <[key := {| size := Z.of_nat (String.length bytes);
                                 uploaded := nowISO w;
                                 obj_body := bytes |}]> (media w))
      \/ ((exists msg, o = Throw (BackendError msg)) /\ media w' = media w)).
Proof.
  intros H. apply backend_inv in H as [(msg & _ & -> & ->)|(_ & -> & ->)];
    cbn; repeat split; eauto.
Qed.

End Frames.

Section Quiet.

Lemma same_stores_refl (w : World) : Frame.same_stores w w.
Proof. repeat split. Qed.

Lemma same_stores_trans (w1 w2 w3 : World) :
  Frame.same_stores w1 w2 -> Frame.same_stores w2 w3 -> Frame.same_stores w1 w3.
Proof. intros (? & ? & ?) (? & ? & ?). repeat split; congruence. Qed.

Lemma start_all_quiet {A B} (f : A -> M B) (l : list A) :
  (forall x w w' o, f x w = (o, w') -> Frame.same_stores w w') ->
  forall w w' o, start_all f l w = (o, w') -> Frame.same_stores w w'.
Proof.
  intros Hf. induction l as [|x l IH]; intros w w' o H; cbn [start_all] in H.
  - run_inv H. apply same_stores_refl.
  - run_inv H.
    + run_inv Hrun. run_inv H.
      * run_inv H. eapply same_stores_trans; [eapply Hf; eassumption|].
        eapply IH; eassumption.
      * eapply same_stores_trans; [eapply Hf; eassumption|]. eapply IH; eassumption.
    + run_inv H. 
Qed.

End Quiet.

Section Quiet2.

Lemma settle_all_world {B} (ps : list (Outcome B)) (w w' : World) (o : Outcome (list B)) :
  settle_all ps w = (o, w') -> w' = w.
Proof.
  revert w w' o. induction ps as [|[b|e] ps IH]; intros w w' o H; cbn [settle_all] in H.
  - now run_inv H.
  - run_inv H.
    + run_inv H. eapply IH; eassumption.
    + eapply IH; eassumption.
  - now run_inv H.
Qed.

Lemma Promise_all_quiet {A B} (f : A -> M B) (l : list A) :
  (forall x w w' o, f x w = (o, w') -> Frame.same_stores w w') ->
  forall w w' o, Promise_all f l w = (o, w') -> Frame.same_stores w w'.
Proof.
  intros Hf w w' o H. unfold Promise_all in H. run_inv H.
  - apply settle_all_world in H. subst. eapply start_all_quiet; eassumption.
  - eapply start_all_quiet; eassumption.
Qed.

Lemma kv_get_quiet (key : string) (w w' : World) (o : Outcome (option string)) :
  kv_get key w = (o, w') -> Frame.same_stores w w'.
Proof. intros H. apply kv_get_frame in H. unfold Frame.same_stores. tauto. Qed.

Lemma kv_list_quiet (w w' : World) (o : Outcome (list string)) :
  kv_list w = (o, w') -> Frame.same_stores w w'.
Proof. intros H. apply kv_list_frame in H. unfold Frame.same_stores. tauto. Qed.

Lemma r2_get_quiet (key : string) (w w' : World) (o : Outcome (option R2Object)) :
  r2_get key w = (o, w') -> Frame.same_stores w w'.
Proof. intros H. apply r2_get_frame in H. unfold Frame.same_stores. tauto. Qed.

Lemma r2_list_quiet (w w' : World) (o : Outcome (list (string * R2Object))) :
  r2_list w = (o, w') -> Frame.same_stores w w'.
Proof. intros H. apply r2_list_frame in H. unfold Frame.same_stores. tauto. Qed.

Lemma collectStats_quiet (keys : list string) :
  forall stats total w w' o,
    Part000.collectStats keys stats total w = (o, w') -> Frame.same_stores w w'.
Proof.
  induction keys as [|name rest IH]; intros stats total w w' o H;
    cbn [Part000.collectStats] in H.
  - run_inv H. apply same_stores_refl.
  - destruct (JS.startsWith name "download:").
    + run_inv H.
      * eapply same_stores_trans; [eapply kv_get_quiet; eassumption|].
        eapply IH; eassumption.
      * eapply kv_get_quiet; eassumption.
    + eapply IH; eassumption.
Qed.

End Quiet2.

(** The quiet steps of a run, as facts about the worlds between them. *)
Ltac quiet_steps :=
  repeat match goal with
    | H : kv_get _ _ = _ |- _ => apply kv_get_quiet in H
    | H : kv_list _ = _ |- _ => apply kv_list_quiet in H
    | H : r2_get _ _ = _ |- _ => apply r2_get_quiet in H
    | H : r2_list _ = _ |- _ => apply r2_list_quiet in H
    | H : now_ms _ = _ |- _ => apply clock_frame in H; subst
    | H : now_iso _ = _ |- _ => apply iso_frame in H; subst
    | H : Part000.collectStats _ _ _ _ = _ |- _ => apply collectStats_quiet in H
    | H : Promise_all _ _ _ = _ |- _ =>
        apply Promise_all_quiet in H;
        [| let x := fresh in let Hx := fresh in
           intros [? ?] ? ? ? Hx; run_all;
           repeat match goal with
             | K : kv_get _ _ = _ |- _ => apply kv_get_quiet in K
             end; assumption ]
    end.

Ltac quiet_done :=
  repeat match goal with
    | H : Frame.same_stores _ _ |- _ => destruct H as (? & ? & ?)
    end;
  first [ apply same_stores_refl | repeat split; congruence ].

Section ReadOnly.

(** [listFiles], [getAllStats], the statistics of one file,
    [generateDownloadUrl] and [handleDownload] read: whatever the backends
    do, both stores are afterwards what they were. *)
Lemma readers_quiet (request : Request) (w : World) :
  Frame.same_stores w (snd (Part000.listFiles w))
  /\ Frame.same_stores w (snd (Part000.getAllStats w))
  /\ (forall filename, Frame.same_stores w (snd (Part000.stats filename w)))
  /\ (forall filename, Frame.same_stores w (snd (Part000.generateDownloadUrl request filename w)))
  /\ Frame.same_stores w (snd (IndexJs.listFiles w))
  /\ (forall filename, Frame.same_stores w (snd (IndexJs.generateDownloadUrl request filename w)))
  /\ (forall filename, Frame.same_stores w (snd (IndexJs.handleDownload request filename w)))
  /\ (forall filename, Frame.same_stores w (snd (Part000.handleDownload request filename w))).
Proof.
  repeat match goal with |- _ /\ _ => split end.
  all: intros;
    match goal with
    | |- Frame.same_stores _ (snd ?run) => destruct run as [o w'] eqn:Hrun
    end; cbn [snd].
  all: unfold Part000.listFiles, Part000.getAllStats, Part000.stats,
         Part000.generateDownloadUrl, IndexJs.listFiles, IndexJs.generateDownloadUrl,
         IndexJs.handleDownload, IndexJs.setDownloadHeaders,
         Part000.handleDownload in Hrun.
  all: run_all; quiet_steps; quiet_done.
Qed.

End ReadOnly.

(** Every backend step of a run, as facts about the worlds around it. *)
Ltac store_steps :=
  quiet_steps;
  repeat match goal with
    | H : kv_put _ _ _ = _ |- _ => apply kv_put_frame in H as (? & ? & _ & _)
    | H : kv_delete _ _ = _ |- _ => apply kv_delete_frame in H as (? & ? & _ & _)
    | H : r2_put _ _ _ = _ |- _ => apply r2_put_frame in H as (? & ? & _ & _)
    | H : Frame.same_stores _ _ |- _ => destruct H as (? & ? & ?)
    end.

Ltac route_facts :=
  repeat match goal with
    | H : _ && _ = true |- _ => apply andb_true_iff in H as [? ?]
    | H : String.eqb _ _ = true |- _ => apply String.eqb_eq in H
    end.

Section Routes2.

Lemma fetch_stores (request : Request) (w w' : World) (o : Outcome Response) :
  Part000.fetch request w = (o, w') ->
  fault w' = fault w
  /\ (media w' <> media w ->
      pathname (url request) = "/upload" /\ method request = "POST")
  /\ (ZED_DOWNLOADS w' <> ZED_DOWNLOADS w ->
      JS.startsWith (pathname (url request)) "/download/" = true
      \/ (JS.startsWith (pathname (url request)) "/reset-stats/" = true
          /\ method request = "POST")
      \/ (pathname (url request) = "/debug/kv" /\ method request = "GET")).
Proof.
  intros Hrun.
  unfold Part000.fetch, Part000.generateDownloadUrl, Part000.handleDownload,
    Part000.incrementDownloadCount,
    Part000.stats, Part000.getAllStats, Part000.testKV, Part000.resetDownloadCount,
    Part000.handleUpload, Part000.listFiles, Part000.documentationResponse,
    Part000.notFound in Hrun.
  run_all.
  all: store_steps; route_facts.
  all: split; [congruence|].
  all: split; intros Hchange;
    first [ exfalso; apply Hchange; congruence | tauto ].
Qed.

End Routes2.

Section Routes3.

Lemma fetch_stores_index (request : Request) (w w' : World) (o : Outcome Response) :
  IndexJs.fetch request w = (o, w') ->
  fault w' = fault w
  /\ ZED_DOWNLOADS w' = ZED_DOWNLOADS w
  /\ (media w' <> media w ->
      pathname (url request) = "/upload" /\ method request = "POST").
Proof.
  intros Hrun.
  unfold IndexJs.fetch, IndexJs.generateDownloadUrl, IndexJs.handleDownload,
    IndexJs.setDownloadHeaders, IndexJs.handleUpload, IndexJs.listFiles in Hrun.
  run_all.
  all: store_steps; route_facts.
  all: split; [congruence|].
  all: split; [congruence|].
  all: intros Hchange; first [ exfalso; apply Hchange; congruence | tauto ].
Qed.

End Routes3.

(** X4. Which request can change what.  Whatever the backends do, a request
    leaves the bucket as it was unless it is a [POST] to [/upload], and leaves
    the counters as they were unless its path starts with [/download/], or it
    is a [POST] under [/reset-stats/], or a [GET] of [/debug/kv].  In the
    revision without counters no request changes the counter store. *)
Theorem stores_change_only_on_their_routes (request : Request) (w : World) :
  (media (snd (Part000.fetch request w)) <> media w ->
     pathname (url request) = "/upload" /\ method request = "POST")
  /\ (ZED_DOWNLOADS (snd (Part000.fetch request w)) <> ZED_DOWNLOADS w ->
      JS.startsWith (pathname (url request)) "/download/" = true
      \/ (JS.startsWith (pathname (url request)) "/reset-stats/" = true
          /\ method request = "POST")
      \/ (pathname (url request) = "/debug/kv" /\ method request = "GET"))
  /\ (media (snd (IndexJs.fetch request w)) <> media w ->
      pathname (url request) = "/upload" /\ method request = "POST")
  /\ ZED_DOWNLOADS (snd (IndexJs.fetch request w)) = ZED_DOWNLOADS w.
Proof.
  destruct (Part000.fetch request w) as [o w'] eqn:Hnew.
  destruct (IndexJs.fetch request w) as [o2 w2] eqn:Hold.
  apply fetch_stores in Hnew as (_ & Hm & Hz).
  apply fetch_stores_index in Hold as (_ & Hz2 & Hm2).
  cbn [snd]. auto.
Qed.

(** ** What a download does to the world *)

(** X5. A download never reaches the counters.  Whatever the request, the
    name and the backends, [handleDownload] ends in a response and never
    throws: 400 without any call, or 404 or 500 after exactly one [get] on
    the bucket.  It never answers 200, never calls the counter store and
    leaves both stores as they were.  The revision without counters answers
    400 without any call, or 200, 404 or 500 after the one [get]. *)
Theorem download_never_reaches_the_counters (request : Request) (filename : string)
    (w : World) :
  (exists r,
     (Part000.handleDownload request filename w = (Ok r, w) /\ status r = 400)
     \/ (Part000.handleDownload request filename w = (Ok r, record_call (R2Get filename) w)
         /\ In (status r) [404; 500]))
  /\ (exists r,
        (IndexJs.handleDownload request filename w = (Ok r, w) /\ status r = 400)
        \/ (IndexJs.handleDownload request filename w
            = (Ok r, record_call (R2Get filename) w)
            /\ In (status r) [200; 404; 500])).
Proof.
  split.
  - rewrite handleDownload_run.
    destruct (negb (truthy filename) || negb (Part000.isValidFile filename)).
    + eexists. left. split; reflexivity.
    + destruct (fault w (calls w) (R2Get filename)), (media w !! filename);
        eexists; right; (split; [reflexivity | cbn; tauto]).
  - rewrite handleDownload_index_run.
    destruct (negb (truthy filename) || negb (Part000.isValidFile filename)).
    + eexists. left. split; reflexivity.
    + destruct (fault w (calls w) (R2Get filename)), (media w !! filename);
        try destruct (valid_value filename);
        eexists; right; (split; [reflexivity | cbn; tauto]).
Qed.

(** ** Reset, then the statistics *)

Lemma kv_delete_ok (key : string) (w : World) :
  fault w (calls w) (KVDelete key) = None ->
  kv_delete key w = (Ok tt, set_counters (delete key) (record_call (KVDelete key) w)).
Proof. intros H. unfold kv_delete, backend. now rewrite H. Qed.

(** X6. An authorised [POST /reset-stats/...] deletes the counter of the
    file and nothing else, answers 200 with [success: true], and the
    statistics of the file asked next report 0. *)
Theorem reset_then_stats_is_zero (resetRequest statsRequest : Request)
    (raw raw' name : string) (w : World) :
  method resetRequest = "POST" ->
  JS.startsWith (pathname (url resetRequest)) "/reset-stats/" = true ->
  item1 (JS.split (pathname (url resetRequest)) "/reset-stats/") = Some raw ->
  JS.decodeURIComponent raw = Some name ->
  Headers_get (req_headers resetRequest) "Authorization" = Some (bearer Part000.AUTH_TOKEN) ->
  method statsRequest <> "OPTIONS" ->
  JS.startsWith (pathname (url statsRequest)) "/stats/" = true ->
  item1 (JS.split (pathname (url statsRequest)) "/stats/") = Some raw' ->
  raw' <> EmptyString ->
  JS.decodeURIComponent raw' = Some name ->
  fault w (calls w) (KVDelete (Part000.countKey name)) = None ->
  fault w (calls w ++ [KVDelete (Part000.countKey name)])%list
        (KVGet (Part000.countKey name)) = None ->
  exists r w1 fields,
    Part000.fetch resetRequest w = (Ok r, w1)
    /\ status r = 200
    /\ body r = BodyText (stringify (JObject fields))
    /\ field "success" fields = Some (JBool true)
    /\ ZED_DOWNLOADS w1 = delete (Part000.countKey name) (ZED_DOWNLOADS w)
    /\ media w1 = media w
    /\ exists r' fields',
         fst (Part000.fetch statsRequest w1) = Ok r'
         /\ status r' = 200
         /\ body r' = BodyText (stringify (JObject fields'))
         /\ field "downloads" fields' = Some (JNumber (Num.Num 0)).
Proof.
  intros Hm Hp Hseg Hdec Hauth Hsm Hsp Hsseg Hne Hsdec Hdel Hget.
  destruct (reset_not_others _ Hp) as (Hg & Hd & Hs & Ha & Hk).
  assert (Hreset : Part000.fetch resetRequest w
                   = (Ok (Response_new
                            (BodyText (stringify (object
                               [("success", Some (JBool true));
                                ("message", Some (JString ("Download count reset for " +:+ raw)));
                                ("filename", Some (JString raw))])))
                            None (Headers_new [("Content-Type", "application/json")])),
                      set_counters (delete (Part000.countKey name))
                        (record_call (KVDelete (Part000.countKey name)) w))).
  { unfold Part000.fetch. rewrite Hm, Hg, Hd, Hs, Ha, Hk, Hp, Hseg.
    change ("POST" =? "OPTIONS")%string with false.
    change ("POST" =? "POST")%string with true. cbv iota. cbn [andb].
    unfold Part000.resetDownloadCount. rewrite Hauth.
    unfold differs. rewrite String.eqb_refl.
    replace (truthy_opt (Some (bearer Part000.AUTH_TOKEN))) with true by reflexivity.
    cbn [negb orb JS.toStringU]. unfold try_catch. rewrite Hdec. cbn [lift_uri].
    unfold bind at 1. unfold ret at 1. unfold bind at 1.
    rewrite (kv_delete_ok _ _ Hdel). reflexivity. }
  eexists _, _, _. split; [exact Hreset|].
  split; [reflexivity|]. split; [reflexivity|]. split; [reflexivity|].
  split; [reflexivity|]. split; [reflexivity|].
  destruct (stats_not_others _ Hsp) as (Hsg & Hsd).
  eexists _, _. split.
  - unfold Part000.fetch. apply String.eqb_neq in Hsm.
    rewrite Hsm, Hsg, Hsd, Hsp, Hsseg.
    assert (truthy_opt (Some raw') = true) as ->.
    { unfold truthy_opt, truthy. apply String.eqb_neq in Hne. now rewrite Hne. }
    cbn [negb]. unfold Part000.stats, try_catch. cbn [JS.toStringU].
    rewrite Hsdec. cbn [lift_uri]. unfold bind at 1. unfold ret at 1.
    unfold bind at 1. rewrite kv_get_ok by exact Hget.
    cbn [ZED_DOWNLOADS set_counters record_call]. rewrite lookup_delete_eq.
    unfold bind, ret, now_iso. cbn [fst]. reflexivity.
  - split; [reflexivity|]. split; reflexivity.
Qed.

Lemma reset_then_stats_is_zero_witness :
  let resetRequest := Samples.request "POST" "/reset-stats/songs%2Fone.mp3"
                        [("Authorization", "Bearer your-secret-token")] in
  let statsRequest := Samples.request "GET" "/stats/songs%2Fone.mp3" [] in
  let w := Samples.world [] [("download:songs/one.mp3", "12"); ("download:two.mp3", "5")]
             Samples.healthy in
  exists r w1,
    Part000.fetch resetRequest w = (Ok r, w1)
    /\ status r = 200
    /\ ZED_DOWNLOADS w1 !! "download:songs/one.mp3" = None
    /\ ZED_DOWNLOADS w1 !! "download:two.mp3" = Some "5"
    /\ exists r' fields',
         fst (Part000.fetch statsRequest w1) = Ok r'
         /\ body r' = BodyText (stringify (JObject fields'))
         /\ field "downloads" fields' = Some (JNumber (Num.Num 0)).
Proof.
  cbv zeta.
  assert (Hm : "GET" <> "OPTIONS") by discriminate.
  assert (Hne : "songs%2Fone.mp3" <> EmptyString) by discriminate.
  destruct (reset_then_stats_is_zero
              (Samples.request "POST" "/reset-stats/songs%2Fone.mp3"
                 [("Authorization", "Bearer your-secret-token")])
              (Samples.request "GET" "/stats/songs%2Fone.mp3" [])
              "songs%2Fone.mp3" "songs%2Fone.mp3" "songs/one.mp3"
              (Samples.world [] [("download:songs/one.mp3", "12"); ("download:two.mp3", "5")]
                 Samples.healthy)
              eq_refl eq_refl eq_refl eq_refl eq_refl Hm eq_refl eq_refl Hne eq_refl
              eq_refl eq_refl)
    as (r & w1 & fields & Hrun & Hst & _ & _ & Hkv & _ & r' & fields' & Hs & _ & Hb & Hd).
  exists r, w1. split; [exact Hrun|]. split; [exact Hst|].
  rewrite Hkv. split; [vm_compute; reflexivity|]. split; [vm_compute; reflexivity|].
  exists r', fields'. auto.
Defined.

(** ** Download links *)

(** X7. [GET /generate/...] for a name with an allowed extension makes no
    call to either store.  With the [Authorization] header equal to
    [Bearer] and the token it answers 200 with [success: true], the link (the
    request's URL with the path [/download/] + name), the name and an expiry
    one year after the clock; with any other header, or none, it answers 401.
    Both revisions. *)
Theorem generate_link_needs_token (request : Request) (raw name : string) (w : World) :
  method request <> "OPTIONS" ->
  JS.startsWith (pathname (url request)) "/generate/" = true ->
  item1 (JS.split (pathname (url request)) "/generate/") = Some raw ->
  JS.decodeURIComponent raw = Some name ->
  name <> EmptyString ->
  Part000.isValidFile name = true ->
  (Headers_get (req_headers request) "Authorization" = Some (bearer Part000.AUTH_TOKEN) ->
   exists r r' fields,
     Part000.fetch request w = (Ok r, w)
     /\ IndexJs.fetch request w = (Ok r', w)
     /\ status r = 200 /\ status r' = 200
     /\ body r = BodyText (stringify (JObject fields))
     /\ body r' = BodyText (stringify (JObject fields))
     /\ fields = [("success", JBool true);
                  ("url", JString (href_with_pathname (url request) ("/download/" +:+ name)));
                  ("filename", JString name);
                  ("expires", JNumber (Num.Num (now w + 31536000 * 1000)));
                  ("direct", JBool true)])
  /\ (Headers_get (req_headers request) "Authorization" <> Some (bearer Part000.AUTH_TOKEN) ->
      exists r,
        Part000.fetch request w = (Ok r, w)
        /\ IndexJs.fetch request w = (Ok r, w)
        /\ status r = 401).
Proof.
  intros Hm Hp Hseg Hdec Hne Hvalid.
  apply String.eqb_neq in Hm.
  assert (Ht : truthy name = true).
  { unfold truthy. apply String.eqb_neq in Hne. now rewrite Hne. }
  assert (Hfetch : Part000.fetch request w = Part000.generateDownloadUrl request name w
                   /\ IndexJs.fetch request w = IndexJs.generateDownloadUrl request name w).
  { unfold Part000.fetch, IndexJs.fetch. rewrite Hm, Hp, Hseg. cbn [JS.toStringU].
    rewrite Hdec. split; reflexivity. }
  destruct Hfetch as [-> ->].
  unfold Part000.generateDownloadUrl, IndexJs.generateDownloadUrl.
  change IndexJs.isValidFile with Part000.isValidFile.
  change IndexJs.AUTH_TOKEN with Part000.AUTH_TOKEN.
  rewrite Ht, Hvalid. cbn [negb orb].
  replace (truthy Part000.AUTH_TOKEN) with true by reflexivity. cbn [andb].
  split.
  - intros Hauth. rewrite Hauth. unfold differs. rewrite String.eqb_refl.
    replace (truthy_opt (Some (bearer Part000.AUTH_TOKEN))) with true by reflexivity.
    cbn [negb orb]. eexists _, _, _. repeat split.
  - intros Hauth.
    assert (negb (truthy_opt (Headers_get (req_headers request) "Authorization"))
            || differs (Headers_get (req_headers request) "Authorization")
                 (bearer Part000.AUTH_TOKEN) = true) as ->.
    { destruct (Headers_get (req_headers request) "Authorization") as [h|]; [|reflexivity].
      unfold differs. destruct (String.eqb_spec h (bearer Part000.AUTH_TOKEN)) as [->|_].
      - now contradiction Hauth.
      - apply orb_true_r. }
    eexists. repeat split.
Qed.

Lemma generate_link_needs_token_witness :
  let request := Samples.request "GET" "/generate/songs%2Fone.mp3"
                   [("Authorization", "Bearer your-secret-token")] in
  let w := Samples.world [] [] Samples.healthy in
  exists r fields,
    Part000.fetch request w = (Ok r, w)
    /\ status r = 200
    /\ body r = BodyText (stringify (JObject fields))
    /\ field "url" fields = Some (JString "https://cms.example/download/songs/one.mp3").
Proof.
  cbv zeta.
  assert (Hm : "GET" <> "OPTIONS") by discriminate.
  assert (Hne : "songs/one.mp3" <> EmptyString) by discriminate.
  destruct (proj1 (generate_link_needs_token
                     (Samples.request "GET" "/generate/songs%2Fone.mp3"
                        [("Authorization", "Bearer your-secret-token")])
                     "songs%2Fone.mp3" "songs/one.mp3"
                     (Samples.world [] [] Samples.healthy)
                     Hm eq_refl eq_refl eq_refl Hne eq_refl) eq_refl)
    as (r & r' & fields & Hrun & _ & Hst & _ & Hb & _ & Hf).
  exists r, fields. rewrite Hf at 2. repeat split; assumption.
Defined.

(** ** Uploads need the token *)

(** X8. An upload whose [Authorization] header is absent or is not
    [Bearer] and the token is answered 401 before the form is read: the
    world is untouched, whatever the body.  Both revisions. *)
Theorem upload_without_token_is_401 (request : Request) (w : World) :
  Headers_get (req_headers request) "Authorization" <> Some (bearer Part000.AUTH_TOKEN) ->
  exists r,
    Part000.handleUpload request w = (Ok r, w)
    /\ IndexJs.handleUpload request w = (Ok r, w)
    /\ status r = 401
    /\ body r = BodyText "Unauthorized".
Proof.
  intros Hauth. unfold Part000.handleUpload, IndexJs.handleUpload.
  change IndexJs.AUTH_TOKEN with Part000.AUTH_TOKEN.
  assert (negb (truthy_opt (Headers_get (req_headers request) "Authorization"))
          || differs (Headers_get (req_headers request) "Authorization")
               (bearer Part000.AUTH_TOKEN) = true) as ->.
  { destruct (Headers_get (req_headers request) "Authorization") as [h|]; [|reflexivity].
    unfold differs. destruct (String.eqb_spec h (bearer Part000.AUTH_TOKEN)) as [->|_].
    - now contradiction Hauth.
    - apply orb_true_r. }
  eexists. repeat split.
Qed.

Lemma upload_without_token_is_401_witness :
  let request := {| method := "POST"; url := Samples.at_path "/upload";
                    req_headers := Headers_new [("Authorization", "bearer your-secret-token")];
                    form := None |} in
  let w := Samples.world [] [] Samples.healthy in
  exists r, Part000.fetch request w = (Ok r, w) /\ status r = 401.
Proof.
  cbv zeta.
  assert (H : Headers_get (Headers_new [("Authorization", "bearer your-secret-token")])
                "Authorization" <> Some (bearer Part000.AUTH_TOKEN))
    by (vm_compute; discriminate).
  destruct (upload_without_token_is_401
              {| method := "POST"; url := Samples.at_path "/upload";
                 req_headers := Headers_new [("Authorization", "bearer your-secret-token")];
                 form := None |}
              (Samples.world [] [] Samples.healthy) H) as (r & Hrun & _ & Hst & _).
  exists r. split; [exact Hrun | exact Hst].
Defined.

(** ** Upload, then download *)

Lemma r2_put_ok (key bytes : string) (w : World) :
  fault w (calls w) (R2Put key) = None ->
  r2_put key bytes w
  = (Ok tt, set_media (insert key {| size := Z.of_nat (String.length bytes);
                                     uploaded := nowISO w;
                                     obj_body := bytes |})
              (record_call (R2Put key) w)).
Proof. intros H. unfold r2_put, backend. now rewrite H. Qed.

Section Stored.

Variables (request : Request) (fd : FormData) (f : File) (name : string) (w : World).
Hypothesis authorised :
  Headers_get (req_headers request) "Authorization" = Some (bearer Part000.AUTH_TOKEN).
Hypothesis has_form : form request = Some fd.
Hypothesis has_file : FormData_get fd "file" = Some (FormFile f).
Hypothesis named :
  FormData_get fd "filename" = Some (FormString name)
  \/ (truthy_value (of_form (FormData_get fd "filename")) = false /\ file_name f = name).
Hypothesis nonempty : name <> EmptyString.
Hypothesis valid : Part000.isValidFile name = true.
Hypothesis reachable : fault w (calls w) (R2Put name) = None.

Lemma handleUpload_stores :
  (exists r, Part000.handleUpload request w = (Ok r, Scenario.stored name (file_bytes f) w) /\ status r = 200
             /\ exists fields, body r = BodyText (stringify (JObject fields))
                               /\ field "success" fields = Some (JBool true)
                               /\ field "filename" fields = Some (JString name)
                               /\ field "size" fields = Some (JNumber (Num.Num (file_size f))))
  /\ (exists r, IndexJs.handleUpload request w = (Ok r, Scenario.stored name (file_bytes f) w) /\ status r = 200).
Proof.
  assert (Ht : truthy name = true).
  { unfold truthy. apply String.eqb_neq in nonempty. now rewrite nonempty. }
  unfold Part000.handleUpload, IndexJs.handleUpload, Scenario.stored.
  change IndexJs.AUTH_TOKEN with Part000.AUTH_TOKEN.
  change IndexJs.isValidFile with Part000.isValidFile.
  rewrite authorised, has_form. unfold differs. rewrite String.eqb_refl.
  replace (truthy_opt (Some (bearer Part000.AUTH_TOKEN))) with true by reflexivity.
  cbn [negb orb]. unfold bind, ret, try_catch. cbn beta iota. rewrite has_file.
  cbn [of_form truthy_value name_of].
  destruct named as [Hn|[Hn Hf]]; rewrite Hn; cbn [of_form truthy_value ret].
  all: try rewrite Hf; rewrite ?Ht; cbn [negb orb receiver ret truthy_value].
  all: rewrite ?Ht; cbn [negb]; cbn beta; rewrite valid; cbn [negb]; cbn beta.
  all: rewrite !r2_put_ok by exact reachable.
  all: split; [eexists; split; [reflexivity|split; [reflexivity|]]
              | eexists; split; reflexivity].
  all: eexists; split; [reflexivity|]; repeat split.
Qed.

End Stored.

(** X9. An authorised upload of a file under a name with an allowed
    extension (the [filename] field, or the file's own name when the field
    is missing or empty) answers 200 and puts the bytes under that name,
    leaving the other objects and all counters alone.  A download of the
    name then answers 200 with exactly those bytes in [src/index.js], when
    the name is ASCII without NUL, CR or LF; the worker with counters
    answers 500. *)
Theorem upload_then_download (request download : Request) (fd : FormData) (f : File)
    (name : string) (w : World) :
  Headers_get (req_headers request) "Authorization" = Some (bearer Part000.AUTH_TOKEN) ->
  form request = Some fd ->
  FormData_get fd "file" = Some (FormFile f) ->
  FormData_get fd "filename" = Some (FormString name)
  \/ (truthy_value (of_form (FormData_get fd "filename")) = false /\ file_name f = name) ->
  name <> EmptyString ->
  Part000.isValidFile name = true ->
  fault w (calls w) (R2Put name) = None ->
  fault w (calls w ++ [R2Put name])%list (R2Get name) = None ->
  let w1 := Scenario.stored name (file_bytes f) w in
  (exists r, Part000.handleUpload request w = (Ok r, w1) /\ status r = 200)
  /\ (exists r, IndexJs.handleUpload request w = (Ok r, w1) /\ status r = 200)
  /\ ZED_DOWNLOADS w1 = ZED_DOWNLOADS w
  /\ (forall k, k <> name -> media w1 !! k = media w !! k)
  /\ (valid_value name = true ->
      Forall (fun a => (nat_of_ascii a < 128)%nat) (list_ascii_of_string name) ->
      exists r w2, IndexJs.handleDownload download name w1 = (Ok r, w2)
                   /\ status r = 200 /\ body r = BodyStream (file_bytes f))
  /\ (exists r w2, Part000.handleDownload download name w1 = (Ok r, w2)
                   /\ status r = 500 /\ body r = BodyText "Error retrieving file").
Proof.
  intros Hauth Hform Hfile Hnamed Hne Hvalid Hput Hget w1.
  destruct (handleUpload_stores request fd f name w Hauth Hform Hfile Hnamed Hne Hvalid Hput)
    as [(r & Hrun & Hst & _) (r' & Hrun' & Hst')].
  split; [eauto|]. split; [eauto|]. split; [reflexivity|].
  split; [intros k Hk; subst w1; cbn; now rewrite lookup_insert_ne by auto|].
  assert (Hfound : media w1 !! name
                   = Some {| size := Z.of_nat (String.length (file_bytes f));
                             uploaded := nowISO w;
                             obj_body := file_bytes f |})
    by (subst w1; cbn; apply lookup_insert_eq).
  assert (Hget1 : fault w1 (calls w1) (R2Get name) = None) by exact Hget.
  split.
  - intros Hsafe _. eexists _, _. split.
    + rewrite (handleDownload_index download name w1 Hne Hvalid Hget1 _ Hfound), Hsafe.
      reflexivity.
    + split; reflexivity.
  - eexists _, _. split.
    + exact (handleDownload_present download name w1 Hne Hvalid Hget1 _ Hfound).
    + split; reflexivity.
Qed.

Lemma upload_then_download_witness :
  let song := {| file_name := "one.MP3"; file_size := 3; file_bytes := "ID3" |} in
  let request := Samples.upload [("file", FormFile song)] in
  let w := Samples.world [] [] Samples.healthy in
  exists r w2,
    IndexJs.handleDownload (Samples.request "GET" "/download/one.MP3" []) "one.MP3"
      (Scenario.after (IndexJs.fetch request) w) = (Ok r, w2)
    /\ status r = 200 /\ body r = BodyStream "ID3".
Proof.
  cbv zeta.
  assert (Hne : "one.MP3" <> EmptyString) by discriminate.
  assert (Hascii : Forall (fun a => (nat_of_ascii a < 128)%nat)
                     (list_ascii_of_string "one.MP3"))
    by (repeat constructor; vm_compute; lia).
  exact (proj1 (proj2 (proj2 (proj2 (proj2
           (upload_then_download
              (Samples.upload [("file", FormFile {| file_name := "one.MP3"; file_size := 3;
                                                    file_bytes := "ID3" |})])
              (Samples.request "GET" "/download/one.MP3" [])
              [("file", FormFile {| file_name := "one.MP3"; file_size := 3;
                                    file_bytes := "ID3" |})]
              {| file_name := "one.MP3"; file_size := 3; file_bytes := "ID3" |}
              "one.MP3" (Samples.world [] [] Samples.healthy)
              eq_refl eq_refl eq_refl (or_intror (conj eq_refl eq_refl)) Hne
              eq_refl eq_refl eq_refl))))) eq_refl Hascii).
Defined.

(** ** The extension the validator looks at *)

Section Extension.

Lemma lastIndexOf_from_app (c : ascii) (a b : string) (i found : Z) :
  JS.lastIndexOf_from c (a +:+ b) i found
  = JS.lastIndexOf_from c b (i + Z.of_nat (String.length a)) (JS.lastIndexOf_from c a i found).
Proof.
  revert i found. induction a as [|x a IH]; intros i found.
  - rewrite app_nil. cbn. f_equal. lia.
  - rewrite app_cons. cbn [JS.lastIndexOf_from String.length]. rewrite IH. f_equal. lia.
Qed.

Lemma drop_chars_app (a b : string) : JS.drop_chars (String.length a) (a +:+ b) = b.
Proof. induction a as [|x a IH]; [reflexivity|]. rewrite app_cons. exact IH. Qed.

(** The part of a name from its last dot on *)
Lemma substring_from_last_dot (stem ext : string) :
  ~ In "."%char (list_ascii_of_string ext) ->
  JS.substring (stem +:+ String "." ext) (JS.lastIndexOf (stem +:+ String "." ext) ".")
  = String "." ext.
Proof.
  intros Hext. unfold JS.lastIndexOf. rewrite lastIndexOf_from_app.
  cbn [JS.lastIndexOf_from]. rewrite Ascii.eqb_refl.
  rewrite lastIndexOf_from_absent by exact Hext.
  unfold JS.substring. rewrite Z.max_r by lia.
  replace (Z.to_nat (0 + Z.of_nat (String.length stem))) with (String.length stem) by lia.
  apply drop_chars_app.
Qed.

End Extension.

(** X10. Only the part after the last dot counts, whatever its case: a name
    [stem.ext] whose [ext] has no dot is valid exactly when [ext] in lower
    case is one of jpg, png, pdf, zip, mp4, mp3, whatever the stem (empty,
    with dots, with slashes). *)
Theorem isValidFile_by_extension (stem ext : string) :
  ~ In "."%char (list_ascii_of_string ext) ->
  (Part000.isValidFile (stem +:+ String "." ext) = true
   <-> In (JS.toLowerCase ext) ["jpg"; "png"; "pdf"; "zip"; "mp4"; "mp3"])
  /\ IndexJs.isValidFile (stem +:+ String "." ext)
     = Part000.isValidFile (stem +:+ String "." ext).
Proof.
  intros Hext. split; [|reflexivity].
  unfold Part000.isValidFile. rewrite substring_from_last_dot by exact Hext.
  unfold JS.includes, Part000.ALLOWED_EXTENSIONS.
  cbn [JS.toLowerCase existsb In].
  replace (JS.lower_ascii ".") with "."%char by reflexivity.
  rewrite !orb_true_iff.
  assert (E : forall t, String.eqb (String "." (JS.toLowerCase ext)) (String "." t) = true
                        <-> t = JS.toLowerCase ext).
  { intros t. rewrite String.eqb_eq. split; [intros H; now injection H | now intros ->]. }
  rewrite !E. intuition discriminate.
Qed.

Lemma isValidFile_by_extension_witness :
  ~ In "."%char (list_ascii_of_string "Mp3")
  /\ Part000.isValidFile "songs/v1.2/one.Mp3" = true.
Proof.
  assert (H : ~ In "."%char (list_ascii_of_string "Mp3")).
  { cbn. intuition discriminate. }
  split; [exact H|].
  apply (proj1 (isValidFile_by_extension "songs/v1.2/one" "Mp3" H)).
  cbn. tauto.
Defined.

(** ** Counter values that are not numbers *)

(** X11. What the increment does with a stored value that is not a decimal
    number.  The empty string counts as no value: the counter restarts at
    1.  Any other text that [parseInt] cannot read becomes the text [NaN],
    and [NaN] stays [NaN] at every later increment: downloads never repair
    such a counter. *)
Theorem unreadable_counter_becomes_NaN (filename value : string) (w : World) :
  fault w (calls w) (KVGet (Part000.countKey filename)) = None ->
  (forall v, fault w (calls w ++ [KVGet (Part000.countKey filename)])%list
                   (KVPut (Part000.countKey filename) v) = None) ->
  ZED_DOWNLOADS w !! Part000.countKey filename = Some value ->
  (value = EmptyString ->
   exists w', Part000.incrementDownloadCount filename w = (Ok (Some (Num.Num 1)), w')
              /\ ZED_DOWNLOADS w' !! Part000.countKey filename = Some "1")
  /\ (value <> EmptyString -> Num.parseInt value = Num.NaN ->
      exists w', Part000.incrementDownloadCount filename w = (Ok (Some Num.NaN), w')
                 /\ ZED_DOWNLOADS w' !! Part000.countKey filename = Some "NaN")
  /\ Num.parseInt "NaN" = Num.NaN.
Proof.
  intros Hget Hput Hcur. split; [|split; [|reflexivity]].
  - intros ->. eexists. split.
    + rewrite incrementDownloadCount_run; [|exact Hget|apply Hput].
      rewrite Hcur. reflexivity.
    + cbn. apply lookup_insert_eq.
  - intros Hne Hnan. eexists. split.
    + rewrite incrementDownloadCount_run; [|exact Hget|apply Hput].
      rewrite Hcur. cbn [truthy_opt JS.toStringU]. unfold truthy.
      apply String.eqb_neq in Hne. rewrite Hne, Hnan. reflexivity.
    + cbn. apply lookup_insert_eq.
Qed.

Lemma unreadable_counter_becomes_NaN_witness :
  let w := Samples.world [] [("download:report.pdf", "many")] Samples.healthy in
  Num.parseInt "many" = Num.NaN
  /\ exists w', Part000.incrementDownloadCount "report.pdf" w = (Ok (Some Num.NaN), w')
                /\ ZED_DOWNLOADS w' !! Part000.countKey "report.pdf" = Some "NaN".
Proof.
  cbv zeta. split; [reflexivity|].
  assert (Hne : "many" <> EmptyString) by discriminate.
  exact (proj1 (proj2 (unreadable_counter_becomes_NaN "report.pdf" "many"
                         (Samples.world [] [("download:report.pdf", "many")] Samples.healthy)
                         eq_refl (fun _ => eq_refl) eq_refl)) Hne eq_refl).
Defined.

(** ** A failed increment *)

(** X12. When the increment throws, what it throws is the failure of the
    counter store, and no counter has changed. *)
Theorem failed_increment_changes_nothing (filename : string) (w w' : World) (e : Exn) :
  Part000.incrementDownloadCount filename w = (Throw e, w') ->
  (exists msg, e = BackendError msg)
  /\ ZED_DOWNLOADS w' = ZED_DOWNLOADS w
  /\ media w' = media w.
Proof.
  intros H. unfold Part000.incrementDownloadCount in H. run_all.
  all: repeat match goal with
         | K : kv_get _ _ = (Throw _, _) |- _ =>
             let K' := fresh in
             pose proof K as K'; apply kv_get_frame in K' as (? & ? & _ & _);
             apply backend_inv in K as [(? & _ & K & _)|(_ & K & _)];
             [apply Throw_inj in K; subst | discriminate K]
         | K : kv_get _ _ = (Ok _, _) |- _ => apply kv_get_frame in K as (? & ? & _ & _)
         | K : kv_put _ _ _ = _ |- _ =>
             apply kv_put_frame in K as (? & _ & _ & [[K _]|[[? K] ?]]);
             [discriminate K | apply Throw_inj in K; subst]
         end.
  all: split; [eauto|split; congruence].
Qed.

Lemma failed_increment_changes_nothing_witness :
  let w := Samples.world [] [("download:report.pdf", "7")] Samples.kv_down in
  exists w', Part000.incrementDownloadCount "report.pdf" w
             = (Throw (BackendError "KV unavailable"), w')
             /\ ZED_DOWNLOADS w' = ZED_DOWNLOADS w.
Proof.
  cbv zeta. eexists. split; [reflexivity|].
  exact (proj1 (proj2 (failed_increment_changes_nothing "report.pdf"
                         (Samples.world [] [("download:report.pdf", "7")] Samples.kv_down)
                         _ _ eq_refl))).
Defined.

(** ** The self-test of the counter store *)

(** X13. [/debug/kv] writes a probe under [test_kv_functionality], reads
    it back and deletes it.  It always answers, with 200 or 500, never
    touches the bucket or any other key; when the three calls succeed it
    answers 200 with [success: true] and the probe key is gone (also when it
    held something before); when the write fails it answers 500 with the
    message and the counters are what they were; when the read or the delete
    fails after a successful write it answers 500 and the probe stays in the
    store. *)
Theorem self_test_of_counter_store (w : World) :
  let key := "test_kv_functionality" in
  let value := "kv_is_working_" +:+ Num.toString (Num.Num (now w)) in
  let put := fault w (calls w) (KVPut key value) in
  let get := fault w (calls w ++ [KVPut key value])%list (KVGet key) in
  let del := fault w ((calls w ++ [KVPut key value]) ++ [KVGet key])%list (KVDelete key) in
  exists r w' fields,
    Part000.testKV w = (Ok r, w')
    /\ body r = BodyText (stringify (JObject fields))
    /\ media w' = media w
    /\ (forall k, k <> key -> ZED_DOWNLOADS w' !! k = ZED_DOWNLOADS w !! k)
    /\ (put = None -> get = None -> del = None ->
        status r = 200 /\ field "success" fields = Some (JBool true)
        /\ ZED_DOWNLOADS w' = delete key (ZED_DOWNLOADS w))
    /\ (forall msg, put = Some msg ->
        status r = 500 /\ field "success" fields = Some (JBool false)
        /\ field "error" fields = Some (JString msg)
        /\ ZED_DOWNLOADS w' = ZED_DOWNLOADS w)
    /\ (put = None -> get <> None \/ del <> None ->
        status r = 500 /\ field "success" fields = Some (JBool false)
        /\ ZED_DOWNLOADS w' = <[key := value]> (ZED_DOWNLOADS w)).
Proof.
  cbv zeta.
  unfold Part000.testKV, try_catch, bind, now_ms, ret, kv_put, kv_get, kv_delete, backend.
  destruct (fault w (calls w) _) as [m1|].
  - eexists _, _, _. split; [reflexivity|]. split; [reflexivity|].
    split; [reflexivity|]. split; [reflexivity|].
    split; [discriminate|]. split; [|discriminate].
    intros msg [= ->]. repeat split.
  - cbn [fault calls record_call set_counters ZED_DOWNLOADS].
    destruct (fault w (calls w ++ _)%list (KVGet _)) as [m2|].
    + eexists _, _, _. split; [reflexivity|]. split; [reflexivity|].
      split; [reflexivity|].
      split; [intros k Hk; cbn; now rewrite lookup_insert_ne by auto|].
      split; [discriminate|]. split; [discriminate|]. repeat split.
    + cbn [fault calls record_call set_counters ZED_DOWNLOADS].
      destruct (fault w ((calls w ++ _) ++ _)%list (KVDelete _)) as [m3|].
      * eexists _, _, _. split; [reflexivity|]. split; [reflexivity|].
        split; [reflexivity|].
        split; [intros k Hk; cbn; now rewrite lookup_insert_ne by auto|].
        split; [discriminate|]. split; [discriminate|]. repeat split.
      * rewrite lookup_insert_eq, bool_decide_eq_true_2 by reflexivity.
        eexists _, _, _. split; [reflexivity|]. split; [reflexivity|].
        split; [reflexivity|].
        split; [intros k Hk; cbn; rewrite lookup_delete_ne by auto;
                now rewrite lookup_insert_ne by auto|].
        split; [intros _ _ _; repeat split; cbn; apply delete_insert_eq|].
        split; [discriminate|]. intros _ [H|H]; now contradiction H.
Qed.

(** ** What a listing call returns *)

Section Listed.

Context {A : Type}.
Implicit Types (m : gmap string A).

Lemma listed_length m :
  length (listed m) = Nat.min LIST_LIMIT (length (map_to_list m)).
Proof. unfold listed. rewrite length_take. now rewrite merge_sort_Permutation. Qed.

(** What is listed is in the store, *)
Lemma listed_elem m (k : string) (v : A) : (k, v) ∈ listed m -> m !! k = Some v.
Proof.
  intros H. apply elem_of_map_to_list.
  rewrite <- (merge_sort_Permutation key_le). revert H. apply subseteq_take.
Qed.

(** and a store of at most [LIST_LIMIT] entries is listed whole. *)
Lemma listed_all m (k : string) (v : A) :
  (length (map_to_list m) <= LIST_LIMIT)%nat -> m !! k = Some v -> (k, v) ∈ listed m.
Proof.
  intros Hlen H. unfold listed.
  rewrite take_ge by now rewrite merge_sort_Permutation.
  rewrite merge_sort_Permutation. now apply elem_of_map_to_list.
Qed.

Lemma listed_keys_NoDup m : NoDup (map fst (listed m)).
Proof.
  change (NoDup (fst <$> listed m)).
  assert (Hsub : fst <$> listed m `sublist_of` fst <$> merge_sort key_le (map_to_list m))
    by apply fmap_sublist, sublist_take.
  refine (sublist_NoDup _ _ _ Hsub).
  rewrite merge_sort_Permutation. apply NoDup_fst_map_to_list.
Qed.

Lemma listed_key m (k : string) : k ∈ map fst (listed m) -> is_Some (m !! k).
Proof.
  intros H. apply (list_elem_of_fmap_1 fst) in H as ([k' v] & -> & H).
  apply listed_elem in H. eauto.
Qed.

Lemma listed_key_all m (k : string) :
  (length (map_to_list m) <= LIST_LIMIT)%nat -> is_Some (m !! k) -> k ∈ map fst (listed m).
Proof.
  intros Hlen [v H].
  apply (list_elem_of_fmap_2' fst _ (k, v)); [now apply listed_all | reflexivity].
Qed.

End Listed.

(** ** The listing *)

Section Listing.

Lemma start_all_healthy {A B} (P : World -> Prop) (f : A -> M B) (g : A -> B)
    (c : A -> Call) (l : list A) :
  (forall w k, P w -> P (record_call k w)) ->
  (forall x w, P w -> f x w = (Ok (g x), record_call (c x) w)) ->
  forall w, P w ->
    exists w', start_all f l w = (Ok (map (fun x => Ok (g x)) l), w')
               /\ P w' /\ Frame.same_stores w w'
               /\ calls w' = (calls w ++ map c l)%list.
Proof.
  intros HP Hf. induction l as [|x l IH]; intros w Hw; cbn [start_all map].
  - exists w. rewrite app_nil_r. repeat split. exact Hw.
  - destruct (IH (record_call (c x) w)) as (w' & Hrun & HP' & (Hm & Hz & Hfl) & Hc).
    { now apply HP. }
    exists w'. unfold bind, promise, ret. rewrite (Hf x w Hw), Hrun.
    split; [reflexivity|]. split; [exact HP'|]. split; [repeat split; assumption|].
    rewrite Hc. cbn. now rewrite <- app_assoc.
Qed.

Lemma settle_all_ok {B} (bs : list B) (w : World) :
  settle_all (map Ok bs) w = (Ok bs, w).
Proof.
  induction bs as [|b bs IH]; cbn [map settle_all]; [reflexivity|].
  unfold bind. now rewrite IH.
Qed.

Lemma Promise_all_healthy {A B} (P : World -> Prop) (f : A -> M B) (g : A -> B)
    (c : A -> Call) (l : list A) :
  (forall w k, P w -> P (record_call k w)) ->
  (forall x w, P w -> f x w = (Ok (g x), record_call (c x) w)) ->
  forall w, P w ->
    exists w', Promise_all f l w = (Ok (map g l), w')
               /\ P w' /\ Frame.same_stores w w'
               /\ calls w' = (calls w ++ map c l)%list.
Proof.
  intros HP Hf w Hw.
  destruct (start_all_healthy P f g c l HP Hf w Hw) as (w' & Hrun & HP' & Hs & Hc).
  exists w'. unfold Promise_all, bind. rewrite Hrun.
  rewrite <- (map_map g Ok), settle_all_ok. auto.
Qed.

Lemma fold_left_through_map {A B C} (f : C -> B -> C) (g : A -> B) (l : list A) (acc : C) :
  fold_left f (map g l) acc = fold_left (fun c x => f c (g x)) l acc.
Proof.
  revert acc. induction l as [|x l IH]; intros acc; cbn; [reflexivity | apply IH].
Qed.

End Listing.

(** X14. With both backends answering, [/files] answers 200 with one entry
    per object the listing call returns, each with the number its counter
    holds (0 without a counter), [total_files] the number of entries and
    [total_downloads] the sum of those numbers.  The listing call returns the
    first 1000 objects in the order of their keys and the worker follows no
    cursor: a bucket of at most 1000 objects is listed whole, of a larger one
    1000 are.  The handler makes one listing call and one counter read per
    entry, and changes neither store. *)
Theorem listing_counts_the_listed_objects (w : World) :
  (forall h c, fault w h c = None) ->
  exists r w' fields,
    Part000.listFiles w = (Ok r, w')
    /\ status r = 200
    /\ body r = BodyText (stringify (JObject fields))
    /\ field "success" fields = Some (JBool true)
    /\ field "files" fields
       = Some (JArray
           (map (fun kv : string * R2Object =>
                   JObject
                     [("key", JString kv.1);
                      ("size", JNumber (Num.Num (size kv.2)));
                      ("uploaded", JString (uploaded kv.2));
                      ("downloads",
                       JNumber (Part000.downloads_of
                                  (ZED_DOWNLOADS w !! Part000.countKey kv.1)));
                      ("stats_url", JString ("/stats/" +:+ JS.encodeURIComponent kv.1));
                      ("download_url",
                       JString ("/download/" +:+ JS.encodeURIComponent kv.1))])
                (listed (media w))))
    /\ field "total_files" fields
       = Some (JNumber (Num.Num (Z.of_nat (Nat.min LIST_LIMIT
                                             (length (map_to_list (media w)))))))
    /\ field "total_downloads" fields
       = Some (JNumber
           (fold_left (fun sum (kv : string * R2Object) =>
                         Num.add sum (Part000.downloads_of
                                        (ZED_DOWNLOADS w !! Part000.countKey kv.1)))
                      (listed (media w)) (Num.Num 0)))
    /\ calls w' = (calls w ++ R2List
                     :: map (fun kv : string * R2Object => KVGet (Part000.countKey kv.1))
                            (listed (media w)))%list
    /\ Frame.same_stores w w'
    /\ (forall key object, (key, object) ∈ listed (media w) -> media w !! key = Some object)
    /\ ((length (map_to_list (media w)) <= LIST_LIMIT)%nat ->
        forall key object, media w !! key = Some object -> (key, object) ∈ listed (media w)).
Proof.
  intros Hw.
  set (P := fun v : World => ZED_DOWNLOADS v = ZED_DOWNLOADS w
                             /\ forall h c, fault v h c = None).
  destruct (Promise_all_healthy P
              (fun '(key, obj) =>
                 let countKey := Part000.countKey key in
                 count <- kv_get countKey ;;
                 ret (Part000.downloads_of count,
                      object
                        [("key", Some (JString key));
                         ("size", Some (JNumber (Num.Num (size obj))));
                         ("uploaded", Some (JString (uploaded obj)));
                         ("downloads", Some (JNumber (Part000.downloads_of count)));
                         ("stats_url", Some (JString ("/stats/" +:+ JS.encodeURIComponent key)));
                         ("download_url",
                          Some (JString ("/download/" +:+ JS.encodeURIComponent key)))]))
              (fun kv : string * R2Object =>
                 (Part000.downloads_of (ZED_DOWNLOADS w !! Part000.countKey kv.1),
                  JObject
                    [("key", JString kv.1);
                     ("size", JNumber (Num.Num (size kv.2)));
                     ("uploaded", JString (uploaded kv.2));
                     ("downloads",
                      JNumber (Part000.downloads_of
                                 (ZED_DOWNLOADS w !! Part000.countKey kv.1)));
                     ("stats_url", JString ("/stats/" +:+ JS.encodeURIComponent kv.1));
                     ("download_url",
                      JString ("/download/" +:+ JS.encodeURIComponent kv.1))]))
              (fun kv : string * R2Object => KVGet (Part000.countKey kv.1))
              (listed (media w))
              ltac:(intros v k [? ?]; split; assumption)
              ltac:(intros [key obj] v [Hz Hf]; cbv zeta; unfold bind, ret;
                    rewrite kv_get_ok by apply Hf; rewrite Hz; reflexivity)
              (record_call R2List w)
              ltac:(split; [reflexivity | exact Hw]))
    as (w' & Hrun & _ & (Hm & Hz & Hf) & Hc).
  eexists _, w', _. split.
  - unfold Part000.listFiles, try_catch. unfold bind at 1.
    unfold r2_list, backend. rewrite Hw. cbn beta iota zeta.
    change (media (record_call R2List w)) with (media w).
    unfold bind at 1. cbv zeta in Hrun. rewrite Hrun.
    unfold ret. reflexivity.
  - split; [reflexivity|]. split; [reflexivity|]. split; [reflexivity|].
    split; [cbn -[listed]; now rewrite map_map|].
    split; [cbn -[listed Nat.min]; now rewrite length_map, listed_length|].
    split; [cbn -[listed]; rewrite fold_left_through_map; reflexivity|].
    split; [rewrite Hc; cbn -[listed]; now rewrite <- app_assoc|].
    split; [repeat split; assumption|].
    split; [intros key object; apply listed_elem | intros Hlen key object; now apply listed_all].
Qed.

Lemma listing_counts_the_listed_objects_witness :
  let w := Samples.world [("two.mp3", Samples.report); ("one.mp3", Samples.report)]
             [("download:one.mp3", "4"); ("download:two.mp3", "5")] Samples.healthy in
  exists r w' fields,
    Part000.listFiles w = (Ok r, w')
    /\ body r = BodyText (stringify (JObject fields))
    /\ field "total_files" fields = Some (JNumber (Num.Num 2))
    /\ field "total_downloads" fields = Some (JNumber (Num.Num 9))
    /\ calls w' = [R2List; KVGet "download:one.mp3"; KVGet "download:two.mp3"].
Proof.
  cbv zeta.
  destruct (listing_counts_the_listed_objects
              (Samples.world [("two.mp3", Samples.report); ("one.mp3", Samples.report)]
                 [("download:one.mp3", "4"); ("download:two.mp3", "5")] Samples.healthy)
              (fun _ _ => eq_refl))
    as (r & w' & fields & Hrun & _ & Hb & _ & _ & Hn & Ht & Hc & _).
  exists r, w', fields. split; [exact Hrun|]. split; [exact Hb|].
  split; [rewrite Hn; vm_compute; reflexivity|].
  split; [rewrite Ht; vm_compute; reflexivity|].
  rewrite Hc. vm_compute. reflexivity.
Defined.

(** ** The table of all counters *)

Section Members.

Implicit Types (o : list (string * JSON)) (k : string) (v : JSON).

Lemma field_replace_same k v o o' :
  replace_member k v o = Some o' -> field k o' = Some v.
Proof.
  revert o'. induction o as [|[k' v'] r IH]; intros o' H; cbn [replace_member] in H.
  - discriminate.
  - destruct (String.eqb k k') eqn:E.
    + injection H as <-. cbn [field]. now rewrite E.
    + destruct (replace_member k v r) as [r'|]; [|discriminate].
      injection H as <-. cbn [field]. rewrite E. now apply IH.
Qed.

Lemma field_replace_other k k' v o o' :
  k' <> k -> replace_member k v o = Some o' -> field k' o' = field k' o.
Proof.
  intros Hne. revert o'.
  induction o as [|[k1 v1] r IH]; intros o' H; cbn [replace_member] in H.
  - discriminate.
  - destruct (String.eqb k k1) eqn:E.
    + injection H as <-. cbn [field]. apply String.eqb_eq in E. subst k1.
      destruct (String.eqb k' k) eqn:E'; [|reflexivity].
      apply String.eqb_eq in E'. contradiction.
    + destruct (replace_member k v r) as [r'|]; [|discriminate].
      injection H as <-. cbn [field]. now rewrite (IH r' eq_refl).
Qed.

Lemma replace_member_none k v o :
  replace_member k v o = None -> field k o = None.
Proof.
  induction o as [|[k' v'] r IH]; intros H; cbn [replace_member] in H; [reflexivity|].
  cbn [field]. destruct (String.eqb k k'); [discriminate|].
  destruct (replace_member k v r); [discriminate|]. now apply IH.
Qed.

Lemma field_insert_index_same (n : N) k v o :
  field k o = None -> field k (insert_index n k v o) = Some v.
Proof.
  induction o as [|[k' v'] r IH]; intros H; cbn [insert_index field] in *.
  - now rewrite String.eqb_refl.
  - destruct (String.eqb k k') eqn:E; [discriminate|].
    destruct (is_index k') as [n'|]; [destruct (n' <? n)%N|]; cbn [field];
      rewrite ?String.eqb_refl, ?E; auto.
Qed.

Lemma field_insert_index_other (n : N) k k' v o :
  k' <> k -> field k' (insert_index n k v o) = field k' o.
Proof.
  intros Hne. apply String.eqb_neq in Hne.
  induction o as [|[k1 v1] r IH]; cbn [insert_index field].
  - now rewrite Hne.
  - destruct (is_index k1) as [n'|]; [destruct (n' <? n)%N|]; cbn [field];
      rewrite ?Hne, ?IH; reflexivity.
Qed.

Lemma field_app_same k v o :
  field k o = None -> field k (o ++ [(k, v)])%list = Some v.
Proof.
  induction o as [|[k' v'] r IH]; intros H; cbn [app field] in *.
  - now rewrite String.eqb_refl.
  - destruct (String.eqb k k'); [discriminate | auto].
Qed.

Lemma field_app_other k k' v o :
  k' <> k -> field k' (o ++ [(k, v)])%list = field k' o.
Proof.
  intros Hne. apply String.eqb_neq in Hne.
  induction o as [|[k1 v1] r IH]; cbn [app field].
  - now rewrite Hne.
  - now rewrite IH.
Qed.

Lemma field_assign_same k v o :
  k <> "__proto__" -> field k (assign o k v) = Some v.
Proof.
  intros Hne. apply String.eqb_neq in Hne. unfold assign. rewrite Hne.
  destruct (replace_member k v o) as [o'|] eqn:E.
  - eapply field_replace_same; eassumption.
  - apply replace_member_none in E.
    destruct (is_index k); [now apply field_insert_index_same | now apply field_app_same].
Qed.

Lemma field_assign_other k k' v o :
  k' <> k -> field k' (assign o k v) = field k' o.
Proof.
  intros Hne. unfold assign. destruct (String.eqb k "__proto__"); [reflexivity|].
  destruct (replace_member k v o) as [o'|] eqn:E.
  - eapply field_replace_other; eassumption.
  - destruct (is_index k); [now apply field_insert_index_other | now apply field_app_other].
Qed.

End Members.

Section Prefixes.

Lemma countKey_prefixed (f : string) : JS.startsWith (Part000.countKey f) "download:" = true.
Proof.
  unfold JS.startsWith, Part000.countKey. rewrite !app_cons, app_nil. cbn.
  now destruct f.
Qed.

Lemma prefixed_countKey (name : string) :
  JS.startsWith name "download:" = true ->
  name = Part000.countKey (JS.drop_chars (String.length "download:") name).
Proof.
  intros H. apply startsWith_inv in H as [rest ->]. reflexivity.
Qed.

Lemma countKey_inj (f g : string) : Part000.countKey f = Part000.countKey g -> f = g.
Proof. intros H. unfold Part000.countKey in H. cbn in H. now inversion H. Qed.

Lemma count_or_zero (count : option string) :
  Num.parseInt (if truthy_opt count then JS.toStringU count else "0")
  = Part000.downloads_of count.
Proof. unfold Part000.downloads_of. now destruct (truthy_opt count). Qed.

End Prefixes.

Section AllStats.

Variable counters : gmap string string.

Lemma collectStats_healthy (keys : list string) :
  forall stats total w,
    ZED_DOWNLOADS w = counters -> (forall h c, fault w h c = None) ->
    exists stats' w',
      Part000.collectStats keys stats total w
      = (Ok (stats',
             fold_left (fun sum k => Num.add sum (Part000.downloads_of (counters !! k)))
                       (List.filter (fun k => JS.startsWith k "download:") keys) total), w')
      /\ Frame.same_stores w w'
      /\ calls w' = (calls w
                     ++ map KVGet (List.filter (fun k => JS.startsWith k "download:") keys))%list
      /\ (forall f, f <> "__proto__" -> NoDup keys -> Part000.countKey f ∈ keys ->
            field f stats'
            = Some (JNumber (Part000.downloads_of (counters !! Part000.countKey f))))
      /\ (forall f, Part000.countKey f ∉ keys -> field f stats' = field f stats).
Proof.
  induction keys as [|name rest IH]; intros stats total w Hz Hf;
    cbn [Part000.collectStats List.filter].
  - exists stats, w. rewrite app_nil_r. repeat split; try reflexivity.
    intros f _ _ H. now apply elem_of_nil in H.
  - destruct (JS.startsWith name "download:") eqn:Hp.
    + unfold bind. rewrite kv_get_ok by apply Hf. rewrite Hz. cbv zeta.
      rewrite count_or_zero.
      destruct (IH (assign stats (JS.drop_chars (String.length "download:") name)
                      (JNumber (Part000.downloads_of (counters !! name))))
                   (Num.add total (Part000.downloads_of (counters !! name)))
                   (record_call (KVGet name) w) Hz Hf)
        as (stats' & w' & Hrun & (Hm & Hz' & Hf') & Hc & Hin & Hout).
      exists stats', w'. split; [exact Hrun|]. split; [repeat split; assumption|].
      split; [rewrite Hc; cbn; now rewrite <- app_assoc|]. split.
      * intros f Hne Hnd [Hhd|Htl]%elem_of_cons.
        -- subst name. apply NoDup_cons in Hnd as [Hnot _].
           rewrite Hout by exact Hnot.
           change (JS.drop_chars (String.length "download:") (Part000.countKey f)) with f.
           now apply field_assign_same.
        -- apply NoDup_cons in Hnd as [_ Hnd]. now apply Hin.
      * intros f [Hhd Htl]%not_elem_of_cons. rewrite Hout by exact Htl.
        apply field_assign_other. intros ->. apply Hhd.
        now rewrite <- prefixed_countKey.
    + destruct (IH stats total w Hz Hf) as (stats' & w' & Hrun & Hs & Hc & Hin & Hout).
      exists stats', w'. split; [exact Hrun|]. split; [exact Hs|]. split; [exact Hc|].
      split.
      * intros f Hne Hnd [Hhd|Htl]%elem_of_cons.
        -- subst name. rewrite countKey_prefixed in Hp. discriminate.
        -- apply NoDup_cons in Hnd as [_ Hnd]. now apply Hin.
      * intros f [_ Htl]%not_elem_of_cons. now apply Hout.
Qed.

End AllStats.

(** X15. With the counter store answering, [/all-stats] answers 200 with a
    [stats] object that gives every file whose counter is among the keys the
    listing call returns the number [/stats/] would give for it (the name
    [__proto__] apart) and has no member for any other file;
    [total_downloads] is the sum of the listed counters under the prefix
    [download:].  The listing call returns the first 1000 keys in order and
    the worker follows no cursor: a namespace of at most 1000 keys is listed
    whole.  The handler lists once, reads each listed key under the prefix
    once, reads no other key, and changes neither store. *)
Theorem all_stats_reports_the_listed_counters (w : World) :
  (forall h c, fault w h c = None) ->
  exists r w' fields stats,
    Part000.getAllStats w = (Ok r, w')
    /\ status r = 200
    /\ body r = BodyText (stringify (JObject fields))
    /\ field "success" fields = Some (JBool true)
    /\ field "stats" fields = Some (JObject stats)
    /\ (forall f, f <> "__proto__" ->
          Part000.countKey f ∈ map fst (listed (ZED_DOWNLOADS w)) ->
          field f stats
          = Some (JNumber (Part000.downloads_of (ZED_DOWNLOADS w !! Part000.countKey f))))
    /\ (forall f, Part000.countKey f ∉ map fst (listed (ZED_DOWNLOADS w)) ->
          field f stats = None)
    /\ ((length (map_to_list (ZED_DOWNLOADS w)) <= LIST_LIMIT)%nat ->
        forall f, is_Some (ZED_DOWNLOADS w !! Part000.countKey f) ->
                  Part000.countKey f ∈ map fst (listed (ZED_DOWNLOADS w)))
    /\ field "total_downloads" fields
       = Some (JNumber
           (fold_left (fun sum k => Num.add sum (Part000.downloads_of (ZED_DOWNLOADS w !! k)))
                      (List.filter (fun k => JS.startsWith k "download:")
                                   (map fst (listed (ZED_DOWNLOADS w))))
                      (Num.Num 0)))
    /\ calls w' = (calls w ++ KVList
                     :: map KVGet (List.filter (fun k => JS.startsWith k "download:")
                                               (map fst (listed (ZED_DOWNLOADS w)))))%list
    /\ Frame.same_stores w w'.
Proof.
  intros Hw.
  destruct (collectStats_healthy (ZED_DOWNLOADS w) (map fst (listed (ZED_DOWNLOADS w)))
              [] (Num.Num 0) (record_call KVList w) eq_refl Hw)
    as (stats & w' & Hrun & (Hm & Hz & Hf) & Hc & Hin & Hout).
  eexists _, w', _, stats. split.
  - unfold Part000.getAllStats, try_catch. unfold bind at 1.
    unfold kv_list, backend. rewrite Hw. cbn beta iota zeta.
    change (ZED_DOWNLOADS (record_call KVList w)) with (ZED_DOWNLOADS w).
    unfold bind at 1. rewrite Hrun. unfold ret. reflexivity.
  - split; [reflexivity|]. split; [reflexivity|]. split; [reflexivity|].
    split; [reflexivity|].
    split; [intros f Hne Hlisted; apply Hin; [exact Hne | apply listed_keys_NoDup | exact Hlisted]|].
    split; [intros f Hnot; now rewrite Hout|].
    split; [intros Hlen f; now apply listed_key_all|].
    split; [reflexivity|]. split; [rewrite Hc; cbn; now rewrite <- app_assoc|].
    repeat split; assumption.
Qed.

Lemma all_stats_reports_the_listed_counters_witness :
  let w := Samples.world [] [("download:one.mp3", "4"); ("download:two.mp3", "5");
                             ("visits", "70")] Samples.healthy in
  exists r w' fields stats,
    Part000.getAllStats w = (Ok r, w')
    /\ field "stats" fields = Some (JObject stats)
    /\ field "two.mp3" stats = Some (JNumber (Num.Num 5))
    /\ field "total_downloads" fields = Some (JNumber (Num.Num 9)).
Proof.
  cbv zeta.
  destruct (all_stats_reports_the_listed_counters
              (Samples.world [] [("download:one.mp3", "4"); ("download:two.mp3", "5");
                                 ("visits", "70")] Samples.healthy)
              (fun _ _ => eq_refl))
    as (r & w' & fields & stats & Hrun & _ & _ & _ & Hs & Hin & _ & _ & Ht & _).
  exists r, w', fields, stats. split; [exact Hrun|]. split; [exact Hs|]. split.
  - rewrite Hin; [vm_compute; reflexivity | discriminate |].
    apply list_elem_of_In. vm_compute. tauto.
  - rewrite Ht. vm_compute. reflexivity.
Defined.

(** ** Links of the listing *)

Section Escapes.

(** A text without [/] is one piece for a separator that starts with [/]. *)
Lemma split_go_slashless (sep t : string) :
  Forall (fun a => a <> "/"%char) (list_ascii_of_string t) ->
  forall acc, JS.split_go (String "/" sep) 0 acc t = [JS.rev_onto acc EmptyString +:+ t].
Proof.
  induction t as [|a t IH]; intros Ht acc; cbn [JS.split_go].
  - now rewrite append_nil_r.
  - cbn [list_ascii_of_string] in Ht. apply Forall_cons in Ht as [Ha Ht].
    cbn [String.prefix]. destruct (ascii_dec "/" a) as [<-|_]; [contradiction|].
    rewrite (IH Ht). cbn [JS.rev_onto]. f_equal.
    now rewrite !rev_onto_app, app_cons, !app_nil.
Qed.

Lemma unreserved_facts (a : ascii) :
  JS.unreserved a = true -> a <> "%"%char /\ a <> "/"%char.
Proof.
  destruct a as [[] [] [] [] [] [] [] []]; cbv; intros H; split; congruence.
Qed.

Lemma hexdigit_facts (a : ascii) :
  (nat_of_ascii a < 128)%nat ->
  JS.hexdigit (nat_of_ascii a / 16) <> "/"%char
  /\ JS.hexdigit (nat_of_ascii a mod 16) <> "/"%char
  /\ JS.hexval (JS.hexdigit (nat_of_ascii a / 16)) = Some (nat_of_ascii a / 16)%nat
  /\ JS.hexval (JS.hexdigit (nat_of_ascii a mod 16)) = Some (nat_of_ascii a mod 16)%nat.
Proof.
  destruct a as [[] [] [] [] [] [] [] []]; intros H;
    try (exfalso; vm_compute in H; lia);
    repeat split; vm_compute; congruence.
Qed.

Lemma encodeURIComponent_slashless (s : string) :
  Forall (fun a => (nat_of_ascii a < 128)%nat) (list_ascii_of_string s) ->
  Forall (fun a => a <> "/"%char) (list_ascii_of_string (JS.encodeURIComponent s)).
Proof.
  induction s as [|a s IH]; intros Hs; cbn [JS.encodeURIComponent list_ascii_of_string] in *.
  - constructor.
  - apply Forall_cons in Hs as [Ha Hs].
    destruct (JS.unreserved a) eqn:E; cbv zeta; cbn [list_ascii_of_string].
    + constructor; [now apply unreserved_facts | now apply IH].
    + destruct (hexdigit_facts a Ha) as (H1 & H2 & _).
      repeat constructor; [discriminate | assumption | assumption | now apply IH].
Qed.

Lemma decode_encode_ascii (s : string) :
  Forall (fun a => (nat_of_ascii a < 128)%nat) (list_ascii_of_string s) ->
  JS.decodeURIComponent (JS.encodeURIComponent s) = Some s.
Proof.
  unfold JS.decodeURIComponent.
  induction s as [|a s IH]; intros Hs; cbn [JS.encodeURIComponent list_ascii_of_string] in *.
  - reflexivity.
  - apply Forall_cons in Hs as [Ha Hs]. specialize (IH Hs).
    destruct (JS.unescape (JS.encodeURIComponent s)) as [ts|] eqn:Hts; [|discriminate].
    cbn in IH.
    destruct (JS.unreserved a) eqn:E; cbv zeta.
    + destruct (unreserved_facts a E) as [Hp _].
      assert (JS.unescape (String a (JS.encodeURIComponent s)) = Some (JS.Raw a :: ts)) as ->.
      { destruct a as [[] [] [] [] [] [] [] []]; try (exfalso; now apply Hp);
          cbn [JS.unescape]; now rewrite Hts. }
      cbn. now rewrite IH.
    + destruct (hexdigit_facts a Ha) as (_ & _ & H1 & H2).
      cbn [JS.unescape]. rewrite H1, H2, Hts. cbn [fmap option_fmap option_map mbind option_bind].
      cbn [JS.assemble].
      assert ((16 * (nat_of_ascii a / 16) + nat_of_ascii a mod 16)%nat = nat_of_ascii a) as ->.
      { symmetry. apply Nat.div_mod_eq. }
      apply Nat.ltb_lt in Ha. rewrite Ha, IH. cbn. now rewrite ascii_nat_embedding.
Qed.

End Escapes.

Section Pieces.

Lemma prefix_app (p r : string) : String.prefix p (p +:+ r) = true.
Proof.
  induction p as [|a p IH].
  - rewrite app_nil. now destruct r.
  - rewrite app_cons. cbn [String.prefix]. destruct (ascii_dec a a); [exact IH | contradiction].
Qed.

Lemma split_go_skip (sep x t acc : string) :
  JS.split_go sep (String.length x) acc (x +:+ t) = JS.split_go sep 0 acc t.
Proof.
  induction x as [|b x IH].
  - now rewrite app_nil.
  - rewrite app_cons. cbn [String.length JS.split_go]. rewrite IH. now destruct t.
Qed.

(** A path made of a route prefix and a text without [/] splits into the
    empty piece and that text. *)
Lemma split_route (sep t : string) :
  Forall (fun a => a <> "/"%char) (list_ascii_of_string t) ->
  JS.split (String "/" sep +:+ t) (String "/" sep) = [EmptyString; t].
Proof.
  intros Ht. unfold JS.split. rewrite app_cons. cbn [JS.split_go].
  change (String "/" (sep +:+ t)) with (String "/" sep +:+ t) at 1.
  rewrite prefix_app. cbn [JS.rev_onto String.length].
  replace (S (String.length sep) - 1)%nat with (String.length sep) by lia.
  rewrite split_go_skip, (split_go_slashless _ _ Ht). cbn [JS.rev_onto].
  now rewrite app_nil.
Qed.

End Pieces.

(** X16. Percent-encoding a name of ASCII characters gives a text without
    [/] that decodes back to the name, so a path made of a route prefix and
    the encoded name splits into the empty piece and the encoded name. *)
Theorem encoded_name_decodes_back (name sep : string) :
  Forall (fun a => (nat_of_ascii a < 128)%nat) (list_ascii_of_string name) ->
  JS.decodeURIComponent (JS.encodeURIComponent name) = Some name
  /\ JS.split (String "/" sep +:+ JS.encodeURIComponent name) (String "/" sep)
     = [EmptyString; JS.encodeURIComponent name].
Proof.
  intros H. split; [now apply decode_encode_ascii|].
  apply split_route. now apply encodeURIComponent_slashless.
Qed.

Lemma encoded_name_decodes_back_witness :
  JS.encodeURIComponent "songs/one & two.mp3" = "songs%2Fone%20%26%20two.mp3"
  /\ JS.decodeURIComponent (JS.encodeURIComponent "songs/one & two.mp3")
     = Some "songs/one & two.mp3"
  /\ JS.split ("/stats/" +:+ JS.encodeURIComponent "songs/one & two.mp3") "/stats/"
     = [EmptyString; JS.encodeURIComponent "songs/one & two.mp3"].
Proof.
  split; [reflexivity|].
  apply (encoded_name_decodes_back "songs/one & two.mp3" "stats/").
  repeat constructor; vm_compute; lia.
Defined.

(** X17. The [stats_url] that the listing gives for an object with an ASCII
    name leads back to the counter of that object: with the read answering,
    the request is answered 200 with the name, the key [download:] followed by
    the name, and the number the counter holds (0 without a counter), after
    one read of that key. *)
Theorem stats_link_reads_the_counter (request : Request) (w : World) (key : string) :
  method request <> "OPTIONS" ->
  pathname (url request) = "/stats/" +:+ JS.encodeURIComponent key ->
  key <> EmptyString ->
  Forall (fun a => (nat_of_ascii a < 128)%nat) (list_ascii_of_string key) ->
  fault w (calls w) (KVGet (Part000.countKey key)) = None ->
  exists r fields,
    Part000.fetch request w = (Ok r, record_call (KVGet (Part000.countKey key)) w)
    /\ status r = 200
    /\ body r = BodyText (stringify (JObject fields))
    /\ field "success" fields = Some (JBool true)
    /\ field "filename" fields = Some (JString key)
    /\ field "key" fields = Some (JString (Part000.countKey key))
    /\ field "downloads" fields
       = Some (JNumber (Part000.downloads_of (ZED_DOWNLOADS w !! Part000.countKey key))).
Proof.
  intros Hm Hpath Hne Hascii Hfault.
  assert (Hp : JS.startsWith (pathname (url request)) "/stats/" = true).
  { rewrite Hpath. apply prefix_app. }
  destruct (stats_not_others _ Hp) as (Hg & Hd).
  assert (Hseg : item1 (JS.split (pathname (url request)) "/stats/")
                 = Some (JS.encodeURIComponent key)).
  { rewrite Hpath.
    now rewrite (split_route "stats/" _ (encodeURIComponent_slashless _ Hascii)). }
  assert (Htruthy : truthy_opt (Some (JS.encodeURIComponent key)) = true).
  { destruct key as [|a key]; [contradiction|]. cbn [JS.encodeURIComponent].
    now destruct (JS.unreserved a). }
  eexists. eexists. split.
  - unfold Part000.fetch. rewrite Hg, Hd, Hp, Hseg.
    apply String.eqb_neq in Hm. rewrite Hm, Htruthy.
    cbn [negb]. unfold Part000.stats, try_catch. cbn [JS.toStringU].
    rewrite (decode_encode_ascii _ Hascii). cbn [lift_uri]. unfold bind at 1. unfold ret at 1.
    unfold bind at 1. rewrite (kv_get_ok _ _ Hfault).
    unfold bind, ret, now_iso. reflexivity.
  - repeat split; reflexivity.
Qed.

Lemma stats_link_reads_the_counter_witness :
  let request := Samples.request "GET" "/stats/songs%2Fone%20%26%20two.mp3" [] in
  let w := Samples.world [] [("download:songs/one & two.mp3", "3")] Samples.healthy in
  exists r fields,
    fst (Part000.fetch request w) = Ok r
    /\ body r = BodyText (stringify (JObject fields))
    /\ field "filename" fields = Some (JString "songs/one & two.mp3")
    /\ field "downloads" fields = Some (JNumber (Num.Num 3)).
Proof.
  cbv zeta.
  destruct (stats_link_reads_the_counter
              (Samples.request "GET" "/stats/songs%2Fone%20%26%20two.mp3" [])
              (Samples.world [] [("download:songs/one & two.mp3", "3")] Samples.healthy)
              "songs/one & two.mp3")
    as (r & fields & Hrun & _ & Hbody & _ & Hname & _ & Hdl);
    [discriminate | reflexivity | discriminate
    | repeat constructor; vm_compute; lia | reflexivity |].
  exists r, fields. rewrite Hrun. split; [reflexivity|]. split; [exact Hbody|].
  split; [exact Hname|]. rewrite Hdl. vm_compute. reflexivity.
Defined.

(** ** Malformed escapes *)

(** X18. A name with a malformed percent escape is not answered on the routes
    that decode it outside a [try]: under [/generate/], [/download/] and
    [/stats/] the request fails with a [URIError] (under [/stats/] the handler
    catches the first one and decodes again while building the answer), and
    no backend is called.  Both revisions behave so on the routes they have. *)
Theorem malformed_escape_is_thrown (request : Request) (w : World) (filename : string) :
  method request <> "OPTIONS" ->
  JS.decodeURIComponent filename = None ->
  (JS.startsWith (pathname (url request)) "/generate/" = true
   /\ item1 (JS.split (pathname (url request)) "/generate/") = Some filename)
  \/ (JS.startsWith (pathname (url request)) "/download/" = true
      /\ item1 (JS.split (pathname (url request)) "/download/") = Some filename)
  \/ (JS.startsWith (pathname (url request)) "/stats/" = true
      /\ item1 (JS.split (pathname (url request)) "/stats/") = Some filename) ->
  Part000.fetch request w = (Throw (URIError "URI malformed"), w)
  /\ (JS.startsWith (pathname (url request)) "/stats/" = false ->
      IndexJs.fetch request w = (Throw (URIError "URI malformed"), w)).
Proof.
  intros Hm Hdec Hroute. apply String.eqb_neq in Hm.
  assert (Htruthy : truthy_opt (Some filename) = true).
  { destruct filename; [discriminate | reflexivity]. }
  unfold Part000.fetch, IndexJs.fetch. rewrite Hm.
  destruct Hroute as [[Hp Hseg] | [[Hp Hseg] | [Hp Hseg]]].
  - rewrite Hp, Hseg. cbn [JS.toStringU]. rewrite Hdec. split; [reflexivity | reflexivity].
  - rewrite (download_not_generate _ Hp), Hp, Hseg. cbn [JS.toStringU]. rewrite Hdec.
    split; [reflexivity | reflexivity].
  - destruct (stats_not_others _ Hp) as (Hg & Hd). rewrite Hg, Hd, Hp, Hseg, Htruthy.
    split; [|intros; discriminate].
    cbn [negb]. unfold Part000.stats, try_catch. cbn [JS.toStringU]. rewrite Hdec.
    reflexivity.
Qed.

Lemma malformed_escape_is_thrown_witness :
  let w := Samples.world [] [("download:100%", "3")] Samples.healthy in
  Part000.fetch (Samples.request "GET" "/stats/100%" []) w
  = (Throw (URIError "URI malformed"), w).
Proof.
  cbv zeta.
  apply (malformed_escape_is_thrown
           (Samples.request "GET" "/stats/100%" [])
           (Samples.world [] [("download:100%", "3")] Samples.healthy) "100%").
  - discriminate.
  - reflexivity.
  - right. right. split; reflexivity.
Defined.

(** ** A failing listing *)

(** X19. When the listing of the bucket fails, the revision with counters
    answers 500 with the text [Error listing files]; the revision without
    counters has no [try] around the listing and fails with the error of the
    bucket.  Neither makes another call. *)
Theorem listing_failure_by_revision (w : World) (msg : string) :
  fault w (calls w) R2List = Some msg ->
  Part000.listFiles w
  = (Ok (Response_new (BodyText "Error listing files") (Some 500) []), record_call R2List w)
  /\ IndexJs.listFiles w = (Throw (BackendError msg), record_call R2List w).
Proof.
  intros Hf. unfold Part000.listFiles, IndexJs.listFiles, try_catch, bind, r2_list, backend.
  rewrite Hf. split; reflexivity.
Qed.

Lemma listing_failure_by_revision_witness :
  let w := Samples.world [("report.pdf", Samples.report)] []
             (fun _ c => match c with R2List => Some "R2 unavailable" | _ => None end) in
  (exists r, fst (Part000.listFiles w) = Ok r /\ status r = 500)
  /\ fst (IndexJs.listFiles w) = Throw (BackendError "R2 unavailable").
Proof.
  cbv zeta.
  destruct (listing_failure_by_revision
              (Samples.world [("report.pdf", Samples.report)] []
                 (fun _ c => match c with R2List => Some "R2 unavailable" | _ => None end))
              "R2 unavailable" eq_refl) as [Hnew Hold].
  rewrite Hnew, Hold. split; [eexists; split; reflexivity | reflexivity].
Defined.

(** ** Headers of a delivered file *)

(** X20. A file with an ASCII name delivered by [src/index.js] carries four
    headers and no other: the forced-download header naming the file, the caching header
    with the expiry of a year, and the two CORS headers.  An object of the
    bucket has no [headers] member for [new Headers] to copy, so nothing of
    the object but its bytes is in the response: in particular it has no
    [Content-Type]. *)
Theorem delivered_headers (request : Request) (filename : string)
    (object : R2Object) (w : World) :
  filename <> EmptyString ->
  Part000.isValidFile filename = true ->
  fault w (calls w) (R2Get filename) = None ->
  media w !! filename = Some object ->
  valid_value filename = true ->
  Forall (fun a => (nat_of_ascii a < 128)%nat) (list_ascii_of_string filename) ->
  exists r,
    IndexJs.handleDownload request filename w = (Ok r, record_call (R2Get filename) w)
    /\ status r = 200
    /\ body r = BodyStream (obj_body object)
    /\ headers r = [("content-disposition", contentDisposition filename);
                    ("cache-control", "public, max-age=31536000, immutable");
                    ("access-control-allow-origin", "*");
                    ("access-control-allow-methods", "GET, HEAD, OPTIONS")]
    /\ Headers_get (headers r) "Content-Type" = None.
Proof.
  intros Hne Hvalid Hfault Hfound Hsafe _. eexists. split.
  - rewrite (handleDownload_index request filename w Hne Hvalid Hfault _ Hfound), Hsafe.
    reflexivity.
  - repeat split.
Qed.

Lemma delivered_headers_witness :
  let request := Samples.request "GET" "/download/report.pdf" [] in
  let w := Samples.world [("report.pdf", Samples.report)] [] Samples.healthy in
  exists r,
    fst (IndexJs.fetch request w) = Ok r
    /\ Headers_get (headers r) "Cache-Control" = Some "public, max-age=31536000, immutable"
    /\ Headers_get (headers r) "Content-Type" = None.
Proof.
  cbv zeta.
  assert (Hne : "report.pdf" <> EmptyString) by discriminate.
  assert (Hascii : Forall (fun a => (nat_of_ascii a < 128)%nat)
                     (list_ascii_of_string "report.pdf"))
    by (repeat constructor; vm_compute; lia).
  destruct (delivered_headers
              (Samples.request "GET" "/download/report.pdf" []) "report.pdf" Samples.report
              (Samples.world [("report.pdf", Samples.report)] [] Samples.healthy)
              Hne eq_refl eq_refl eq_refl eq_refl Hascii)
    as (r & Hrun & _ & _ & Hh & Hct).
  exists r. split; [|split; [rewrite Hh; reflexivity | exact Hct]].
  change (fst (IndexJs.handleDownload (Samples.request "GET" "/download/report.pdf" [])
                 "report.pdf"
                 (Samples.world [("report.pdf", Samples.report)] [] Samples.healthy)) = Ok r).
  now rewrite Hrun.
Defined.
